(** * SEOTool: the save stage and the streaming relay of [app.py]

    A shallow embedding of the parts of [app.py] that have a contract:
    the section extractor and the export writer of [save_article], and the
    server-sent-event generator shared by the four generation routes.

    Python values are modelled as follows.
    - A [str] is a list of Unicode code points ([pystr]).
    - A [dict] with string keys and string values is a [gmap pystr pystr].
    - An exception is a value of [exn]; a computation that can raise has a
      [result] type, and [try ... except ValueError] is [except_ValueError].
    - The clock, the home directory, the directories and the files are
      fields of [World], passed explicitly; a call that the file system
      or a codec refuses raises, and what it has done until then is not
      kept. *)

From Stdlib Require Import String Ascii Zpow_facts.
From stdpp Require Import gmap list.

Local Open Scope N_scope.
Local Open Scope nat_scope.

(** ** Python strings *)

Module PyStr.

(** A character is its Unicode code point. *)
Definition char := N.
Definition pystr := list char.

(** The string written as an ASCII literal. *)
Definition py (s : string) : pystr :=
  map N_of_ascii (list_ascii_of_string s).

Definition nl : pystr := [10%N].
Definition dquote : pystr := [34%N].

(** [len(s)] *)
Definition len (s : pystr) : nat := length s.

(** [s.startswith(sub)] *)
Fixpoint startswith (sub s : pystr) : bool :=
  match sub, s with
  | [], _ => true
  | _ :: _, [] => false
  | a :: sub', b :: s' => if N.eqb a b then startswith sub' s' else false
  end.

(** [s.endswith(sub)] *)
Definition endswith (sub s : pystr) : bool :=
  startswith (rev sub) (rev s).

(** [s[i:j]] for non-negative [i] and [j]: both ends are clipped to the
    length of [s], and the slice is empty when [j <= i]. *)
Definition slice (s : pystr) (i j : nat) : pystr :=
  take (j - i) (drop i s).

(** [s[:n]] *)
Definition prefix_slice (s : pystr) (n : nat) : pystr := slice s 0 n.

(** [Py_UNICODE_ISSPACE]: the characters [str.strip()] removes. *)
Definition isspace (c : char) : bool :=
  ((9 <=? c) && (c <=? 13) ||
   (28 <=? c) && (c <=? 32) ||
   (c =? 133) || (c =? 160) || (c =? 5760) ||
   (8192 <=? c) && (c <=? 8202) ||
   (c =? 8232) || (c =? 8233) || (c =? 8239) || (c =? 8287) ||
   (c =? 12288))%N.

(** [s] without its longest prefix of characters satisfying [p]. *)
Fixpoint lstrip_by (p : char -> bool) (s : pystr) : pystr :=
  match s with
  | [] => []
  | c :: s' => if p c then lstrip_by p s' else s
  end.

(** [s] without its longest suffix of characters satisfying [p]. *)
Definition rstrip_by (p : char -> bool) (s : pystr) : pystr :=
  rev (lstrip_by p (rev s)).

(** [s.lstrip()] *)
Definition lstrip (s : pystr) : pystr := lstrip_by isspace s.

(** [s.rstrip()] *)
Definition rstrip (s : pystr) : pystr := rstrip_by isspace s.

(** [s.strip()] *)
Definition strip (s : pystr) : pystr := rstrip (lstrip s).

(** [s.replace(old, new)] where [old] and [new] are one character each. *)
Definition replace_char (old new : char) (s : pystr) : pystr :=
  map (fun c => if N.eqb c old then new else c) s.

End PyStr.
Export PyStr.

(** ** Exceptions *)

Inductive exn : Type :=
| ValueError                 (* [str.index] found nothing; a NUL in a path *)
| UnicodeEncodeError         (* a codec met a character it cannot encode *)
| KeyError (key : pystr)     (* a subscript of a dict with a missing key *)
| FileExistsError            (* a file where a directory is to be made *)
| NotADirectoryError         (* a file where a path goes through *)
| FileNotFoundError          (* no directory to hold the file *)
| IsADirectoryError          (* a directory where a file is to be opened *)
| APIError.                  (* the upstream call failed *)

(** [UnicodeEncodeError] is a subclass of [ValueError]. *)
Definition is_ValueError (e : exn) : bool :=
  match e with
  | ValueError | UnicodeEncodeError => true
  | _ => false
  end.

Inductive result (A : Type) : Type :=
| Ok (a : A)
| Raise (e : exn).
Arguments Ok {A} a.
Arguments Raise {A} e.

(** Sequencing: the first exception raised ends the computation. *)
#[export] Instance result_bind : MBind result := fun A B k m =>
  match m with
  | Ok a => k a
  | Raise e => Raise e
  end.
#[export] Instance result_ret : MRet result := fun A a => Ok a.

(** [try: body  except ValueError: handler]. Any other exception goes on. *)
Definition except_ValueError {A} (body : result A) (handler : result A)
  : result A :=
  match body with
  | Raise e => if is_ValueError e then handler else Raise e
  | other => other
  end.

(** ** [str.index] *)

(** The lowest position [>= i] of [s0] at which [sub] starts, where [s] is
    [s0] from position [i] on. *)
Fixpoint find_from (sub s : pystr) (i : nat) : option nat :=
  if startswith sub s then Some i
  else match s with
       | [] => None
       | _ :: s' => find_from sub s' (S i)
       end.

(** [s.index(sub, start)] for [start >= 0]: the lowest index [i >= start]
    with [s[i:i+len(sub)] == sub], and [ValueError] when there is none. *)
Definition index (s sub : pystr) (start : nat) : result nat :=
  if start <=? len s then
    match find_from sub (drop start s) start with
    | Some i => Ok i
    | None => Raise ValueError
    end
  else Raise ValueError.

(** ** The section extractor *)

(** The inner function [extract] of [save_article]. *)
Definition extract (raw start end_ : pystr) : result pystr :=
  except_ValueError
    (s0 ← index raw start 0;
     let s := s0 + len start in
     e ← index raw end_ s;
     Ok (strip (slice raw s e)))
    (Ok []).

Definition KEYWORDS : pystr := Eval cbv in py "---KEYWORDS---".
Definition TITLETAG : pystr := Eval cbv in py "---TITLETAG---".
Definition METADESC : pystr := Eval cbv in py "---METADESC---".
Definition ARTICLETITLE : pystr := Eval cbv in py "---ARTICLETITLE---".
Definition ARTICLECOPY : pystr := Eval cbv in py "---ARTICLECOPY---".
Definition FAQS : pystr := Eval cbv in py "---FAQS---".
Definition END_ : pystr := Eval cbv in py "---END---".

Definition k_keywords : pystr := Eval cbv in py "keywords".
Definition k_title_tag : pystr := Eval cbv in py "title_tag".
Definition k_meta_desc : pystr := Eval cbv in py "meta_desc".
Definition k_article_title : pystr := Eval cbv in py "article_title".
Definition k_article_copy : pystr := Eval cbv in py "article_copy".
Definition k_faqs : pystr := Eval cbv in py "faqs".

(** The dict display [sections = {...}]: the six values are computed in
    the order written, then the keys are inserted in that order. *)
Definition build_sections (raw : pystr) : result (gmap pystr pystr) :=
  v1 ← extract raw KEYWORDS TITLETAG;
  v2 ← extract raw TITLETAG METADESC;
  v3 ← extract raw METADESC ARTICLETITLE;
  v4 ← extract raw ARTICLETITLE ARTICLECOPY;
  v5 ← extract raw ARTICLECOPY FAQS;
  v6 ← extract raw FAQS END_;
  Ok (<[k_faqs := v6]> (<[k_article_copy := v5]> (<[k_article_title := v4]>
     (<[k_meta_desc := v3]> (<[k_title_tag := v2]> (<[k_keywords := v1]> ∅)))))).


(** ** Number formatting *)

Definition digit (d : N) : char := (48 + d)%N.

(** The decimal digits of [n], most significant first. *)
Fixpoint decimal_aux (fuel : nat) (n : N) : pystr :=
  match fuel with
  | 0 => []
  | S fuel' =>
      if (n <? 10)%N then [digit n]
      else decimal_aux fuel' (n / 10)%N ++ [digit (n mod 10)%N]
  end.

(** [str(n)] for a non-negative integer; a number has no more decimal
    digits than binary ones. *)
Definition decimal (n : N) : pystr := decimal_aux (S (N.size_nat n)) n.

(** [s.zfill(width)] for a string of digits. *)
Definition zfill (width : nat) (s : pystr) : pystr :=
  repeat (digit 0) (width - len s) ++ s.

(** ["%0<width>d" % n] *)
Definition fmt_d (width : nat) (n : N) : pystr := zfill width (decimal n).

(** One lowercase hexadecimal digit. *)
Definition hexdigit (d : N) : char :=
  (if d <? 10 then 48 + d else 87 + d)%N.

(** ['{0:04x}'.format(n)] for [n < 0x10000]. *)
Definition hex4 (n : N) : pystr :=
  [hexdigit ((n / 4096) mod 16); hexdigit ((n / 256) mod 16);
   hexdigit ((n / 16) mod 16); hexdigit (n mod 16)]%N.

(** ** [datetime] *)

Record datetime : Type := {
  year : N; month : N; day : N;
  hour : N; minute : N; second : N; microsecond : N
}.

(** The ranges of the fields of a [datetime] with a year of four digits,
    as every reading of a clock is: below the year 1000 the width of
    [%Y] depends on the C library. *)
Definition valid_datetime (t : datetime) : Prop :=
  (1000 <= year t <= 9999 /\ 1 <= month t <= 12 /\ 1 <= day t <= 31 /\
   hour t <= 23 /\ minute t <= 59 /\ second t <= 59 /\
   microsecond t <= 999999)%N.

(** [%B] in the C locale. *)
Definition month_name (m : N) : pystr :=
  match N.to_nat m with
  | 1 => py "January" | 2 => py "February" | 3 => py "March"
  | 4 => py "April" | 5 => py "May" | 6 => py "June"
  | 7 => py "July" | 8 => py "August" | 9 => py "September"
  | 10 => py "October" | 11 => py "November" | 12 => py "December"
  | _ => []
  end.

(** [t.strftime("%Y%m%d_%H%M%S")]; [%Y] is the year padded to four
    digits, the other fields are padded to two. *)
Definition strftime_stamp (t : datetime) : pystr :=
  fmt_d 4 (year t) ++ fmt_d 2 (month t) ++ fmt_d 2 (day t) ++ py "_" ++
  fmt_d 2 (hour t) ++ fmt_d 2 (minute t) ++ fmt_d 2 (second t).

(** [t.strftime('%d %B %Y, %H:%M')] *)
Definition strftime_long (t : datetime) : pystr :=
  fmt_d 2 (day t) ++ py " " ++ month_name (month t) ++ py " " ++
  fmt_d 4 (year t) ++ py ", " ++ fmt_d 2 (hour t) ++ py ":" ++
  fmt_d 2 (minute t).

(** [t.isoformat()] of a naive datetime: the fraction is printed only
    when the microseconds are not zero. *)
Definition isoformat (t : datetime) : pystr :=
  fmt_d 4 (year t) ++ py "-" ++ fmt_d 2 (month t) ++ py "-" ++
  fmt_d 2 (day t) ++ py "T" ++ fmt_d 2 (hour t) ++ py ":" ++
  fmt_d 2 (minute t) ++ py ":" ++ fmt_d 2 (second t) ++
  (if (microsecond t =? 0)%N then [] else py "." ++ fmt_d 6 (microsecond t)).

(** ** Dictionaries *)

(** [d[key]] *)
Definition getitem (d : gmap pystr pystr) (key : pystr) : result pystr :=
  match d !! key with
  | Some v => Ok v
  | None => Raise (KeyError key)
  end.

(** [d.get(key, default)] *)
Definition dict_get {V} (d : gmap pystr V) (key : pystr) (default : V) : V :=
  match d !! key with
  | Some v => v
  | None => default
  end.

(** ** Paths *)

Definition slash : char := 47%N.

(** [posixpath.expanduser("~/Desktop/SEO Articles")], where [userhome] is
    the home directory the environment reports: trailing slashes of the
    home directory are dropped and the rest of the path is appended. *)
Definition expanduser_output_dir (userhome : pystr) : pystr :=
  rstrip_by (N.eqb slash) userhome ++ py "/Desktop/SEO Articles".

(** [posixpath.join(a, b)] *)
Definition path_join (a b : pystr) : pystr :=
  if startswith [slash] b then b
  else if (len a =? 0) || endswith [slash] a then a ++ b
  else a ++ [slash] ++ b.

(** [p.rfind("/") + 1]: the position after the last slash, and 0 when
    there is no slash. *)
Fixpoint after_last_slash (p : pystr) : nat :=
  match p with
  | [] => 0
  | c :: p' =>
      match after_last_slash p' with
      | S i => S (S i)
      | 0 => if (c =? slash)%N then 1 else 0
      end
  end.

(** [s == "/" * len(s)] *)
Definition all_slashes (s : pystr) : bool := forallb (N.eqb slash) s.

(** [posixpath.dirname(p)]: what is in front of the last slash, without
    the slashes at its end unless it is made of slashes only. *)
Definition dirname (p : pystr) : pystr :=
  let head := take (after_last_slash p) p in
  if negb (len head =? 0) && negb (all_slashes head)
  then rstrip_by (N.eqb slash) head
  else head.

(** The directories above [p], the nearest first: [dirname] again and
    again, up to the root or the working directory. Each step shortens
    the name, so that [len p] steps are enough. *)
Fixpoint ancestors (fuel : nat) (p : pystr) : list pystr :=
  match fuel with
  | 0 => []
  | S fuel' =>
      let head := dirname p in
      if all_slashes head then [] else head :: ancestors fuel' head
  end.

(** ** Encodings *)

(** The code points U+D800 to U+DFFF. *)
Definition is_surrogate (c : char) : bool :=
  ((55296 <=? c) && (c <=? 57343))%N.

(** [s.encode("utf-8")] goes through: UTF-8 has no code for a
    surrogate. *)
Definition utf8_encodable (s : pystr) : bool :=
  forallb (λ c, negb (is_surrogate c)) s.

(** [os.fsencode(s)] goes through: the file-system encoding is UTF-8 with
    the error handler [surrogateescape], under which U+DC80 to U+DCFF
    stand for the bytes 0x80 to 0xFF. *)
Definition fs_encodable (s : pystr) : bool :=
  forallb (λ c, negb (is_surrogate c) || (56448 <=? c) && (c <=? 56575))%N s.

(** What every call that takes a path does with it first: the path is
    encoded, and a path with a NUL is refused. *)
Definition fspath (path : pystr) : result unit :=
  if negb (fs_encodable path) then Raise UnicodeEncodeError
  else if existsb (N.eqb 0) path then Raise ValueError
  else Ok ().

(** ** The world of [save_article] *)

(** What a written file holds: the text written, or the mapping handed
    to [json.dump]. *)
Inductive file_content : Type :=
| TextFile (text : pystr)
| JsonFile (record : gmap pystr pystr).

(** Every string of the mapping can be written in UTF-8. *)
Definition utf8_map (m : gmap pystr pystr) : Prop :=
  map_Forall (λ k v, utf8_encodable k = true ∧ utf8_encodable v = true) m.

(** The text goes through the UTF-8 encoder of the file; [json.dump]
    with [ensure_ascii=False] writes every key and value as it is, the
    quote, the backslash and the control characters apart. *)
Definition encodable (c : file_content) : bool :=
  match c with
  | TextFile text => utf8_encodable text
  | JsonFile record => bool_decide (utf8_map record)
  end.

(** The home directory, the clock, and the directories and files there
    are, by name. Permissions, links and the space left are not part of
    it: the file system refuses a request only for what is in the way. *)
Record World : Type := {
  userhome : pystr;                  (* the home directory *)
  clock : nat -> datetime;           (* successive values of [datetime.now()] *)
  reads : nat;                       (* how often the clock was read *)
  dirs : gset pystr;                 (* the directories *)
  files : gmap pystr file_content    (* the files *)
}.

Definition isdir (path : pystr) (w : World) : bool :=
  bool_decide (path ∈ dirs w).

Definition isfile (path : pystr) (w : World) : bool :=
  bool_decide (is_Some (files w !! path)).

(** [datetime.now()] *)
Definition now (w : World) : datetime * World :=
  (clock w (reads w),
   {| userhome := userhome w; clock := clock w; reads := S (reads w);
      dirs := dirs w; files := files w |}).

(** [os.makedirs(path, exist_ok=True)]: afterwards [path] and every
    directory above it are there, the missing ones having been made. A
    file in the place of one of them makes the call fail. *)
Definition makedirs (path : pystr) (w : World) : result World :=
  _ ← fspath path;
  let parents := ancestors (len path) path in
  if existsb (λ d, isfile d w) parents then Raise NotADirectoryError
  else if isfile path w then Raise FileExistsError
  else Ok {| userhome := userhome w; clock := clock w; reads := reads w;
             dirs := {[path]} ∪ (list_to_set parents ∪ dirs w);
             files := files w |}.

(** [with open(path, "w", encoding="utf-8") as f: ...], the file then
    holding [c]. [open] makes the file or empties it, in a directory that
    is there, the root and the working directory always being there; the
    write that follows fails on a string that UTF-8 cannot encode. What a
    failed call leaves behind is not kept. *)
Definition write_file (path : pystr) (c : file_content) (w : World)
  : result World :=
  _ ← fspath path;
  let parent := dirname path in
  if isfile parent w then Raise NotADirectoryError
  else if negb (all_slashes parent || isdir parent w) then Raise FileNotFoundError
  else if isdir path w then Raise IsADirectoryError
  else if encodable c
  then Ok {| userhome := userhome w; clock := clock w; reads := reads w;
             dirs := dirs w; files := <[path := c]> (files w) |}
  else Raise UnicodeEncodeError.

(** The JSON body of [POST /api/save]: each of the two fields may be
    missing. The values of the context are strings, as its data model
    has them. *)
Record save_request : Type := {
  raw_article : option pystr;
  context : option (gmap pystr pystr)
}.

(** The mapping given to [jsonify]. *)
Record save_response : Type := {
  success : bool;
  md_path : pystr;
  json_path : pystr;
  sections : gmap pystr pystr
}.

Definition k_primary_keyword : pystr := Eval cbv in py "primary_keyword".
Definition k_keywords_output : pystr := Eval cbv in py "keywords_output".
Definition k_generated_at : pystr := Eval cbv in py "generated_at".
Definition k_industry : pystr := Eval cbv in py "industry".
Definition k_target_audience : pystr := Eval cbv in py "target_audience".
Definition k_tone : pystr := Eval cbv in py "tone".
Definition k_brand_name : pystr := Eval cbv in py "brand_name".
Definition k_user_notes : pystr := Eval cbv in py "user_notes".

(** [context.get("primary_keyword", "article").replace(" ", "_")
      .replace("/", "-")[:30]] *)
Definition safe_kw (context : gmap pystr pystr) : pystr :=
  prefix_slice
    (replace_char 47%N 45%N
       (replace_char 32%N 95%N
          (dict_get context k_primary_keyword (py "article"))))
    30.

(** [f"{safe_kw}_{timestamp}"] *)
Definition file_base (context : gmap pystr pystr) (timestamp : pystr) : pystr :=
  safe_kw context ++ py "_" ++ timestamp.

(** The f-string [md], given the values of its nine fields. *)
Definition md_template
  (primary_keyword generated title_tag meta_desc keywords article_copy
   faqs keywords_output : pystr) : pystr :=
  py "# SEO ARTICLE OUTPUT" ++ nl ++ nl ++
  py "**Primary Keyword:** " ++ primary_keyword ++ nl ++
  py "**Generated:** " ++ generated ++ nl ++ nl ++
  py "---" ++ nl ++ nl ++
  py "## SEO META DATA" ++ nl ++ nl ++
  py "**Title Tag:** " ++ title_tag ++ nl ++ nl ++
  py "**Meta Description:** " ++ meta_desc ++ nl ++ nl ++
  py "**Keywords Used:** " ++ keywords ++ nl ++ nl ++
  py "---" ++ nl ++ nl ++
  py "## ARTICLE" ++ nl ++ nl ++
  article_copy ++ nl ++ nl ++
  py "---" ++ nl ++ nl ++
  py "## FREQUENTLY ASKED QUESTIONS" ++ nl ++ nl ++
  faqs ++ nl ++ nl ++
  py "---" ++ nl ++ nl ++
  py "## KEYWORD RESEARCH NOTES" ++ nl ++ nl ++
  keywords_output ++ nl ++ nl ++
  py "---" ++ nl ++
  py "*Generated by DIAL Agents SEO Article Tool*" ++ nl.

(** Evaluation of the f-string: the fields are evaluated left to right,
    and a subscript of [sections] raises [KeyError] on a missing key. *)
Definition render_md (context secs : gmap pystr pystr) (w : World)
  : result (pystr * World) :=
  let pk := dict_get context k_primary_keyword [] in
  let '(t, w) := now w in
  let generated := strftime_long t in
  title_tag ← getitem secs k_title_tag;
  meta_desc ← getitem secs k_meta_desc;
  keywords ← getitem secs k_keywords;
  article_copy ← getitem secs k_article_copy;
  faqs ← getitem secs k_faqs;
  let notes := dict_get context k_keywords_output (py "N/A") in
  Ok (md_template pk generated title_tag meta_desc keywords article_copy
        faqs notes, w).

(** [{"generated_at": ..., **context, **sections}]: a later entry
    replaces an earlier one with the same key. *)
Definition json_data (generated_at : pystr) (context secs : gmap pystr pystr)
  : gmap pystr pystr :=
  secs ∪ (context ∪ {[k_generated_at := generated_at]}).

(** The route [save_article]. The first step that raises ends it: the
    request is answered with an error, and the directories and files made
    until then stay where they are but are not kept here. *)
Definition save_article (data : save_request) (w : World)
  : result (save_response * World) :=
  let raw := default [] (raw_article data) in
  let context := default ∅ (context data) in
  secs ← build_sections raw;
  let output_dir := expanduser_output_dir (userhome w) in
  w ← makedirs output_dir w;
  let '(t, w) := now w in
  let timestamp := strftime_stamp t in
  let base := file_base context timestamp in
  '(md, w) ← render_md context secs w;
  let md_path := path_join output_dir (base ++ py ".md") in
  w ← write_file md_path (TextFile md) w;
  let '(t, w) := now w in
  let record := json_data (isoformat t) context secs in
  let json_path := path_join output_dir (base ++ py ".json") in
  w ← write_file json_path (JsonFile record) w;
  Ok ({| success := true; md_path := md_path; json_path := json_path;
         sections := secs |}, w).

(** ** The streaming relay *)

(** The replacement [json.encoder] makes for one character of a string
    when [ensure_ascii] is on. *)
Definition escape_char (c : char) : pystr :=
  (if c =? 34 then [92; 34]            (* the double quote *)
   else if c =? 92 then [92; 92]       (* the backslash *)
   else if c =? 8 then [92; 98]        (* \b *)
   else if c =? 12 then [92; 102]      (* \f *)
   else if c =? 10 then [92; 110]      (* \n *)
   else if c =? 13 then [92; 114]      (* \r *)
   else if c =? 9 then [92; 116]       (* \t *)
   else if (32 <=? c) && (c <=? 126) then [c]
   else if c <? 65536 then [92; 117] ++ hex4 c
   else
     let n := c - 65536 in
     let s1 := N.lor 55296 (N.land (N.shiftr n 10) 1023) in
     let s2 := N.lor 56320 (N.land n 1023) in
     [92; 117] ++ hex4 s1 ++ [92; 117] ++ hex4 s2)%N.

(** [encode_basestring_ascii(s)] *)
Definition encode_basestring_ascii (s : pystr) : pystr :=
  dquote ++ concat (map escape_char s) ++ dquote.

(** [json.dumps({'text': text})] *)
Definition json_dumps_text (text : pystr) : pystr :=
  py "{" ++ encode_basestring_ascii (py "text") ++ py ": " ++
  encode_basestring_ascii text ++ py "}".

(** [f"data: {json.dumps({'text': text})}\n\n"] *)
Definition sse_frame (text : pystr) : pystr :=
  py "data: " ++ json_dumps_text text ++ nl ++ nl.

(** ["data: [DONE]\n\n"] *)
Definition sse_done : pystr := py "data: [DONE]" ++ nl ++ nl.

(** How the upstream text stream ends: it closes, or the call fails. *)
Inductive stream_end : Type :=
| Closed
| Failed.

(** What [stream.text_stream] delivers: the fragments in arrival order
    and the way the stream ends. *)
Record upstream : Type := {
  fragments : list pystr;
  ending : stream_end
}.

(** The [for text in stream.text_stream: yield ...] loop. *)
Fixpoint relay_loop (texts : list pystr) : list pystr :=
  match texts with
  | [] => []
  | text :: rest => sse_frame text :: relay_loop rest
  end.

(** The generator [generate] of the four streaming routes: the chunks it
    yields, and whether it returns or raises after the last of them. *)
Definition generate (up : upstream) : list pystr * result unit :=
  match ending up with
  | Closed => (relay_loop (fragments up) ++ [sse_done], Ok ())
  | Failed => (relay_loop (fragments up), Raise APIError)
  end.

(** ** Occurrences of a marker, stated without the search *)

(** [sub] occurs in [s] at position [p]. *)
Definition occurs_at (sub s : pystr) (p : nat) : Prop :=
  ∃ a b, s = a ++ sub ++ b ∧ length a = p.

(** [p] is the lowest position [>= from] at which [sub] occurs in [s]. *)
Definition first_at (sub s : pystr) (from p : nat) : Prop :=
  from ≤ p ∧ occurs_at sub s p ∧ ∀ q, from ≤ q → q < p → ¬ occurs_at sub s q.

(** [sub] does not occur in [s] at any position [>= from]. *)
Definition absent_from (sub s : pystr) (from : nat) : Prop :=
  ∀ q, from ≤ q → ¬ occurs_at sub s q.

(** The first occurrence of the marker [m] in [raw] is the one that
    follows the text [before]. *)
Definition leads (m raw before : pystr) : Prop :=
  first_at m raw 0 (length before).

(** The section extractor in the words of its contract: the value [v] of
    the section between [start] and [end_]. Both searches are over the
    whole of [raw]; the first starts at position 0, the second right
    after the first occurrence of [start]. *)
Definition extract_spec (raw start end_ v : pystr) : Prop :=
  (absent_from start raw 0 ∧ v = []) ∨
  (∃ ps, first_at start raw 0 ps ∧
         absent_from end_ raw (ps + len start) ∧ v = []) ∨
  (∃ ps pe, first_at start raw 0 ps ∧
            first_at end_ raw (ps + len start) pe ∧
            v = strip (slice raw (ps + len start) pe)).

(** ** Well-formed blobs *)

(** The texts around the seven markers of a blob. *)
Record layout : Type := {
  pre : pystr;
  c_keywords : pystr;
  c_title_tag : pystr;
  c_meta_desc : pystr;
  c_article_title : pystr;
  c_article_copy : pystr;
  c_faqs : pystr;
  post : pystr
}.

(** The blob with the seven markers in order. *)
Definition assemble (l : layout) : pystr :=
  pre l ++ KEYWORDS ++ c_keywords l ++ TITLETAG ++ c_title_tag l ++
  METADESC ++ c_meta_desc l ++ ARTICLETITLE ++ c_article_title l ++
  ARTICLECOPY ++ c_article_copy l ++ FAQS ++ c_faqs l ++ END_ ++ post l.

(** The text in front of each marker. *)
Definition before_TITLETAG (l : layout) : pystr :=
  pre l ++ KEYWORDS ++ c_keywords l.
Definition before_METADESC (l : layout) : pystr :=
  before_TITLETAG l ++ TITLETAG ++ c_title_tag l.
Definition before_ARTICLETITLE (l : layout) : pystr :=
  before_METADESC l ++ METADESC ++ c_meta_desc l.
Definition before_ARTICLECOPY (l : layout) : pystr :=
  before_ARTICLETITLE l ++ ARTICLETITLE ++ c_article_title l.
Definition before_FAQS (l : layout) : pystr :=
  before_ARTICLECOPY l ++ ARTICLECOPY ++ c_article_copy l.
Definition before_END (l : layout) : pystr :=
  before_FAQS l ++ FAQS ++ c_faqs l.

(** [raw] holds the seven markers in order, laid out as [l] says, and the
    marker shown is the first occurrence of each. A blob in which every
    marker occurs once is of this kind. *)
Definition well_formed (raw : pystr) (l : layout) : Prop :=
  raw = assemble l ∧
  leads KEYWORDS raw (pre l) ∧
  leads TITLETAG raw (before_TITLETAG l) ∧
  leads METADESC raw (before_METADESC l) ∧
  leads ARTICLETITLE raw (before_ARTICLETITLE l) ∧
  leads ARTICLECOPY raw (before_ARTICLECOPY l) ∧
  leads FAQS raw (before_FAQS l) ∧
  leads END_ raw (before_END l).

(** The sections a well-formed blob is to give. *)
Definition expected_sections (l : layout) : gmap pystr pystr :=
  <[k_faqs := strip (c_faqs l)]>
    (<[k_article_copy := strip (c_article_copy l)]>
       (<[k_article_title := strip (c_article_title l)]>
          (<[k_meta_desc := strip (c_meta_desc l)]>
             (<[k_title_tag := strip (c_title_tag l)]>
                (<[k_keywords := strip (c_keywords l)]> ∅))))).

(** The same blob with the [---FAQS---] marker left out. *)
Definition assemble_without_FAQS (l : layout) : pystr :=
  pre l ++ KEYWORDS ++ c_keywords l ++ TITLETAG ++ c_title_tag l ++
  METADESC ++ c_meta_desc l ++ ARTICLETITLE ++ c_article_title l ++
  ARTICLECOPY ++ c_article_copy l ++ c_faqs l ++ END_ ++ post l.

(** Well-formed but for the [---FAQS---] marker, which occurs nowhere. *)
Definition well_formed_without_FAQS (raw : pystr) (l : layout) : Prop :=
  raw = assemble_without_FAQS l ∧
  leads KEYWORDS raw (pre l) ∧
  leads TITLETAG raw (before_TITLETAG l) ∧
  leads METADESC raw (before_METADESC l) ∧
  leads ARTICLETITLE raw (before_ARTICLETITLE l) ∧
  leads ARTICLECOPY raw (before_ARTICLECOPY l) ∧
  leads END_ raw (before_ARTICLECOPY l ++ ARTICLECOPY ++
                  c_article_copy l ++ c_faqs l) ∧
  absent_from FAQS raw 0.

(** The blob of the first end-to-end scenario. *)
Definition scenario1_layout : layout := {|
  pre := [];
  c_keywords := nl ++ py "foo, bar" ++ nl;
  c_title_tag := nl ++ py "T" ++ nl;
  c_meta_desc := nl ++ py "D" ++ nl;
  c_article_title := nl ++ py "H" ++ nl;
  c_article_copy := nl ++ py "Body" ++ nl;
  c_faqs := nl ++ py "Q/A" ++ nl;
  post := []
|}.

Definition scenario1 : pystr :=
  py "---KEYWORDS---" ++ nl ++ py "foo, bar" ++ nl ++
  py "---TITLETAG---" ++ nl ++ py "T" ++ nl ++
  py "---METADESC---" ++ nl ++ py "D" ++ nl ++
  py "---ARTICLETITLE---" ++ nl ++ py "H" ++ nl ++
  py "---ARTICLECOPY---" ++ nl ++ py "Body" ++ nl ++
  py "---FAQS---" ++ nl ++ py "Q/A" ++ nl ++
  py "---END---".

Definition scenario1_sections : gmap pystr pystr :=
  <[k_faqs := py "Q/A"]>
    (<[k_article_copy := py "Body"]>
       (<[k_article_title := py "H"]>
          (<[k_meta_desc := py "D"]>
             (<[k_title_tag := py "T"]>
                (<[k_keywords := py "foo, bar"]> ∅))))).

(** The blob of the second scenario: the first without its
    [---FAQS---] line. *)
Definition scenario2_layout : layout := {|
  pre := [];
  c_keywords := nl ++ py "foo, bar" ++ nl;
  c_title_tag := nl ++ py "T" ++ nl;
  c_meta_desc := nl ++ py "D" ++ nl;
  c_article_title := nl ++ py "H" ++ nl;
  c_article_copy := nl ++ py "Body" ++ nl;
  c_faqs := py "Q/A" ++ nl;
  post := []
|}.

Definition scenario2 : pystr :=
  py "---KEYWORDS---" ++ nl ++ py "foo, bar" ++ nl ++
  py "---TITLETAG---" ++ nl ++ py "T" ++ nl ++
  py "---METADESC---" ++ nl ++ py "D" ++ nl ++
  py "---ARTICLETITLE---" ++ nl ++ py "H" ++ nl ++
  py "---ARTICLECOPY---" ++ nl ++ py "Body" ++ nl ++
  py "Q/A" ++ nl ++
  py "---END---".

(** A blob whose title-tag section comes before its keywords section. *)
Definition out_of_order : pystr :=
  py "---TITLETAG--- t ---METADESC--- ---KEYWORDS--- k ---TITLETAG---".

(** The sections the code gives when the [---FAQS---] marker is
    missing: the article copy ends at that marker, so it is lost too. *)
Definition expected_sections_without_FAQS (l : layout) : gmap pystr pystr :=
  <[k_faqs := []]>
    (<[k_article_copy := []]>
       (<[k_article_title := strip (c_article_title l)]>
          (<[k_meta_desc := strip (c_meta_desc l)]>
             (<[k_title_tag := strip (c_title_tag l)]>
                (<[k_keywords := strip (c_keywords l)]> ∅))))).

(** The faqs section is empty and the five sections before it are the
    trimmed texts after their markers. *)
Definition earlier_sections_kept (raw : pystr) (l : layout) : Prop :=
  ∃ secs, build_sections raw = Ok secs ∧
    secs !! k_faqs = Some [] ∧
    secs !! k_keywords = Some (strip (c_keywords l)) ∧
    secs !! k_title_tag = Some (strip (c_title_tag l)) ∧
    secs !! k_meta_desc = Some (strip (c_meta_desc l)) ∧
    secs !! k_article_title = Some (strip (c_article_title l)) ∧
    secs !! k_article_copy = Some (strip (c_article_copy l)).

(** The six sections with the marker pair of each. *)
Definition section_markers : list (pystr * (pystr * pystr)) :=
  [ (k_keywords, (KEYWORDS, TITLETAG));
    (k_title_tag, (TITLETAG, METADESC));
    (k_meta_desc, (METADESC, ARTICLETITLE));
    (k_article_title, (ARTICLETITLE, ARTICLECOPY));
    (k_article_copy, (ARTICLECOPY, FAQS));
    (k_faqs, (FAQS, END_)) ].

Definition section_names : gset pystr :=
  {[ k_keywords; k_title_tag; k_meta_desc; k_article_title;
     k_article_copy; k_faqs ]}.

Definition out_of_order_sections : gmap pystr pystr :=
  <[k_faqs := []]>
    (<[k_article_copy := []]>
       (<[k_article_title := []]>
          (<[k_meta_desc := []]>
             (<[k_title_tag := py "t"]>
                (<[k_keywords := py "k"]> ∅))))).

(** ** Shapes of the time stamps *)

Definition is_digit (c : char) : bool := ((48 <=? c) && (c <=? 57))%N.

(** [s] is [w] decimal digits. *)
Definition digits (w : nat) (s : pystr) : Prop :=
  length s = w ∧ Forall (λ c, is_digit c = true) s.

(** The number a string of digits denotes. *)
Definition digits_value (s : pystr) : N :=
  fold_left (λ acc c, 10 * acc + (c - 48))%N s 0%N.

(** [YYYYMMDD_HHMMSS] *)
Definition stamp_shape (s : pystr) : Prop :=
  ∃ Y M D h m sec,
    s = Y ++ M ++ D ++ py "_" ++ h ++ m ++ sec ∧
    digits 4 Y ∧ digits 2 M ∧ digits 2 D ∧
    digits 2 h ∧ digits 2 m ∧ digits 2 sec.

(** The ISO 8601 form [YYYY-MM-DDTHH:MM:SS], with or without a fraction
    of six digits. *)
Definition iso8601_shape (s : pystr) : Prop :=
  ∃ Y M D h m sec frac,
    s = Y ++ py "-" ++ M ++ py "-" ++ D ++ py "T" ++
        h ++ py ":" ++ m ++ py ":" ++ sec ++ frac ∧
    digits 4 Y ∧ digits 2 M ∧ digits 2 D ∧
    digits 2 h ∧ digits 2 m ∧ digits 2 sec ∧
    (frac = [] ∨ ∃ f, frac = py "." ++ f ∧ digits 6 f).

(** ** The file name *)

(** What becomes of one character of the primary keyword. *)
Definition sanitize_char (c : char) : char :=
  (if c =? 32 then 95 else if c =? 47 then 45 else c)%N.

(** Letters and digits of ASCII. *)
Definition is_ascii_alnum (c : char) : bool :=
  ((48 <=? c) && (c <=? 57) || (65 <=? c) && (c <=? 90) ||
   (97 <=? c) && (c <=? 122))%N.

(** The keys a save request is to use in its context: the fields of a
    generation context and the keyword research text. *)
Definition context_keys : gset pystr :=
  {[ k_primary_keyword; k_industry; k_target_audience; k_tone;
     k_brand_name; k_user_notes; k_keywords_output ]}.

(** ** A save that goes through *)

(** [d] is the directory [p] or one above it, going by the names. *)
Definition above (d p : pystr) : Prop :=
  d = p ∨ ∃ rest, p = d ++ [slash] ++ rest.

(** The directory of the exports and the two paths of a save. *)
Definition export_dir (w : World) : pystr :=
  expanduser_output_dir (userhome w).

Definition export_path (data : save_request) (w : World) (ext : pystr)
  : pystr :=
  export_dir w ++ [slash] ++
  file_base (default ∅ (context data)) (strftime_stamp (clock w (reads w))) ++
  ext.

(** The file system has room for the save: the home directory is a name
    the system takes, no file stands where the output directory or a
    directory above it is to be, and no directory stands where one of the
    two files is to be. *)
Definition hospitable (data : save_request) (w : World) : Prop :=
  fspath (userhome w) = Ok () ∧
  (∀ d, above d (export_dir w) → files w !! d = None) ∧
  (export_path data w (py ".md") ∉ dirs w) ∧
  (export_path data w (py ".json") ∉ dirs w).

(** The strings of the request can be written: the part of the primary
    keyword that goes into the file name has no NUL, and no section of
    the blob has a surrogate, nor has a key or a value of the context
    other than a field that a section replaces. *)
Definition writable (data : save_request) : Prop :=
  (0%N ∉ safe_kw (default ∅ (context data))) ∧
  ∀ secs, build_sections (default [] (raw_article data)) = Ok secs →
          utf8_map (secs ∪ default ∅ (context data)).

(** The save of [data] in the world [w] meets no refusal. *)
Definition savable (data : save_request) (w : World) : Prop :=
  hospitable data w ∧ writable data.

(** [s] is the time stamp [YYYYMMDD_HHMMSS] of the time [t]: its digits
    read back as the fields of [t]. *)
Definition stamp_of (t : datetime) (s : pystr) : Prop :=
  ∃ Y M D h m sec,
    s = Y ++ M ++ D ++ py "_" ++ h ++ m ++ sec ∧
    digits 4 Y ∧ digits_value Y = year t ∧
    digits 2 M ∧ digits_value M = month t ∧
    digits 2 D ∧ digits_value D = day t ∧
    digits 2 h ∧ digits_value h = hour t ∧
    digits 2 m ∧ digits_value m = minute t ∧
    digits 2 sec ∧ digits_value sec = second t.

(** [s] is the ISO 8601 form of the time [t]: its digits read back as the
    fields of [t], and the fraction is there exactly when the
    microseconds are not zero. *)
Definition iso8601_of (t : datetime) (s : pystr) : Prop :=
  ∃ Y M D h m sec frac,
    s = Y ++ py "-" ++ M ++ py "-" ++ D ++ py "T" ++
        h ++ py ":" ++ m ++ py ":" ++ sec ++ frac ∧
    digits 4 Y ∧ digits_value Y = year t ∧
    digits 2 M ∧ digits_value M = month t ∧
    digits 2 D ∧ digits_value D = day t ∧
    digits 2 h ∧ digits_value h = hour t ∧
    digits 2 m ∧ digits_value m = minute t ∧
    digits 2 sec ∧ digits_value sec = second t ∧
    ((microsecond t = 0%N ∧ frac = []) ∨
     (microsecond t ≠ 0%N ∧
      ∃ f, frac = py "." ++ f ∧ digits 6 f ∧ digits_value f = microsecond t)).

(** A clock that stands still, and a world with nothing written. *)
Definition example_time : datetime :=
  {| year := 2026; month := 11; day := 4;
     hour := 9; minute := 5; second := 0; microsecond := 120 |}.

Definition example_world : World :=
  {| userhome := py "/home/seo"; clock := λ _, example_time; reads := 0;
     dirs := ∅; files := ∅ |}.

(** A printable ASCII character that JSON writes as it is. *)
Definition json_plain (c : char) : bool :=
  ((32 <=? c) && (c <=? 126) && negb (c =? 34) && negb (c =? 92))%N.

(** The frame of a fragment, written out. *)
Definition frame_text (escaped : pystr) : pystr :=
  py "data: {" ++ dquote ++ py "text" ++ dquote ++ py ": " ++
  dquote ++ escaped ++ dquote ++ py "}" ++ nl ++ nl.

(** A blob with text around the markers and a marker that comes back
    after [---END---]. *)
Definition chatty_layout : layout := {|
  pre := py "Here is the article." ++ nl;
  c_keywords := py " tea, green tea " ++ nl;
  c_title_tag := nl ++ py "Tea at home";
  c_meta_desc := py "  How to brew it. ";
  c_article_title := py "Brewing tea";
  c_article_copy := nl ++ py "# Brewing" ++ nl ++ nl ++ py "Boil water." ++ nl;
  c_faqs := py "Q1: Hot? A1: Yes.";
  post := nl ++ py "(the part after ---KEYWORDS--- lists the keywords)"
|}.

Definition chatty_sections : gmap pystr pystr :=
  <[k_faqs := py "Q1: Hot? A1: Yes."]>
    (<[k_article_copy := py "# Brewing" ++ nl ++ nl ++ py "Boil water."]>
       (<[k_article_title := py "Brewing tea"]>
          (<[k_meta_desc := py "How to brew it."]>
             (<[k_title_tag := py "Tea at home"]>
                (<[k_keywords := py "tea, green tea"]> ∅))))).

(** [t] is [s] without the white space at its two ends. *)
Definition trimmed (s t : pystr) : Prop :=
  ∃ l r, s = l ++ t ++ r ∧
    Forall (λ c, isspace c = true) l ∧ Forall (λ c, isspace c = true) r ∧
    (∀ c, head t = Some c → isspace c = false) ∧
    (∀ c, last t = Some c → isspace c = false).

(** ** What a JSON string denotes *)

(** The value of a hexadecimal digit. *)
Definition hexval (c : char) : option N :=
  (if (48 <=? c) && (c <=? 57) then Some (c - 48)
   else if (97 <=? c) && (c <=? 102) then Some (c - 87)
   else if (65 <=? c) && (c <=? 70) then Some (c - 55)
   else None)%N.

Definition hex4val (a b c d : char) : option N :=
  match hexval a, hexval b, hexval c, hexval d with
  | Some x3, Some x2, Some x1, Some x0 =>
      Some (4096 * x3 + 256 * x2 + 16 * x1 + x0)%N
  | _, _, _, _ => None
  end.

(** The character a two-character escape stands for. *)
Definition simple_escape (e : char) : option char :=
  (if e =? 34 then Some 34 else if e =? 92 then Some 92
   else if e =? 47 then Some 47 else if e =? 98 then Some 8
   else if e =? 102 then Some 12 else if e =? 110 then Some 10
   else if e =? 114 then Some 13 else if e =? 116 then Some 9
   else None)%N.

Definition is_high_surrogate (u : N) : bool :=
  ((55296 <=? u) && (u <=? 56319))%N.
Definition is_low_surrogate (u : N) : bool :=
  ((56320 <=? u) && (u <=? 57343))%N.

(** A code point that is a character: below [0x110000] and no surrogate. *)
Definition is_scalar (c : char) : bool :=
  ((c <? 55296) || (57343 <? c) && (c <? 1114112))%N.

(** The text that the inside of a JSON string literal denotes, as a JSON
    parser reads it: escapes are undone and a pair of surrogate escapes is
    one character. *)
Fixpoint json_unescape (s : pystr) : option pystr :=
  match s with
  | [] => Some []
  | c :: r =>
      if (c =? 92)%N then
        match r with
        | [] => None
        | e :: r1 =>
            if (e =? 117)%N then
              match r1 with
              | h1 :: h2 :: h3 :: h4 :: r2 =>
                  match hex4val h1 h2 h3 h4 with
                  | None => None
                  | Some u =>
                      if is_high_surrogate u then
                        match r2 with
                        | b :: v :: g1 :: g2 :: g3 :: g4 :: r3 =>
                            if ((b =? 92) && (v =? 117))%N then
                              match hex4val g1 g2 g3 g4 with
                              | None => None
                              | Some l =>
                                  if is_low_surrogate l then
                                    cons (65536 + 1024 * (u - 55296)
                                          + (l - 56320))%N
                                      <$> json_unescape r3
                                  else cons u <$> json_unescape r2
                              end
                            else cons u <$> json_unescape r2
                        | _ => cons u <$> json_unescape r2
                        end
                      else cons u <$> json_unescape r2
                  end
              | _ => None
              end
            else
              match simple_escape e with
              | Some x => cons x <$> json_unescape r1
              | None => None
              end
        end
      else if ((c =? 34) || (c <? 32))%N then None
      else cons c <$> json_unescape r
  end.

(** ** The prompts *)

(** The characters that a sequence of UTF-8 bytes encodes. *)
Fixpoint utf8_decode (bytes : list N) : pystr :=
  match bytes with
  | [] => []
  | b0 :: r0 =>
      if (b0 <? 128)%N then b0 :: utf8_decode r0
      else if (b0 <? 224)%N then
        match r0 with
        | b1 :: r1 => ((b0 - 192) * 64 + (b1 - 128))%N :: utf8_decode r1
        | _ => []
        end
      else if (b0 <? 240)%N then
        match r0 with
        | b1 :: b2 :: r2 =>
            ((b0 - 224) * 4096 + (b1 - 128) * 64 + (b2 - 128))%N
              :: utf8_decode r2
        | _ => []
        end
      else
        match r0 with
        | b1 :: b2 :: b3 :: r3 =>
            ((b0 - 240) * 262144 + (b1 - 128) * 4096 + (b2 - 128) * 64
             + (b3 - 128))%N :: utf8_decode r3
        | _ => []
        end
  end.

(** The string that a literal of the source file denotes. *)
Definition text (s : string) : pystr :=
  utf8_decode (map N_of_ascii (list_ascii_of_string s)).

(** [s if s else default] *)
Definition or_else (s default : pystr) : pystr :=
  match s with
  | [] => default
  | _ :: _ => s
  end.

Definition SEMANTIC_KEYWORDS_GUIDE : pystr :=
  text "
SEO SEMANTIC KEYWORDS BEST PRACTICE GUIDE (LSI):
Objective: Enhance webpage relevancy using Latent Semantic Indexing (LSI) keywords.

Instructions:
1. Identify the primary keyword as the focal point.
2. Generate 10-15 LSI keywords semantically related to it.
3. Maintain topical relevance — keywords must establish page authority on the subject.
4. Assign estimated monthly search volume to each keyword.
5. Identify keyword intent: informational, commercial, or both.

Tips:
- Clearly identify primary vs secondary keywords.
- Indicate low confidence where uncertain.
- Estimate search volumes based on typical industry patterns.
- Focus on keywords that will genuinely improve topical authority.
".

Definition CONTENT_RESEARCH_GUIDE : pystr :=
  text "
SEO CONTENT RESEARCH BEST PRACTICE GUIDE:
Steps:
1. Understand the topic and what the article should comprehensively cover.
2. Understand the target audience — their needs, questions, and search behaviour.
3. Brainstorm content angles not commonly covered.
4. Ensure relevance to primary keyword and audience intent.
5. For each content angle, identify 2-3 supporting keywords with search volumes.

Key Considerations:
- Be knowledgeable and useful above all else.
- Ensure topical relevance throughout.
- Indicate low confidence where uncertain.
- Search volumes should reflect monthly data.
".

Definition ARTICLE_COPY_GUIDE : pystr :=
  text "
SEO ARTICLE COPYWRITING BEST PRACTICE GUIDE:

GENERAL GUIDELINES:
1. Readability: Flesch-Kincaid score of 50-60. For complex terms scoring below 50,
   provide a definitions glossary at the bottom of the article with clear referencing.
2. Expert Tone: Write as a subject-matter expert. Comprehensive and clearly structured.
3. FAQs: Include a FAQ section at the bottom with 4-5 questions and answers.
4. Structure:
   - H1 (#): Article title
   - H2 (##), H3 (###), H4 (####): Nested headings — H3 goes deeper than H2, H4 deeper than H3.
   - Maximum 4 heading levels.

CONTENT REQUIREMENTS:
1. Keywords: Use LSI keywords naturally in copy and headings. No keyword stuffing.
2. Word Count: 800–2000 words total. Each section: 120–300 words.
3. Title Tag: Must contain primary keyword. Max 60 characters.
4. Meta Description: 150–160 characters, includes primary keyword, compelling and clickable.

BEST PRACTICES:
- Readability is paramount — short paragraphs (2–4 sentences).
- Answer common questions and solve real problems.
- Use emotional trigger words where appropriate.
- Use numbers, statistics, and data points — cite sources where possible.
- Avoid false claims; indicate uncertainty clearly.
- Hook readers immediately in the introduction.
- Strong conclusion with a clear takeaway or call to action.

NEIL PATEL PRINCIPLES:
- Write for humans first, search engines second.
- Use the primary keyword in: title, first paragraph, 2+ subheadings, conclusion.
- Match search intent: informational, navigational, commercial, or transactional.
- Use bucket brigades (transitional phrases) to keep readers engaged.
- Use power words to drive emotion and action.
".

Definition OUTPUT_FORMAT : pystr :=
  text "
OUTPUT FORMAT — use these exact section delimiters:

---KEYWORDS---
[comma-separated list of all keywords used]

---TITLETAG---
[Title tag - max 60 characters, must include primary keyword]

---METADESC---
[Meta description - 150-160 characters, includes primary keyword, compelling]

---ARTICLETITLE---
[H1 main title of the article]

---ARTICLECOPY---
[Full article body in Markdown using # ## ### #### headings]
[Minimum 800 words. Each section 120-300 words.]
[End with a Definitions section if complex terms were used]

---FAQS---
Q1: [Question]
A1: [Answer — 2-4 sentences]

Q2: [Question]
A2: [Answer]

Q3: [Question]
A3: [Answer]

Q4: [Question]
A4: [Answer]

Q5: [Question]
A5: [Answer]

---END---
".

Definition k_brief_output : pystr := Eval cbv in py "brief_output".
Definition k_current_article : pystr := Eval cbv in py "current_article".
Definition k_refinement : pystr := Eval cbv in py "refinement".

(** The f-string [prompt] of [generate_keywords]. *)
Definition keywords_prompt (primary_keyword industry target_audience : pystr)
  : pystr :=
  text "
" ++
  SEMANTIC_KEYWORDS_GUIDE ++
  text "

PRIMARY KEYWORD: " ++
  dquote ++
  primary_keyword ++
  dquote ++
  text "
INDUSTRY/NICHE: " ++
  industry ++
  text "
TARGET AUDIENCE: " ++
  target_audience ++
  text "

Following the SEO Semantic Keywords Best Practice Guide, generate a comprehensive LSI keyword list.

Output in this EXACT format (use the pipe-separated table):

PRIMARY KEYWORD: " ++
  primary_keyword ++
  text "

KEYWORD INTENT: [informational / commercial / both] — [brief explanation of why]

BEST CONTENT ANGLE: [1-2 sentences on the best angle to take for this keyword]

LSI KEYWORDS TABLE:
| Keyword | Est. Monthly Searches | Intent |
|---|---|---|
[10-15 rows]

TOP 5 KEYWORDS TO WEAVE INTO ARTICLE:
1. [keyword] — [why it matters for this topic]
2. [keyword] — [why]
3. [keyword] — [why]
4. [keyword] — [why]
5. [keyword] — [why]

Note: Search volume estimates are indicative — verify with Google Keyword Planner or Ahrefs.
".

(** The f-string [prompt] of [generate_brief]. *)
Definition brief_prompt
  (primary_keyword industry target_audience keywords_output : pystr) : pystr :=
  text "
" ++
  CONTENT_RESEARCH_GUIDE ++
  text "

PRIMARY KEYWORD: " ++
  dquote ++
  primary_keyword ++
  dquote ++
  text "
INDUSTRY: " ++
  industry ++
  text "
TARGET AUDIENCE: " ++
  target_audience ++
  text "

KEYWORD RESEARCH COMPLETED:
" ++
  keywords_output ++
  text "

Based on the SEO Content Research Best Practice Guide, produce a concise article brief.

Output in this EXACT format:

SEARCH INTENT: [informational / commercial / navigational / transactional]
USER PROBLEM: [What problem is the user trying to solve with this search?]

RECOMMENDED ARTICLE TITLE (H1):
[Compelling title containing primary keyword]

TITLE TAG (max 60 chars):
[Title tag]

META DESCRIPTION (150-160 chars):
[Meta description — include primary keyword, make it clickable]

TARGET WORD COUNT: [specific number between 800-2000]

ARTICLE OUTLINE:
## [H2 Heading 1] — [brief note on what this section covers, which LSI keywords to use]
### [H3 sub-heading if needed]
## [H2 Heading 2] — [note]
## [H2 Heading 3] — [note]
## [H2 Heading 4] — [note]
## [H2 Heading 5 — optional]
## Frequently Asked Questions
## [Definitions if complex terms expected]

FAQ SUGGESTIONS (5 questions a real reader would ask):
1. [Question]
2. [Question]
3. [Question]
4. [Question]
5. [Question]
".

(** The f-string [prompt] of [generate_article]. *)
Definition article_prompt
  (primary_keyword industry target_audience tone brand keywords_output
   brief_output user_notes : pystr) : pystr :=
  text "
" ++
  ARTICLE_COPY_GUIDE ++
  text "

You are writing a complete, publish-ready SEO article. Follow ALL guidelines above precisely.

INPUTS:
- Primary Keyword: " ++
  dquote ++
  primary_keyword ++
  dquote ++
  text "
- Industry/Niche: " ++
  industry ++
  text "
- Target Audience: " ++
  target_audience ++
  text "
- Tone of Voice: " ++
  tone ++
  text "
- Brand/Website: " ++
  (or_else brand (py "Not specified")) ++
  text "
- Additional Notes from User: " ++
  (or_else user_notes (py "None")) ++
  text "

KEYWORD RESEARCH:
" ++
  keywords_output ++
  text "

ARTICLE BRIEF & OUTLINE:
" ++
  brief_output ++
  text "

CRITICAL REQUIREMENTS CHECKLIST:
✅ Flesch-Kincaid readability: AIM FOR 50-60 (short sentences, plain language)
✅ Total word count: 800–2000 words
✅ Each section: 120–300 words
✅ Primary keyword in: H1 title, first paragraph, at least 2 subheadings, conclusion
✅ LSI keywords woven naturally — NO keyword stuffing
✅ Short paragraphs: 2–4 sentences max
✅ Use numbers, statistics, examples where relevant
✅ Emotional trigger words where appropriate
✅ Include Definitions section at bottom if complex terms are used
✅ Strong hook in the introduction (first 2 sentences must grab attention)
✅ Strong conclusion with a clear takeaway or CTA
✅ 5 FAQs with full answers at the end

" ++
  OUTPUT_FORMAT ++
  text "
".

(** The f-string [prompt] of [refine_article]. *)
Definition refine_prompt (current_article refinement primary_keyword : pystr)
  : pystr :=
  text "
Here is the current SEO article:

" ++
  current_article ++
  text "

REFINEMENT REQUEST: " ++
  refinement ++
  text "

Apply ONLY the requested refinement. Maintain all SEO best practices:
- Primary keyword: " ++
  dquote ++
  primary_keyword ++
  dquote ++
  text "
- Keep the exact same output format (---KEYWORDS--- ... ---END---)
- Maintain Flesch-Kincaid 50-60 readability
- Keep word count 800-2000 words
- Preserve all section delimiters exactly as they are

Output the complete refined article in the same format.
".

(** [MODEL] *)
Definition MODEL : pystr := Eval cbv in py "claude-sonnet-4-6".

(** The arguments of one call of [client.messages.stream]: the model, the
    bound on the output, the system instruction if there is one, and the
    text of the single user message. *)
Record api_request : Type := {
  model : pystr;
  max_tokens : nat;
  system : option pystr;
  prompt : pystr
}.

(** The text service: the stream it answers a request with. *)
Definition text_service : Type := api_request → upstream.

(** The string [system] of [generate_article]. *)
Definition article_system : pystr :=
  text "You are a world-class SEO copywriter who strictly follows best practice guidelines. " ++
  text "Always produce the article in the exact output format requested. " ++
  text "Never truncate or summarise — write the full article.".

(** The request [generate_keywords] builds from the JSON body [data]. *)
Definition generate_keywords_request (data : gmap pystr pystr) : api_request :=
  let primary_keyword := dict_get data k_primary_keyword [] in
  let industry := dict_get data k_industry (py "General") in
  let target_audience :=
    dict_get data k_target_audience (py "General audience") in
  {| model := MODEL; max_tokens := 2000; system := None;
     prompt := keywords_prompt primary_keyword industry target_audience |}.

(** The route [generate_keywords]: what its response streams. *)
Definition generate_keywords (service : text_service)
  (data : gmap pystr pystr) : list pystr * result unit :=
  generate (service (generate_keywords_request data)).

(** The request [generate_brief] builds. *)
Definition generate_brief_request (data : gmap pystr pystr) : api_request :=
  let primary_keyword := dict_get data k_primary_keyword [] in
  let industry := dict_get data k_industry (py "General") in
  let target_audience :=
    dict_get data k_target_audience (py "General audience") in
  let keywords_output := dict_get data k_keywords_output [] in
  {| model := MODEL; max_tokens := 1500; system := None;
     prompt := brief_prompt primary_keyword industry target_audience
                 keywords_output |}.

(** The route [generate_brief]. *)
Definition generate_brief (service : text_service)
  (data : gmap pystr pystr) : list pystr * result unit :=
  generate (service (generate_brief_request data)).

(** The request [generate_article] builds. *)
Definition generate_article_request (data : gmap pystr pystr) : api_request :=
  let primary_keyword := dict_get data k_primary_keyword [] in
  let industry := dict_get data k_industry (py "General") in
  let target_audience :=
    dict_get data k_target_audience (py "General audience") in
  let tone :=
    dict_get data k_tone (py "expert, informative, conversational") in
  let brand := dict_get data k_brand_name [] in
  let keywords_output := dict_get data k_keywords_output [] in
  let brief_output := dict_get data k_brief_output [] in
  let user_notes := dict_get data k_user_notes [] in
  {| model := MODEL; max_tokens := 4096; system := Some article_system;
     prompt := article_prompt primary_keyword industry target_audience tone
                 brand keywords_output brief_output user_notes |}.

(** The route [generate_article]. *)
Definition generate_article (service : text_service)
  (data : gmap pystr pystr) : list pystr * result unit :=
  generate (service (generate_article_request data)).

(** The request [refine_article] builds. *)
Definition refine_article_request (data : gmap pystr pystr) : api_request :=
  let current_article := dict_get data k_current_article [] in
  let refinement := dict_get data k_refinement [] in
  let primary_keyword := dict_get data k_primary_keyword [] in
  {| model := MODEL; max_tokens := 4096; system := None;
     prompt := refine_prompt current_article refinement primary_keyword |}.

(** The route [refine_article]. *)
Definition refine_article (service : text_service)
  (data : gmap pystr pystr) : list pystr * result unit :=
  generate (service (refine_article_request data)).

(** ** Notions used by the further properties *)

(** Both markers of every section are found in [raw]. *)
Definition complete_blob (raw : pystr) : Prop :=
  ∀ k start end_, (k, (start, end_)) ∈ section_markers →
    ∃ ps pe, first_at start raw 0 ps ∧ first_at end_ raw (ps + len start) pe.

(** Two times in the same second. *)
Definition same_second (t1 t2 : datetime) : Prop :=
  year t1 = year t2 ∧ month t1 = month t2 ∧ day t1 = day t2 ∧
  hour t1 = hour t2 ∧ minute t1 = minute t2 ∧ second t1 = second t2.

(** The markdown document [save_article] writes for the sections [secs],
    the context [ctx] and the time [t] of its second clock reading; a
    section that were missing would show as the empty string. *)
Definition markdown_of (ctx secs : gmap pystr pystr) (t : datetime) : pystr :=
  md_template (dict_get ctx k_primary_keyword []) (strftime_long t)
    (dict_get secs k_title_tag []) (dict_get secs k_meta_desc [])
    (dict_get secs k_keywords []) (dict_get secs k_article_copy [])
    (dict_get secs k_faqs []) (dict_get ctx k_keywords_output (py "N/A")).

(** A printable ASCII character. *)
Definition printable (c : char) : bool := ((32 <=? c) && (c <=? 126))%N.

(** ** The model on small inputs *)

Example index_first_of_two :
  index (py "abcabc") (py "bc") 0 = Ok 1 ∧
  index (py "abcabc") (py "bc") 2 = Ok 4 ∧
  index (py "abcabc") (py "bc") 5 = Raise ValueError.
Proof. by vm_compute. Qed.

Example index_empty_needle :
  index (py "abc") [] 3 = Ok 3 ∧ index (py "abc") [] 4 = Raise ValueError.
Proof. by vm_compute. Qed.

Example slice_clips : slice (py "abcdef") 2 99 = py "cdef" ∧
                      slice (py "abcdef") 4 2 = [].
Proof. by vm_compute. Qed.

Example strip_both_ends :
  strip (nl ++ py "  a b " ++ [9; 160; 8195]%N) = py "a b".
Proof. by vm_compute. Qed.

Example extract_between_markers :
  extract (py "a---KEYWORDS---  x y ---TITLETAG---b") KEYWORDS TITLETAG
  = Ok (py "x y").
Proof. by vm_compute. Qed.

Example extract_markers_touching :
  extract (py "---KEYWORDS---TITLETAG---") KEYWORDS TITLETAG = Ok [].
Proof. by vm_compute. Qed.

Example decimal_2026 : decimal 2026 = py "2026" ∧ decimal 0 = py "0".
Proof. by vm_compute. Qed.

Example time_formats :
  strftime_stamp example_time = py "20261104_090500" ∧
  strftime_long example_time = py "04 November 2026, 09:05" ∧
  isoformat example_time = py "2026-11-04T09:05:00.000120".
Proof. by vm_compute. Qed.

Example safe_kw_of_best_running_shoes :
  safe_kw {[k_primary_keyword := py "best running shoes"]}
  = py "best_running_shoes" ∧
  safe_kw ∅ = py "article".
Proof. by vm_compute. Qed.

Example safe_kw_cut_at_30 :
  safe_kw {[k_primary_keyword :=
              py "the quick brown fox jumps over/under the lazy dog"]}
  = py "the_quick_brown_fox_jumps_over".
Proof. by vm_compute. Qed.

Example path_join_cases :
  path_join (py "/a/b") (py "c.md") = py "/a/b/c.md" ∧
  path_join (py "/a/b/") (py "c.md") = py "/a/b/c.md" ∧
  path_join (py "/a/b") (py "/c.md") = py "/c.md" ∧
  expanduser_output_dir (py "/home/seo/") = py "/home/seo/Desktop/SEO Articles".
Proof. by vm_compute. Qed.

Example dirname_cases :
  dirname (py "/home/seo/Desktop/SEO Articles") = py "/home/seo/Desktop" ∧
  dirname (py "/a//b") = py "/a" ∧ dirname (py "/x") = py "/" ∧
  dirname (py "x") = [].
Proof. by vm_compute. Qed.

Example ancestors_of_the_output_dir :
  ancestors 30 (py "/home/seo/Desktop/SEO Articles")
  = [py "/home/seo/Desktop"; py "/home/seo"; py "/home"].
Proof. by vm_compute. Qed.

Example fspath_cases :
  fspath (py "/home/seo") = Ok () ∧
  fspath [97; 0]%N = Raise ValueError ∧
  fspath [97; 0; 55296]%N = Raise UnicodeEncodeError ∧
  fspath [97; 0; 56448]%N = Raise ValueError ∧
  fspath [97; 56448]%N = Ok ().
Proof. by vm_compute. Qed.

Example utf8_encodable_cases :
  utf8_encodable [0; 233; 128512]%N = true ∧
  utf8_encodable [56448]%N = false ∧ utf8_encodable [55296]%N = false.
Proof. by vm_compute. Qed.

Example makedirs_with_a_file_in_the_way :
  let w := {| userhome := py "/home/seo"; clock := λ _, example_time;
              reads := 0; dirs := ∅;
              files := {[py "/home/seo/Desktop" := TextFile []]} |} in
  makedirs (py "/home/seo/Desktop/SEO Articles") w = Raise NotADirectoryError ∧
  makedirs (py "/home/seo/Desktop") w = Raise FileExistsError ∧
  ∃ w', makedirs (py "/home/seo/Documents") w = Ok w' ∧
        py "/home/seo" ∈ dirs w' ∧ py "/home/seo/Documents" ∈ dirs w'.
Proof.
  intros w. split; [reflexivity|]. split; [reflexivity|].
  eexists. split; [reflexivity|]. cbn [dirs]. split.
  - apply elem_of_union. right. apply elem_of_union. left.
    apply elem_of_list_to_set, elem_of_cons. by left.
  - apply elem_of_union. left. by apply elem_of_singleton.
Qed.

Example write_file_refused :
  let w := {| userhome := py "/home/seo"; clock := λ _, example_time;
              reads := 0; dirs := {[py "/d"; py "/d/sub"]};
              files := {[py "/f" := TextFile []]} |} in
  write_file (py "/e/x.md") (TextFile []) w = Raise FileNotFoundError ∧
  write_file (py "/f/x.md") (TextFile []) w = Raise NotADirectoryError ∧
  write_file (py "/d/sub") (TextFile []) w = Raise IsADirectoryError ∧
  write_file (py "/d/x.md") (TextFile [55296%N]) w = Raise UnicodeEncodeError ∧
  write_file (py "/d/x" ++ [0%N]) (TextFile []) w = Raise ValueError ∧
  ∃ w', write_file (py "/d/x.md") (TextFile (py "text")) w = Ok w' ∧
        files w' !! py "/d/x.md" = Some (TextFile (py "text")).
Proof.
  intros w. repeat (split; [reflexivity|]).
  eexists. split; reflexivity.
Qed.

Example escape_newline_and_quote :
  concat (map escape_char (py "a" ++ nl ++ dquote))
  = [97; 92; 110; 92; 34]%N.
Proof. by vm_compute. Qed.

Example escape_outside_ascii :
  concat (map escape_char [233; 128512]%N)
  = [92%N] ++ py "u00e9" ++ [92%N] ++ py "ud83d" ++ [92%N] ++ py "ude00".
Proof. by vm_compute. Qed.

(** ** Facts about strings *)

Section StringFacts.

Implicit Types (s sub a b : pystr) (c : char) (i p q : nat).

Lemma startswith_app sub b : startswith sub (sub ++ b) = true.
Proof.
  induction sub as [|x sub IH]; simpl; [done|].
  by rewrite N.eqb_refl.
Qed.

Lemma startswith_true sub s : startswith sub s = true → ∃ b, s = sub ++ b.
Proof.
  revert s. induction sub as [|x sub IH]; intros s H.
  - by exists s.
  - destruct s as [|y s]; simpl in H; [done|].
    destruct (N.eqb_spec x y) as [->|]; [|done].
    destruct (IH _ H) as [b ->]. by exists b.
Qed.

Lemma occurs_at_0 sub s : occurs_at sub s 0 ↔ startswith sub s = true.
Proof.
  split.
  - intros (a & b & -> & Ha). apply length_zero_iff_nil in Ha. subst a.
    exact (startswith_app sub b).
  - intros H. destruct (startswith_true _ _ H) as [b ->].
    exists nil, b. by split.
Qed.

Lemma occurs_at_cons sub c s q :
  occurs_at sub (c :: s) (S q) ↔ occurs_at sub s q.
Proof.
  split.
  - intros (a & b & E & Ha). destruct a as [|x a]; [done|].
    simpl in *. exists a, b. split; congruence.
  - intros (a & b & -> & Ha). exists (c :: a), b. simpl. by rewrite Ha.
Qed.

Lemma occurs_at_nil sub q : occurs_at sub [] (S q) → False.
Proof. intros (a & b & E & Ha). by destruct a. Qed.

Lemma occurs_at_bound sub s q : occurs_at sub s q → q + length sub ≤ length s.
Proof.
  intros (a & b & -> & <-). rewrite !length_app. lia.
Qed.

Lemma occurs_at_drop sub s i q :
  i ≤ length s → occurs_at sub (drop i s) q ↔ occurs_at sub s (i + q).
Proof.
  revert s. induction i as [|i IH]; intros s Hi.
  - by rewrite drop_0.
  - destruct s as [|c s]; simpl in Hi; [lia|].
    simpl. rewrite occurs_at_cons. apply IH. lia.
Qed.

(** [find_from] returns the first occurrence. *)
Lemma find_from_Some sub s i p :
  find_from sub s i = Some p →
  ∃ k, p = i + k ∧ occurs_at sub s k ∧ ∀ q, q < k → ¬ occurs_at sub s q.
Proof.
  revert i. induction s as [|c s IH]; intros i; simpl.
  - destruct (startswith sub []) eqn:E; [|done].
    intros [= <-]. exists 0. split; [lia|]. split; [by apply occurs_at_0|].
    intros; lia.
  - destruct (startswith sub (c :: s)) eqn:E.
    + intros [= <-]. exists 0. split; [lia|]. split; [by apply occurs_at_0|].
      intros; lia.
    + intros H. destruct (IH _ H) as (k & -> & Hk & Hmin).
      exists (S k). split; [lia|]. split; [by apply occurs_at_cons|].
      intros [|q] Hq.
      * rewrite occurs_at_0. congruence.
      * rewrite occurs_at_cons. apply Hmin. lia.
Qed.

Lemma find_from_None sub s i :
  find_from sub s i = None → ∀ q, ¬ occurs_at sub s q.
Proof.
  revert i. induction s as [|c s IH]; intros i; simpl.
  - destruct (startswith sub []) eqn:E; [done|]. intros _ [|q].
    + rewrite occurs_at_0. congruence.
    + intros Hq. by apply occurs_at_nil in Hq.
  - destruct (startswith sub (c :: s)) eqn:E; [done|]. intros H [|q].
    + rewrite occurs_at_0. congruence.
    + rewrite occurs_at_cons. by eapply IH.
Qed.

(** [index] never raises anything but [ValueError]. *)
Lemma index_cases s sub from :
  (∃ p, index s sub from = Ok p) ∨ index s sub from = Raise ValueError.
Proof.
  unfold index. destruct (from <=? len s); [|by right].
  destruct (find_from _ _ _); [left; eauto | by right].
Qed.

Lemma index_Ok_first s sub from p :
  index s sub from = Ok p → first_at sub s from p.
Proof.
  unfold index, len. destruct (Nat.leb_spec from (length s)) as [Hle|]; [|done].
  destruct (find_from _ _ _) as [p'|] eqn:E; [|done]. intros [= ->].
  destruct (find_from_Some _ _ _ _ E) as (k & -> & Hk & Hmin).
  split; [lia|]. split; [by apply occurs_at_drop|].
  intros q Hq1 Hq2 Hocc. apply (Hmin (q - from)); [lia|].
  apply occurs_at_drop; [done|]. by replace (from + (q - from)) with q by lia.
Qed.

Lemma index_Raise_absent s sub from :
  index s sub from = Raise ValueError → absent_from sub s from.
Proof.
  unfold index, len. destruct (Nat.leb_spec from (length s)) as [Hle|Hgt].
  - destruct (find_from _ _ _) eqn:E; [done|]. intros _ q Hq Hocc.
    apply (find_from_None _ _ _ E (q - from)).
    apply occurs_at_drop; [done|]. by replace (from + (q - from)) with q by lia.
  - intros _ q Hq Hocc. apply occurs_at_bound in Hocc. lia.
Qed.

Lemma first_at_unique sub s from p p' :
  first_at sub s from p → first_at sub s from p' → p = p'.
Proof.
  intros (H1 & H2 & H3) (H1' & H2' & H3').
  destruct (Nat.lt_trichotomy p p') as [Hlt|[->|Hlt]]; [|done|].
  - by destruct (H3' p).
  - by destruct (H3 p').
Qed.

Lemma first_at_not_absent sub s from p :
  first_at sub s from p → absent_from sub s from → False.
Proof. intros (H1 & H2 & _) Habs. by apply (Habs p). Qed.

Lemma first_at_index s sub from p :
  first_at sub s from p → index s sub from = Ok p.
Proof.
  intros H. destruct (index_cases s sub from) as [[p' E]|E].
  - rewrite E. f_equal. apply index_Ok_first in E.
    by apply (first_at_unique _ _ _ _ _ E H).
  - apply index_Raise_absent in E. by destruct (first_at_not_absent _ _ _ _ H E).
Qed.

Lemma absent_index s sub from :
  absent_from sub s from → index s sub from = Raise ValueError.
Proof.
  intros H. destruct (index_cases s sub from) as [[p' E]|E]; [|done].
  apply index_Ok_first in E. by destruct (first_at_not_absent _ _ _ _ E H).
Qed.

(** A later start of the search finds the same first occurrence. *)
Lemma first_at_later sub s from from' p :
  first_at sub s from p → from ≤ from' → from' ≤ p → first_at sub s from' p.
Proof.
  intros (H1 & H2 & H3) Hle Hle'. split; [done|]. split; [done|].
  intros q Hq. apply H3. lia.
Qed.

Lemma slice_middle a s b :
  slice (a ++ s ++ b) (length a) (length a + length s) = s.
Proof.
  unfold slice. rewrite drop_app_length.
  replace (length a + length s - length a) with (length s) by lia.
  by rewrite take_app_length.
Qed.

End StringFacts.

(** ** [str.strip] *)

Section Strip.

Implicit Types (s t : pystr) (p : char → bool).

Lemma lstrip_by_split p s :
  ∃ l, s = l ++ lstrip_by p s ∧ Forall (λ c, p c = true) l.
Proof.
  induction s as [|c s (l & E & Hl)]; [by exists nil|].
  simpl. destruct (p c) eqn:Hc.
  - exists (c :: l). split; [simpl; congruence|]. by constructor.
  - by exists nil.
Qed.

Lemma lstrip_by_head p s c : head (lstrip_by p s) = Some c → p c = false.
Proof.
  induction s as [|x s IH]; [done|]. simpl.
  destruct (p x) eqn:Hx; [done|]. by intros [= <-].
Qed.

Lemma head_app_Some (a b : pystr) c : head a = Some c → head (a ++ b) = Some c.
Proof. by destruct a. Qed.

Lemma head_rev s : head (rev s) = last s.
Proof.
  induction s as [|x s IH] using rev_ind; [done|].
  by rewrite rev_app_distr, last_snoc.
Qed.

(** [strip] removes white space at both ends and nothing else. *)
Lemma strip_trimmed s : trimmed s (strip s).
Proof.
  unfold strip, rstrip, lstrip, rstrip_by.
  destruct (lstrip_by_split isspace s) as (l & El & Hl).
  set (m := lstrip_by isspace s) in *.
  destruct (lstrip_by_split isspace (rev m)) as (r & Er & Hr).
  set (t := lstrip_by isspace (rev m)) in *.
  assert (Em : m = rev t ++ rev r).
  { rewrite <- rev_app_distr, <- Er. by rewrite rev_involutive. }
  exists l, (rev r). split; [by rewrite <- Em|].
  split; [done|]. split; [by apply Forall_rev|]. split.
  - intros c Hc. apply (lstrip_by_head isspace s). fold m. rewrite Em.
    by apply head_app_Some.
  - intros c Hc. apply (lstrip_by_head isspace (rev m)). fold t.
    by rewrite <- (rev_involutive t), head_rev.
Qed.

Lemma strip_idempotent_on_plain s :
  (∀ c, head s = Some c → isspace c = false) →
  (∀ c, last s = Some c → isspace c = false) → strip s = s.
Proof.
  intros Hh Hl. unfold strip, rstrip, lstrip, rstrip_by.
  assert (E1 : lstrip_by isspace s = s).
  { destruct s as [|c s]; [done|]. simpl. by rewrite (Hh c eq_refl). }
  rewrite E1.
  assert (E2 : lstrip_by isspace (rev s) = rev s).
  { destruct (rev s) as [|c r] eqn:Er; [done|]. simpl.
    rewrite (Hl c); [done|]. by rewrite <- head_rev, Er. }
  by rewrite E2, rev_involutive.
Qed.

End Strip.

(** ** The section extractor meets its contract *)

Section Extract.

Implicit Types (raw start v : pystr).

Lemma extract_no_start raw start end_ :
  absent_from start raw 0 → extract raw start end_ = Ok [].
Proof.
  intros H. unfold extract. by rewrite (absent_index _ _ _ H).
Qed.

Lemma extract_no_end raw start end_ ps :
  first_at start raw 0 ps → absent_from end_ raw (ps + len start) →
  extract raw start end_ = Ok [].
Proof.
  intros H1 H2. unfold extract. rewrite (first_at_index _ _ _ _ H1). simpl.
  by rewrite (absent_index _ _ _ H2).
Qed.

Lemma extract_found raw start end_ ps pe :
  first_at start raw 0 ps → first_at end_ raw (ps + len start) pe →
  extract raw start end_ = Ok (strip (slice raw (ps + len start) pe)).
Proof.
  intros H1 H2. unfold extract. rewrite (first_at_index _ _ _ _ H1). simpl.
  by rewrite (first_at_index _ _ _ _ H2).
Qed.

(** One of the three cases of the contract always applies. *)
Lemma extract_spec_total raw start end_ : ∃ v, extract_spec raw start end_ v.
Proof.
  destruct (index_cases raw start 0) as [[ps E1]|E1].
  - apply index_Ok_first in E1.
    destruct (index_cases raw end_ (ps + len start)) as [[pe E2]|E2].
    + apply index_Ok_first in E2. eexists. right; right. by exists ps, pe.
    + apply index_Raise_absent in E2. exists []. right; left. by exists ps.
  - apply index_Raise_absent in E1. exists []. by left.
Qed.

Lemma extract_spec_sound raw start end_ v :
  extract_spec raw start end_ v → extract raw start end_ = Ok v.
Proof.
  intros [[H ->]|[(ps & H1 & H2 & ->)|(ps & pe & H1 & H2 & ->)]].
  - by apply extract_no_start.
  - by eapply extract_no_end.
  - by apply extract_found.
Qed.

Lemma extract_total raw start end_ : ∃ v, extract raw start end_ = Ok v.
Proof.
  destruct (extract_spec_total raw start end_) as [v Hv].
  exists v. by apply extract_spec_sound.
Qed.

Lemma extract_iff raw start end_ v :
  extract raw start end_ = Ok v ↔ extract_spec raw start end_ v.
Proof.
  split; [|apply extract_spec_sound].
  intros E. destruct (extract_spec_total raw start end_) as [v' Hv'].
  pose proof (extract_spec_sound _ _ _ _ Hv') as E'. congruence.
Qed.

(** The text between two markers that lead the blob. *)
Lemma extract_between raw a start s end_ b :
  raw = a ++ start ++ s ++ end_ ++ b →
  leads start raw a → leads end_ raw (a ++ start ++ s) →
  extract raw start end_ = Ok (strip s).
Proof.
  intros Hraw H1 H2. unfold leads in *.
  rewrite (extract_found _ _ _ _ _ H1
             (first_at_later _ _ _ (length a + len start) _ H2 ltac:(lia)
                ltac:(rewrite !length_app; unfold len; lia))).
  do 2 f_equal. rewrite Hraw at 1. unfold len.
  replace (a ++ start ++ s ++ end_ ++ b)
    with ((a ++ start) ++ s ++ end_ ++ b) by (by rewrite <- !app_assoc).
  replace (length a + length start) with (length (a ++ start))
    by apply length_app.
  replace (length (a ++ start ++ s))
    with (length (a ++ start) + length s)
    by (rewrite !length_app; lia).
  apply slice_middle.
Qed.

End Extract.

(** ** Well-formed blobs *)

Section Blobs.

Implicit Types (raw : pystr) (l : layout).

Lemma build_sections_values raw v1 v2 v3 v4 v5 v6 :
  extract raw KEYWORDS TITLETAG = Ok v1 →
  extract raw TITLETAG METADESC = Ok v2 →
  extract raw METADESC ARTICLETITLE = Ok v3 →
  extract raw ARTICLETITLE ARTICLECOPY = Ok v4 →
  extract raw ARTICLECOPY FAQS = Ok v5 →
  extract raw FAQS END_ = Ok v6 →
  build_sections raw =
    Ok (<[k_faqs := v6]> (<[k_article_copy := v5]> (<[k_article_title := v4]>
       (<[k_meta_desc := v3]> (<[k_title_tag := v2]>
       (<[k_keywords := v1]> ∅)))))).
Proof.
  intros E1 E2 E3 E4 E5 E6. unfold build_sections.
  by rewrite E1, E2, E3, E4, E5, E6.
Qed.

Lemma build_sections_total raw :
  ∃ v1 v2 v3 v4 v5 v6,
    extract raw KEYWORDS TITLETAG = Ok v1 ∧
    extract raw TITLETAG METADESC = Ok v2 ∧
    extract raw METADESC ARTICLETITLE = Ok v3 ∧
    extract raw ARTICLETITLE ARTICLECOPY = Ok v4 ∧
    extract raw ARTICLECOPY FAQS = Ok v5 ∧
    extract raw FAQS END_ = Ok v6 ∧
    build_sections raw =
      Ok (<[k_faqs := v6]> (<[k_article_copy := v5]>
         (<[k_article_title := v4]> (<[k_meta_desc := v3]>
         (<[k_title_tag := v2]> (<[k_keywords := v1]> ∅)))))).
Proof.
  destruct (extract_total raw KEYWORDS TITLETAG) as [v1 E1].
  destruct (extract_total raw TITLETAG METADESC) as [v2 E2].
  destruct (extract_total raw METADESC ARTICLETITLE) as [v3 E3].
  destruct (extract_total raw ARTICLETITLE ARTICLECOPY) as [v4 E4].
  destruct (extract_total raw ARTICLECOPY FAQS) as [v5 E5].
  destruct (extract_total raw FAQS END_) as [v6 E6].
  exists v1, v2, v3, v4, v5, v6.
  repeat (split; [done|]). by apply build_sections_values.
Qed.

Ltac flat := unfold assemble, assemble_without_FAQS, before_END, before_FAQS,
  before_ARTICLECOPY, before_ARTICLETITLE, before_METADESC, before_TITLETAG;
  by rewrite <- ?app_assoc.

Lemma well_formed_scenario1 : well_formed scenario1 scenario1_layout.
Proof.
  unfold well_formed.
  repeat (split; [first [reflexivity | apply index_Ok_first; vm_compute; reflexivity]|]).
  apply index_Ok_first. vm_compute. reflexivity.
Qed.

Lemma well_formed_scenario2 :
  well_formed_without_FAQS scenario2 scenario2_layout.
Proof.
  unfold well_formed_without_FAQS.
  repeat (split; [first [reflexivity | apply index_Ok_first; vm_compute; reflexivity]|]).
  apply index_Raise_absent. vm_compute. reflexivity.
Qed.

(** C1. A blob that holds the seven markers in order gives, for each of
    the six sections, the text between its two markers with the white
    space at both ends removed; the blob of scenario 1 gives [foo, bar],
    [T], [D], [H], [Body] and [Q/A]. *)
Theorem C1_well_formed_blob_sections :
  (∀ raw l, well_formed raw l →
            build_sections raw = Ok (expected_sections l)) ∧
  build_sections scenario1 = Ok scenario1_sections.
Proof.
  assert (G : ∀ raw l, well_formed raw l →
                       build_sections raw = Ok (expected_sections l)).
  { intros raw l (Hraw & H1 & H2 & H3 & H4 & H5 & H6 & H7).
    apply build_sections_values.
    - apply (extract_between raw (pre l) _ _ _
               (c_title_tag l ++ METADESC ++ c_meta_desc l ++ ARTICLETITLE ++
                c_article_title l ++ ARTICLECOPY ++ c_article_copy l ++
                FAQS ++ c_faqs l ++ END_ ++ post l)); [by rewrite Hraw|done|done].
    - apply (extract_between raw (before_TITLETAG l) _ _ _
               (c_meta_desc l ++ ARTICLETITLE ++
                c_article_title l ++ ARTICLECOPY ++ c_article_copy l ++
                FAQS ++ c_faqs l ++ END_ ++ post l)); [rewrite Hraw; flat|done|done].
    - apply (extract_between raw (before_METADESC l) _ _ _
               (c_article_title l ++ ARTICLECOPY ++ c_article_copy l ++
                FAQS ++ c_faqs l ++ END_ ++ post l)); [rewrite Hraw; flat|done|done].
    - apply (extract_between raw (before_ARTICLETITLE l) _ _ _
               (c_article_copy l ++ FAQS ++ c_faqs l ++ END_ ++ post l));
        [rewrite Hraw; flat|done|done].
    - apply (extract_between raw (before_ARTICLECOPY l) _ _ _
               (c_faqs l ++ END_ ++ post l)); [rewrite Hraw; flat|done|done].
    - apply (extract_between raw (before_FAQS l) _ _ _ (post l));
        [rewrite Hraw; flat|done|done]. }
  split; [exact G|].
  apply (G scenario1 scenario1_layout), well_formed_scenario1.
Qed.

Lemma C1_witness :
  well_formed (assemble chatty_layout) chatty_layout ∧
  build_sections (assemble chatty_layout) = Ok chatty_sections.
Proof.
  assert (H : well_formed (assemble chatty_layout) chatty_layout).
  { unfold well_formed.
    repeat (split; [first [reflexivity
                          | apply index_Ok_first; vm_compute; reflexivity]|]).
    apply index_Ok_first. vm_compute. reflexivity. }
  split; [exact H|].
  exact (proj1 C1_well_formed_blob_sections _ _ H).
Defined.

(** The value under each section name is what [extract] gives for the
    marker pair of that section. *)
Lemma build_sections_lookup raw :
  ∃ secs, build_sections raw = Ok secs ∧ dom secs = section_names ∧
    ∀ k start end_, (k, (start, end_)) ∈ section_markers →
      ∃ v, secs !! k = Some v ∧ extract raw start end_ = Ok v.
Proof.
  destruct (build_sections_total raw)
    as (v1 & v2 & v3 & v4 & v5 & v6 & E1 & E2 & E3 & E4 & E5 & E6 & E).
  eexists. split; [exact E|]. split.
  - rewrite !dom_insert_L, dom_empty_L. unfold section_names. set_solver.
  - intros k start end_ Hin. unfold section_markers in Hin.
    repeat (apply elem_of_cons in Hin as [[= -> -> ->]|Hin];
            [eexists; split; [by vm_compute|done]|]).
    by apply elem_of_nil in Hin.
Qed.

End Blobs.

(** ** Missing markers *)

(** C2. When the start marker of a section does not occur in the blob, or
    its end marker does not occur at or after the position that follows
    the start marker, the section is the empty string; and the extractor
    raises nothing, whatever the string it is given. *)
Theorem C2_missing_marker_gives_empty :
  (∀ raw start end_, ∃ v, extract raw start end_ = Ok v) ∧
  (∀ raw start end_,
     absent_from start raw 0 → extract raw start end_ = Ok []) ∧
  (∀ raw start end_ ps,
     first_at start raw 0 ps → absent_from end_ raw (ps + len start) →
     extract raw start end_ = Ok []) ∧
  (∀ raw, ∃ secs, build_sections raw = Ok secs ∧
     ∀ k start end_, (k, (start, end_)) ∈ section_markers →
       (absent_from start raw 0 → secs !! k = Some []) ∧
       (∀ ps, first_at start raw 0 ps →
              absent_from end_ raw (ps + len start) → secs !! k = Some [])).
Proof.
  split; [apply extract_total|].
  split; [apply extract_no_start|].
  split; [apply extract_no_end|].
  intros raw. destruct (build_sections_lookup raw) as (secs & E & _ & Hk).
  exists secs. split; [done|]. intros k start end_ Hin.
  destruct (Hk _ _ _ Hin) as (v & Hv & Ev). split.
  - intros H. rewrite (extract_no_start _ _ end_ H) in Ev.
    injection Ev as <-. exact Hv.
  - intros ps H1 H2. rewrite (extract_no_end _ _ _ _ H1 H2) in Ev.
    injection Ev as <-. exact Hv.
Qed.

Lemma C2_witness :
  let raw := py "x ---FAQS--- no end marker here" in
  absent_from KEYWORDS raw 0 ∧
  extract raw KEYWORDS TITLETAG = Ok [] ∧
  first_at FAQS raw 0 2 ∧ absent_from END_ raw (2 + len FAQS) ∧
  extract raw FAQS END_ = Ok [] ∧
  (∃ secs, build_sections raw = Ok secs ∧ secs !! k_faqs = Some []).
Proof.
  intros raw.
  assert (A1 : absent_from KEYWORDS raw 0)
    by (apply index_Raise_absent; vm_compute; reflexivity).
  assert (A2 : first_at FAQS raw 0 2)
    by (apply index_Ok_first; vm_compute; reflexivity).
  assert (A3 : absent_from END_ raw (2 + len FAQS))
    by (apply index_Raise_absent; vm_compute; reflexivity).
  destruct C2_missing_marker_gives_empty as (_ & T2 & T3 & T4).
  split; [exact A1|]. split; [exact (T2 raw KEYWORDS TITLETAG A1)|].
  split; [exact A2|]. split; [exact A3|].
  split; [exact (T3 raw FAQS END_ 2 A2 A3)|].
  destruct (T4 raw) as (secs & E & Hk). exists secs. split; [exact E|].
  refine (proj2 (Hk k_faqs FAQS END_ _) 2 A2 A3).
  unfold section_markers. repeat (first [left | right]).
Defined.

(** C3 (as amended). In a blob that is well-formed but for the missing
    [---FAQS---] marker, the faqs section is the empty string, and so is
    the article copy, whose end marker is the missing one; the keywords,
    the title tag, the meta description and the article title are the
    trimmed texts between their markers. *)
Theorem C3_missing_FAQS_sections raw l :
  well_formed_without_FAQS raw l →
  build_sections raw = Ok (expected_sections_without_FAQS l).
Proof.
  intros (Hraw & H1 & H2 & H3 & H4 & H5 & H6 & Habs).
  apply build_sections_values.
  - apply (extract_between raw (pre l) _ _ _
             (c_title_tag l ++ METADESC ++ c_meta_desc l ++ ARTICLETITLE ++
              c_article_title l ++ ARTICLECOPY ++ c_article_copy l ++
              c_faqs l ++ END_ ++ post l)); [by rewrite Hraw|done|done].
  - apply (extract_between raw (before_TITLETAG l) _ _ _
             (c_meta_desc l ++ ARTICLETITLE ++
              c_article_title l ++ ARTICLECOPY ++ c_article_copy l ++
              c_faqs l ++ END_ ++ post l)); [|done|done].
    rewrite Hraw. unfold assemble_without_FAQS, before_TITLETAG.
    by rewrite <- ?app_assoc.
  - apply (extract_between raw (before_METADESC l) _ _ _
             (c_article_title l ++ ARTICLECOPY ++ c_article_copy l ++
              c_faqs l ++ END_ ++ post l)); [|done|done].
    rewrite Hraw. unfold assemble_without_FAQS, before_METADESC, before_TITLETAG.
    by rewrite <- ?app_assoc.
  - apply (extract_between raw (before_ARTICLETITLE l) _ _ _
             (c_article_copy l ++ c_faqs l ++ END_ ++ post l)); [|done|done].
    rewrite Hraw. unfold assemble_without_FAQS, before_ARTICLETITLE,
      before_METADESC, before_TITLETAG.
    by rewrite <- ?app_assoc.
  - apply (extract_no_end _ _ _ _ H5). intros q _. by apply Habs, Nat.le_0_l.
  - by apply extract_no_start.
Qed.

Lemma C3_witness :
  well_formed_without_FAQS scenario2 scenario2_layout ∧
  build_sections scenario2 =
    Ok (expected_sections_without_FAQS scenario2_layout).
Proof.
  split; [exact well_formed_scenario2|].
  exact (C3_missing_FAQS_sections scenario2 scenario2_layout
           well_formed_scenario2).
Defined.

(** The blob of scenario 2 is well-formed but for the missing marker, its
    article copy text is [Body], and the section extracted is empty: the
    five earlier sections are not all kept. *)
Lemma C3_counterexample :
  well_formed_without_FAQS scenario2 scenario2_layout ∧
  strip (c_article_copy scenario2_layout) = py "Body" ∧
  (∃ secs, build_sections scenario2 = Ok secs ∧
           secs !! k_article_copy = Some []) ∧
  ¬ earlier_sections_kept scenario2 scenario2_layout.
Proof.
  split; [exact well_formed_scenario2|]. split; [reflexivity|].
  assert (E : ∃ secs, build_sections scenario2 = Ok secs ∧
                      secs !! k_article_copy = Some []).
  { exists (expected_sections_without_FAQS scenario2_layout).
    split; reflexivity. }
  split; [exact E|].
  destruct E as (secs & E & Hac).
  intros (secs' & E' & _ & _ & _ & _ & _ & Hac').
  rewrite E in E'. injection E' as Heq. subst secs'.
  assert (Hno : Some (@nil char) = Some (py "Body")).
  { transitivity (secs !! k_article_copy); [symmetry; exact Hac | exact Hac']. }
  discriminate Hno.
Qed.

(** ** Each pair is searched on its own *)

(** C4. Each marker pair is searched from the start of the blob, whatever
    the other pairs matched: the start marker is taken at its first
    occurrence in the blob and the end marker at its first occurrence at
    or after the position that follows it. A blob whose title-tag section
    comes before its keywords section gives both. *)
Theorem C4_pairs_searched_independently :
  (∀ raw start end_ v,
     extract raw start end_ = Ok v ↔ extract_spec raw start end_ v) ∧
  (∀ raw, ∃ secs, build_sections raw = Ok secs ∧
     ∀ k start end_, (k, (start, end_)) ∈ section_markers →
       ∃ v, secs !! k = Some v ∧ extract_spec raw start end_ v) ∧
  build_sections out_of_order = Ok out_of_order_sections.
Proof.
  split; [apply extract_iff|]. split.
  - intros raw. destruct (build_sections_lookup raw) as (secs & E & _ & Hk).
    exists secs. split; [done|]. intros k start end_ Hin.
    destruct (Hk _ _ _ Hin) as (v & Hv & Ev).
    exists v. split; [done|]. by apply extract_iff.
  - reflexivity.
Qed.

Lemma C4_witness :
  extract out_of_order TITLETAG METADESC = Ok (py "t") ∧
  extract_spec out_of_order TITLETAG METADESC (py "t") ∧
  (k_title_tag, (TITLETAG, METADESC)) ∈ section_markers ∧
  ∃ secs v, build_sections out_of_order = Ok secs ∧
            secs !! k_title_tag = Some v ∧
            extract_spec out_of_order TITLETAG METADESC v.
Proof.
  assert (E : extract out_of_order TITLETAG METADESC = Ok (py "t"))
    by (vm_compute; reflexivity).
  assert (Hin : (k_title_tag, (TITLETAG, METADESC)) ∈ section_markers)
    by (unfold section_markers; repeat (first [left | right])).
  destruct C4_pairs_searched_independently as (T1 & T2 & _).
  split; [exact E|].
  split; [exact (proj1 (T1 out_of_order TITLETAG METADESC (py "t")) E)|].
  split; [exact Hin|].
  destruct (T2 out_of_order) as (secs & Es & Hk).
  destruct (Hk _ _ _ Hin) as (v & Hv & Hs).
  exists secs, v. auto.
Defined.

(** ** Number formatting *)

Section Formatting.

Implicit Types (n : N) (w fuel : nat) (s : pystr).

Lemma is_digit_digit n : (n < 10)%N → is_digit (digit n) = true.
Proof.
  intros H. unfold is_digit, digit.
  apply andb_true_iff. split; apply N.leb_le; lia.
Qed.

Lemma decimal_aux_digits fuel n :
  Forall (λ c, is_digit c = true) (decimal_aux fuel n).
Proof.
  revert n. induction fuel as [|fuel IH]; intros n; simpl; [constructor|].
  destruct (N.ltb_spec n 10).
  - repeat constructor. by apply is_digit_digit.
  - apply Forall_app. split; [apply IH|].
    repeat constructor. apply is_digit_digit. by apply N.mod_lt.
Qed.

Lemma decimal_aux_length fuel n w :
  (n < 10 ^ N.of_nat w)%N → 1 ≤ w → length (decimal_aux fuel n) ≤ w.
Proof.
  revert n w. induction fuel as [|fuel IH]; intros n w Hn Hw; simpl; [lia|].
  destruct (N.ltb_spec n 10); simpl; [lia|].
  rewrite length_app. simpl.
  destruct w as [|w]; [lia|].
  rewrite Nat2N.inj_succ, N.pow_succ_r' in Hn.
  destruct w as [|w].
  - simpl in Hn. lia.
  - specialize (IH (n / 10)%N (S w)).
    assert (n / 10 < 10 ^ N.of_nat (S w))%N
      by (apply N.Div0.div_lt_upper_bound; lia).
    lia.
Qed.

(** A number below [10 ^ w] is printed as [w] digits. *)
Lemma fmt_d_digits w n :
  1 ≤ w → (n < 10 ^ N.of_nat w)%N → digits w (fmt_d w n).
Proof.
  intros Hw Hn. unfold fmt_d, zfill, decimal, len.
  pose proof (decimal_aux_length (S (N.size_nat n)) n w Hn Hw) as Hlen.
  split.
  - rewrite length_app, repeat_length. lia.
  - apply Forall_app. split; [|apply decimal_aux_digits].
    apply Forall_forall. intros c Hc. apply list_elem_of_In, repeat_spec in Hc.
    by subst c.
Qed.

Lemma digits_value_snoc s c :
  digits_value (s ++ [c]) = (10 * digits_value s + (c - 48))%N.
Proof. unfold digits_value. by rewrite fold_left_app. Qed.

Lemma decimal_aux_S fuel n :
  decimal_aux (S fuel) n =
  if (n <? 10)%N then [digit n]
  else decimal_aux fuel (n / 10)%N ++ [digit (n mod 10)%N].
Proof. reflexivity. Qed.

Lemma decimal_aux_value fuel n :
  (n < 2 ^ N.of_nat fuel)%N → digits_value (decimal_aux (S fuel) n) = n.
Proof.
  revert n. induction fuel as [|fuel IH]; intros n Hn.
  - simpl in *. destruct (N.ltb_spec n 10); [|lia].
    unfold digits_value, digit. simpl. lia.
  - rewrite decimal_aux_S. destruct (N.ltb_spec n 10).
    + unfold digits_value, digit. simpl. lia.
    + rewrite Nat2N.inj_succ, N.pow_succ_r' in Hn.
      rewrite digits_value_snoc, IH.
      * unfold digit. pose proof (N.Div0.div_mod n 10) as Hdm.
        set (q := (n / 10)%N) in *. set (r := (n mod 10)%N) in *.
        clearbody q r. clear IH Hn. lia.
      * apply N.Div0.div_lt_upper_bound. lia.
Qed.

Lemma size_nat_bound n : (n < 2 ^ N.of_nat (N.size_nat n))%N.
Proof.
  destruct n as [|p]; [done|]. simpl.
  pose proof (proj2 (Zpower2_Psize (Pos.size_nat p) p) (le_n _)) as H.
  apply N2Z.inj_lt. rewrite N2Z.inj_pow. simpl.
  by rewrite nat_N_Z.
Qed.

(** [decimal n] are the digits of [n]. *)
Lemma decimal_value n : digits_value (decimal n) = n.
Proof.
  unfold decimal. apply decimal_aux_value, size_nat_bound.
Qed.

Lemma stamp_shape_strftime t :
  valid_datetime t → stamp_shape (strftime_stamp t).
Proof.
  intros (Hy & Hm & Hd & Hh & Hmi & Hs & Hu).
  exists (fmt_d 4 (year t)), (fmt_d 2 (month t)), (fmt_d 2 (day t)),
    (fmt_d 2 (hour t)), (fmt_d 2 (minute t)), (fmt_d 2 (second t)).
  split; [done|].
  repeat split; try (apply fmt_d_digits; simpl; lia).
Qed.

Lemma iso8601_shape_isoformat t :
  valid_datetime t → iso8601_shape (isoformat t).
Proof.
  intros (Hy & Hm & Hd & Hh & Hmi & Hs & Hu).
  exists (fmt_d 4 (year t)), (fmt_d 2 (month t)), (fmt_d 2 (day t)),
    (fmt_d 2 (hour t)), (fmt_d 2 (minute t)), (fmt_d 2 (second t)),
    (if (microsecond t =? 0)%N then [] else py "." ++ fmt_d 6 (microsecond t)).
  split; [unfold isoformat; by rewrite <- ?app_assoc|].
  do 6 (split; [apply fmt_d_digits; simpl; lia|]).
  destruct (microsecond t =? 0)%N; [by left|right].
  eexists. split; [done|]. apply fmt_d_digits; simpl; lia.
Qed.

Lemma digits_value_zeros k s :
  digits_value (repeat (digit 0) k ++ s) = digits_value s.
Proof.
  unfold digits_value. rewrite fold_left_app. f_equal.
  induction k as [|k IH]; [done|]. simpl. exact IH.
Qed.

(** The number printed is read back from its digits. *)
Lemma fmt_d_value width n : digits_value (fmt_d width n) = n.
Proof. unfold fmt_d, zfill. by rewrite digits_value_zeros, decimal_value. Qed.

Lemma fmt_d_inj width n m : fmt_d width n = fmt_d width m → n = m.
Proof.
  intros H. apply (f_equal digits_value) in H. by rewrite !fmt_d_value in H.
Qed.

Lemma fmt_d_length width n :
  1 ≤ width → (n < 10 ^ N.of_nat width)%N → length (fmt_d width n) = width.
Proof. intros H1 H2. by destruct (fmt_d_digits width n H1 H2). Qed.

(** The time stamp of the file name reads back as the time. *)
Lemma stamp_of_strftime t : valid_datetime t → stamp_of t (strftime_stamp t).
Proof.
  intros (Hy & Hm & Hd & Hh & Hmi & Hs & Hu).
  exists (fmt_d 4 (year t)), (fmt_d 2 (month t)), (fmt_d 2 (day t)),
    (fmt_d 2 (hour t)), (fmt_d 2 (minute t)), (fmt_d 2 (second t)).
  split; [done|].
  repeat split; try apply fmt_d_value; try (apply fmt_d_digits; simpl; lia).
Qed.

(** The ISO 8601 form reads back as the time. *)
Lemma iso8601_of_isoformat t : valid_datetime t → iso8601_of t (isoformat t).
Proof.
  intros (Hy & Hm & Hd & Hh & Hmi & Hs & Hu).
  exists (fmt_d 4 (year t)), (fmt_d 2 (month t)), (fmt_d 2 (day t)),
    (fmt_d 2 (hour t)), (fmt_d 2 (minute t)), (fmt_d 2 (second t)),
    (if (microsecond t =? 0)%N then [] else py "." ++ fmt_d 6 (microsecond t)).
  split; [unfold isoformat; by rewrite <- ?app_assoc|].
  do 6 (split; [apply fmt_d_digits; simpl; lia|split; [apply fmt_d_value|]]).
  destruct (N.eqb_spec (microsecond t) 0) as [E|E]; [by left|right].
  split; [done|]. eexists. split; [done|].
  split; [apply fmt_d_digits; simpl; lia|apply fmt_d_value].
Qed.

End Formatting.

(** ** The export writer *)

Section ExportWriter.

Implicit Types (ctx secs : gmap pystr pystr) (w : World) (s : pystr).

Lemma replace_twice s :
  replace_char 47%N 45%N (replace_char 32%N 95%N s) = map sanitize_char s.
Proof.
  unfold replace_char. rewrite map_map. apply map_ext. intros c.
  unfold sanitize_char. by destruct (N.eqb_spec c 32) as [->|].
Qed.

Lemma safe_kw_eq ctx :
  safe_kw ctx =
  take 30 (map sanitize_char (dict_get ctx k_primary_keyword (py "article"))).
Proof.
  unfold safe_kw, prefix_slice, slice. by rewrite replace_twice, drop_0.
Qed.

Lemma sanitize_char_clean c :
  sanitize_char c ≠ 32%N ∧ sanitize_char c ≠ 47%N.
Proof.
  unfold sanitize_char.
  destruct (N.eqb_spec c 32); [by split|].
  destruct (N.eqb_spec c 47); by split.
Qed.

Lemma safe_kw_clean ctx c : c ∈ safe_kw ctx → c ≠ 32%N ∧ c ≠ 47%N.
Proof.
  rewrite safe_kw_eq. intros H. apply elem_of_take in H as (i & H & _).
  apply list_lookup_fmap_Some in H as (c' & -> & _).
  apply sanitize_char_clean.
Qed.

Lemma safe_kw_length ctx : length (safe_kw ctx) ≤ 30.
Proof. rewrite safe_kw_eq, length_take. lia. Qed.

Lemma digits_clean n s c :
  digits n s → c ∈ s → c ≠ 32%N ∧ c ≠ 47%N.
Proof.
  intros [_ H] Hc. rewrite Forall_forall in H. specialize (H c Hc).
  unfold is_digit in H. apply andb_true_iff in H as [H1 H2].
  apply N.leb_le in H1, H2. lia.
Qed.

Lemma fmt_d_clean n x c : c ∈ fmt_d n x → c ≠ 32%N ∧ c ≠ 47%N.
Proof.
  unfold fmt_d, zfill. intros H. apply elem_of_app in H as [H|H].
  - apply list_elem_of_In, repeat_spec in H. subst c. by vm_compute.
  - pose proof (decimal_aux_digits (S (N.size_nat x)) x) as Hd.
    rewrite Forall_forall in Hd. specialize (Hd c H).
    unfold is_digit in Hd. apply andb_true_iff in Hd as [H1 H2].
    apply N.leb_le in H1, H2. lia.
Qed.

(** The time stamp of the file name has neither a space nor a slash. *)
Lemma strftime_stamp_clean t c :
  c ∈ strftime_stamp t → c ≠ 32%N ∧ c ≠ 47%N.
Proof.
  unfold strftime_stamp. rewrite !elem_of_app.
  intros [H|[H|[H|[H|[H|[H|H]]]]]]; try (by eapply fmt_d_clean).
  apply list_elem_of_singleton in H. by subst c.
Qed.

Lemma file_base_clean ctx t c :
  c ∈ file_base ctx (strftime_stamp t) → c ≠ 32%N ∧ c ≠ 47%N.
Proof.
  unfold file_base. rewrite !elem_of_app. intros [H|[H|H]].
  - by eapply safe_kw_clean.
  - apply list_elem_of_singleton in H. by subst c.
  - by eapply strftime_stamp_clean.
Qed.

Lemma startswith_slash_false s :
  (∀ c, c ∈ s → c ≠ slash) → startswith [slash] s = false.
Proof.
  intros H. destruct s as [|c s]; [done|]. cbn [startswith].
  destruct (N.eqb_spec slash c) as [<-|]; [|done].
  by destruct (H slash (list_elem_of_here _ _)).
Qed.

(** Joining the output directory and a file name without a slash. *)
Lemma path_join_output_dir home name :
  startswith [slash] name = false →
  path_join (expanduser_output_dir home) name =
  expanduser_output_dir home ++ [slash] ++ name.
Proof.
  intros H. unfold path_join. rewrite H.
  assert (E1 : (len (expanduser_output_dir home) =? 0) = false).
  { apply Nat.eqb_neq. unfold expanduser_output_dir, len.
    rewrite length_app. simpl. lia. }
  assert (E2 : endswith [slash] (expanduser_output_dir home) = false).
  { unfold endswith, expanduser_output_dir. by rewrite rev_app_distr. }
  by rewrite E1, E2.
Qed.

Lemma file_name_no_slash ctx t ext :
  (∀ c, c ∈ ext → c ≠ slash) →
  startswith [slash] (file_base ctx (strftime_stamp t) ++ ext) = false.
Proof.
  intros Hext. apply startswith_slash_false. intros c Hc.
  apply elem_of_app in Hc as [Hc|Hc]; [|by apply Hext].
  by apply file_base_clean in Hc as [_ ?].
Qed.

Lemma render_md_run ctx secs w tt md kw ac fq :
  secs !! k_title_tag = Some tt → secs !! k_meta_desc = Some md →
  secs !! k_keywords = Some kw → secs !! k_article_copy = Some ac →
  secs !! k_faqs = Some fq →
  render_md ctx secs w =
  Ok (md_template (dict_get ctx k_primary_keyword [])
        (strftime_long (clock w (reads w))) tt md kw ac fq
        (dict_get ctx k_keywords_output (py "N/A")),
      (now w).2).
Proof.
  intros H1 H2 H3 H4 H5. unfold render_md, getitem. simpl.
  by rewrite H1, H2, H3, H4, H5.
Qed.

End ExportWriter.

(** ** What can be encoded *)

Section Encodings.

Implicit Types (ctx secs : gmap pystr pystr) (w : World) (s : pystr)
  (c : char).

Lemma utf8_encodable_app (a b : pystr) :
  utf8_encodable (a ++ b) = utf8_encodable a && utf8_encodable b.
Proof. apply forallb_app. Qed.

Lemma utf8_encodable_Forall s :
  utf8_encodable s = true ↔ Forall (λ c, is_surrogate c = false) s.
Proof.
  unfold utf8_encodable. rewrite forallb_forall, Forall_forall.
  split; intros H c Hc.
  - apply negb_true_iff, H. by apply list_elem_of_In.
  - apply negb_true_iff, H. by apply list_elem_of_In.
Qed.

(** A string UTF-8 can encode is one the file-system encoding takes. *)
Lemma utf8_fs_encodable s : utf8_encodable s = true → fs_encodable s = true.
Proof.
  unfold utf8_encodable, fs_encodable. rewrite !forallb_forall.
  intros H c Hc. by rewrite (H c Hc).
Qed.

Lemma fs_encodable_app (a b : pystr) :
  fs_encodable (a ++ b) = fs_encodable a && fs_encodable b.
Proof. apply forallb_app. Qed.

Lemma fspath_Ok s :
  fspath s = Ok () ↔ fs_encodable s = true ∧ existsb (N.eqb 0) s = false.
Proof.
  unfold fspath. destruct (fs_encodable s); simpl.
  - destruct (existsb (N.eqb 0) s); split; try done. by intros [_ ?].
  - split; [done|]. by intros [? _].
Qed.

Lemma fspath_app (a b : pystr) :
  fspath (a ++ b) = Ok () ↔ fspath a = Ok () ∧ fspath b = Ok ().
Proof.
  rewrite !fspath_Ok, fs_encodable_app, existsb_app, andb_true_iff,
    orb_false_iff. tauto.
Qed.

Lemma no_nul_existsb s : existsb (N.eqb 0) s = false ↔ 0%N ∉ s.
Proof.
  split.
  - intros H Hin. apply list_elem_of_In in Hin.
    assert (existsb (N.eqb 0) s = true); [|congruence].
    apply existsb_exists. exists 0%N. by split.
  - intros H. destruct (existsb (N.eqb 0) s) eqn:E; [|done].
    apply existsb_exists in E as (c & Hc & E). apply N.eqb_eq in E. subst c.
    destruct H. by apply list_elem_of_In.
Qed.

Lemma digit_not_surrogate c : is_digit c = true → is_surrogate c = false.
Proof.
  unfold is_digit, is_surrogate. intros H.
  apply andb_true_iff in H as [H1 H2]. apply N.leb_le in H1, H2.
  apply andb_false_iff. left. apply N.leb_gt. lia.
Qed.

Lemma utf8_fmt_d width n : utf8_encodable (fmt_d width n) = true.
Proof.
  apply utf8_encodable_Forall. unfold fmt_d, zfill. apply Forall_app. split.
  - apply Forall_forall. intros c Hc.
    apply list_elem_of_In, repeat_spec in Hc. by subst c.
  - eapply Forall_impl; [apply decimal_aux_digits|].
    intros c. apply digit_not_surrogate.
Qed.

Lemma no_nul_fmt_d width n : 0%N ∉ fmt_d width n.
Proof.
  unfold fmt_d, zfill. intros H. apply elem_of_app in H as [H|H].
  - apply list_elem_of_In, repeat_spec in H. discriminate H.
  - pose proof (decimal_aux_digits (S (N.size_nat n)) n) as Hd.
    rewrite Forall_forall in Hd. specialize (Hd _ H). discriminate Hd.
Qed.

Lemma utf8_month_name m : utf8_encodable (month_name m) = true.
Proof.
  unfold month_name. generalize (N.to_nat m). intros n.
  do 13 (destruct n as [|n]; [reflexivity|]). reflexivity.
Qed.


Lemma utf8_strftime_long t : utf8_encodable (strftime_long t) = true.
Proof.
  unfold strftime_long.
  by rewrite !utf8_encodable_app, !utf8_fmt_d, utf8_month_name.
Qed.

Lemma utf8_isoformat t : utf8_encodable (isoformat t) = true.
Proof.
  unfold isoformat. rewrite !utf8_encodable_app, !utf8_fmt_d.
  destruct (microsecond t =? 0)%N; [done|].
  by rewrite utf8_encodable_app, utf8_fmt_d.
Qed.

Lemma utf8_strftime_stamp t : utf8_encodable (strftime_stamp t) = true.
Proof.
  unfold strftime_stamp. by rewrite !utf8_encodable_app, !utf8_fmt_d.
Qed.

Lemma no_nul_strftime_stamp t : 0%N ∉ strftime_stamp t.
Proof.
  unfold strftime_stamp. rewrite !elem_of_app.
  intros [H|[H|[H|[H|[H|[H|H]]]]]]; try (by eapply no_nul_fmt_d).
  by apply list_elem_of_singleton in H.
Qed.

Lemma utf8_md_template (pk g tt md kw ac fq ko : pystr) :
  utf8_encodable pk = true → utf8_encodable g = true →
  utf8_encodable tt = true → utf8_encodable md = true →
  utf8_encodable kw = true → utf8_encodable ac = true →
  utf8_encodable fq = true → utf8_encodable ko = true →
  utf8_encodable (md_template pk g tt md kw ac fq ko) = true.
Proof.
  intros H1 H2 H3 H4 H5 H6 H7 H8. unfold md_template.
  rewrite !utf8_encodable_app, H1, H2, H3, H4, H5, H6, H7, H8.
  reflexivity.
Qed.

(** Parts of a string that can be encoded can be encoded. *)
Lemma utf8_lstrip_by p s :
  utf8_encodable s = true → utf8_encodable (lstrip_by p s) = true.
Proof.
  intros H. destruct (lstrip_by_split p s) as (l & E & _).
  rewrite E, utf8_encodable_app in H. by apply andb_true_iff in H as [_ ?].
Qed.

Lemma utf8_rev s : utf8_encodable (rev s) = utf8_encodable s.
Proof.
  induction s as [|c s IH]; [done|]. simpl.
  rewrite utf8_encodable_app, IH. simpl. rewrite andb_true_r. apply andb_comm.
Qed.

Lemma utf8_rstrip_by p s :
  utf8_encodable s = true → utf8_encodable (rstrip_by p s) = true.
Proof.
  intros H. unfold rstrip_by. rewrite utf8_rev. apply utf8_lstrip_by.
  by rewrite utf8_rev.
Qed.

Lemma utf8_strip s : utf8_encodable s = true → utf8_encodable (strip s) = true.
Proof. intros H. by apply utf8_rstrip_by, utf8_lstrip_by. Qed.

Lemma utf8_slice s i j :
  utf8_encodable s = true → utf8_encodable (slice s i j) = true.
Proof.
  rewrite !utf8_encodable_Forall. intros H. unfold slice.
  by apply Forall_take, Forall_drop.
Qed.

Lemma utf8_extract raw start end_ v :
  utf8_encodable raw = true → extract raw start end_ = Ok v →
  utf8_encodable v = true.
Proof.
  intros H E. apply extract_iff in E.
  destruct E as [[_ ->]|[(ps & _ & _ & ->)|(ps & pe & _ & _ & ->)]];
    [done|done|]. by apply utf8_strip, utf8_slice.
Qed.

(** The sections of a blob without surrogates have none. *)
Lemma utf8_build_sections raw secs :
  utf8_encodable raw = true → build_sections raw = Ok secs → utf8_map secs.
Proof.
  intros H E.
  destruct (build_sections_total raw)
    as (v1 & v2 & v3 & v4 & v5 & v6 & E1 & E2 & E3 & E4 & E5 & E6 & E').
  rewrite E' in E. injection E as <-. unfold utf8_map.
  repeat (apply map_Forall_insert_2;
          [split; [reflexivity|by eapply utf8_extract]|]).
  apply map_Forall_empty.
Qed.

Lemma utf8_dict_get ctx k (x : pystr) :
  utf8_map ctx → utf8_encodable x = true →
  utf8_encodable (dict_get ctx k x) = true.
Proof.
  intros H Hx. unfold dict_get. destruct (ctx !! k) as [v|] eqn:E; [|done].
  by destruct (H k v E).
Qed.

(** A field of the context that no section replaces is written as
    it is. *)
Lemma utf8_context_field secs ctx k (x : pystr) :
  utf8_map (secs ∪ ctx) → secs !! k = None → utf8_encodable x = true →
  utf8_encodable (dict_get ctx k x) = true.
Proof.
  intros H Hk Hx. unfold dict_get. destruct (ctx !! k) as [v|] eqn:E; [|done].
  apply (H k v). by rewrite lookup_union_r.
Qed.

Lemma utf8_section secs ctx k (v : pystr) :
  utf8_map (secs ∪ ctx) → secs !! k = Some v → utf8_encodable v = true.
Proof. intros H Hk. apply (H k v). by apply lookup_union_Some_l. Qed.

Lemma sanitize_char_surrogate c :
  is_surrogate c = false → is_surrogate (sanitize_char c) = false.
Proof.
  intros H. unfold sanitize_char.
  destruct (N.eqb_spec c 32); [done|]. by destruct (N.eqb_spec c 47).
Qed.

Lemma utf8_safe_kw secs ctx :
  utf8_map (secs ∪ ctx) → secs !! k_primary_keyword = None →
  utf8_encodable (safe_kw ctx) = true.
Proof.
  intros H Hk. rewrite safe_kw_eq. apply utf8_encodable_Forall.
  apply Forall_take, Forall_fmap.
  assert (Hkw : utf8_encodable (dict_get ctx k_primary_keyword (py "article"))
                = true) by (by apply (utf8_context_field secs)).
  apply utf8_encodable_Forall in Hkw.
  eapply Forall_impl; [exact Hkw|]. intros c. apply sanitize_char_surrogate.
Qed.

(** The record of the export can be written when the sections can, and
    the fields of the context they do not replace. *)
Lemma utf8_json_data t ctx secs :
  utf8_map (secs ∪ ctx) → utf8_map (json_data (isoformat t) ctx secs).
Proof.
  intros H. unfold json_data, utf8_map. rewrite (assoc_L (∪)).
  apply map_Forall_union_2; [done|].
  apply map_Forall_singleton. split; [reflexivity|apply utf8_isoformat].
Qed.

Lemma utf8_json_data_inv g ctx secs :
  utf8_map (json_data g ctx secs) → utf8_map (secs ∪ ctx).
Proof.
  intros H k v Hk. apply (H k v). unfold json_data. rewrite (assoc_L (∪)).
  by apply lookup_union_Some_l.
Qed.

Lemma utf8_map_union (m1 m2 : gmap pystr pystr) :
  utf8_map m1 → utf8_map m2 → utf8_map (m1 ∪ m2).
Proof. intros H1 H2. by apply map_Forall_union_2. Qed.

End Encodings.

(** ** Directories above a path *)

Section Paths.

Implicit Types (ctx secs : gmap pystr pystr) (w : World) (s p d : pystr)
  (c : char).

Lemma after_last_slash_none s : slash ∉ s → after_last_slash s = 0.
Proof.
  induction s as [|c s IH]; [done|]. intros H. simpl.
  rewrite IH by (intros Hin; apply H; by right).
  destruct (N.eqb_spec c slash) as [->|]; [|done].
  destruct H. by left.
Qed.

Lemma after_last_slash_app p s :
  slash ∉ s → after_last_slash (p ++ [slash] ++ s) = S (length p).
Proof.
  intros H. induction p as [|c p IH]; simpl.
  - by rewrite (after_last_slash_none s H).
  - simpl in IH. by rewrite IH.
Qed.

(** The position after the last slash is 0, or a slash is in front
    of it. *)
Lemma after_last_slash_cases p :
  after_last_slash p = 0 ∨
  ∃ q, take (after_last_slash p) p = q ++ [slash].
Proof.
  induction p as [|c p IH]; [by left|]. simpl.
  destruct (after_last_slash p) as [|i] eqn:E.
  - destruct (N.eqb_spec c slash) as [->|]; [|by left].
    right. by exists nil.
  - right. destruct IH as [IH|[q IH]]; [done|].
    exists (c :: q). simpl. by rewrite IH.
Qed.

Lemma all_slashes_Forall s : all_slashes s = true ↔ Forall (λ c, c = slash) s.
Proof.
  unfold all_slashes. rewrite forallb_forall, Forall_forall. split.
  - intros H c Hc. symmetry. apply N.eqb_eq, H. by apply list_elem_of_In.
  - intros H c Hc. apply N.eqb_eq. symmetry. apply H. by apply list_elem_of_In.
Qed.


(** What [rstrip_by] leaves and what it takes away. *)
Lemma rstrip_by_split (f : char → bool) s :
  ∃ r, s = rstrip_by f s ++ r ∧ Forall (λ c, f c = true) r.
Proof.
  unfold rstrip_by. destruct (lstrip_by_split f (rev s)) as (l & E & Hl).
  exists (rev l). split; [|by apply Forall_rev].
  rewrite <- rev_app_distr, <- E. by rewrite rev_involutive.
Qed.

Lemma rstrip_by_snoc_keep (f : char → bool) s c :
  f c = false → rstrip_by f (s ++ [c]) = s ++ [c].
Proof.
  intros H. unfold rstrip_by. rewrite rev_app_distr. simpl. rewrite H.
  change (c :: rev s) with ([c] ++ rev s).
  by rewrite rev_app_distr, rev_involutive.
Qed.

Lemma rstrip_by_snoc_drop (f : char → bool) s c :
  f c = true → rstrip_by f (s ++ [c]) = rstrip_by f s.
Proof.
  intros H. unfold rstrip_by. rewrite rev_app_distr. simpl. by rewrite H.
Qed.

(** The directory of a name without a slash joined to a directory. *)
Lemma dirname_join d c s :
  c ≠ slash → slash ∉ s → dirname ((d ++ [c]) ++ [slash] ++ s) = d ++ [c].
Proof.
  intros Hc Hs. unfold dirname.
  rewrite (after_last_slash_app (d ++ [c]) s Hs).
  replace (take (S (length (d ++ [c]))) ((d ++ [c]) ++ [slash] ++ s))
    with ((d ++ [c]) ++ [slash]).
  2:{ rewrite (app_assoc (d ++ [c]) [slash] s).
      rewrite take_app_length'; [done|]. rewrite !length_app. simpl. lia. }
  assert (E1 : (len ((d ++ [c]) ++ [slash]) =? 0) = false).
  { apply Nat.eqb_neq. unfold len. rewrite !length_app. simpl. lia. }
  assert (E2 : all_slashes ((d ++ [c]) ++ [slash]) = false).
  { apply not_true_iff_false. intros H. apply all_slashes_Forall in H.
    apply Forall_app in H as [H _]. apply Forall_app in H as [_ H].
    by apply Forall_cons in H as [? _]. }
  rewrite E1, E2. simpl.
  rewrite rstrip_by_snoc_drop by done.
  apply rstrip_by_snoc_keep. by apply N.eqb_neq.
Qed.

(** The directory of a path is above it. *)
Lemma dirname_above p :
  all_slashes (dirname p) = false → ∃ rest, p = dirname p ++ [slash] ++ rest.
Proof.
  unfold dirname. set (i := after_last_slash p).
  set (head := take i p).
  destruct (negb (len head =? 0) && negb (all_slashes head)) eqn:E;
    [|intros H; rewrite H in E; simpl in E; rewrite andb_true_r in E;
      apply negb_false_iff, Nat.eqb_eq in E;
      destruct head; [done|discriminate E]].
  intros _. apply andb_true_iff in E as [E1 E2].
  apply negb_true_iff in E1, E2. apply Nat.eqb_neq in E1.
  destruct (after_last_slash_cases p) as [E0|[q Hq]].
  { unfold head, i in E1. rewrite E0 in E1. by destruct p. }
  fold i head in Hq.
  destruct (rstrip_by_split (N.eqb slash) head) as (r & Er & Hr).
  assert (Hp : p = head ++ drop i p) by (symmetry; apply take_drop).
  assert (Hr' : Forall (λ c, c = slash) r).
  { eapply Forall_impl; [exact Hr|]. intros c Hc. symmetry.
    by apply N.eqb_eq. }
  destruct r as [|c r].
  - (* nothing was taken away: [head] would end in a slash it keeps *)
    rewrite app_nil_r in Er. rewrite Hq in Er.
    rewrite rstrip_by_snoc_drop in Er by apply N.eqb_refl.
    destruct (rstrip_by_split (N.eqb slash) q) as (r' & Er' & _).
    rewrite <- Er in Er'. apply (f_equal length) in Er'.
    rewrite !length_app in Er'. simpl in Er'. lia.
  - apply Forall_cons in Hr' as [-> Hr'].
    exists (r ++ drop i p). rewrite Hp at 1. rewrite Er at 1.
    by rewrite <- !app_assoc.
Qed.

Lemma above_trans d p q : above d p → above p q → above d q.
Proof.
  intros [->|[r1 E1]] [->|[r2 E2]].
  - by left.
  - right. by exists r2.
  - right. by exists r1.
  - right. exists (r1 ++ [slash] ++ r2). rewrite E2, E1.
    by rewrite <- !app_assoc.
Qed.

Lemma ancestors_above fuel p d : d ∈ ancestors fuel p → above d p.
Proof.
  revert p. induction fuel as [|fuel IH]; intros p; simpl.
  - by intros H%elem_of_nil.
  - destruct (all_slashes (dirname p)) eqn:E; [by intros H%elem_of_nil|].
    destruct (dirname_above p E) as [rest Hp].
    assert (Ha : above (dirname p) p) by (right; by exists rest).
    intros [->|H]%elem_of_cons; [done|].
    eapply above_trans; [by apply IH|done].
Qed.

(** Each step to the directory above shortens the name, and [len p]
    steps reach the top: more fuel changes nothing. *)
Lemma dirname_shorter p :
  all_slashes (dirname p) = false → length (dirname p) < length p.
Proof.
  intros H. destruct (dirname_above p H) as [rest E].
  rewrite E at 2. rewrite !length_app. simpl. lia.
Qed.

Lemma ancestors_enough fuel p :
  length p ≤ fuel → ancestors fuel p = ancestors (len p) p.
Proof.
  assert (G : ∀ n m p, length p ≤ n → length p ≤ m →
                       ancestors n p = ancestors m p).
  { induction n as [|n IH]; intros m q Hn Hm.
    - destruct q; [|simpl in Hn; lia]. by destruct m.
    - destruct m as [|m].
      + destruct q; [done|simpl in Hm; lia].
      + simpl. destruct (all_slashes (dirname q)) eqn:E; [done|].
        pose proof (dirname_shorter q E). f_equal. apply IH; lia. }
  intros H. by apply G.
Qed.

(** A directory above is shorter, or the directory itself. *)
Lemma above_length d p : above d p → length d ≤ length p.
Proof.
  intros [->|[r ->]]; [done|]. rewrite length_app. lia.
Qed.

End Paths.

(** ** Making the directory and writing a file *)

Section Writer.

Implicit Types (ctx secs : gmap pystr pystr) (w : World) (s p d : pystr)
  (c : char).

Lemma isfile_false p w : files w !! p = None → isfile p w = false.
Proof.
  intros H. unfold isfile. apply bool_decide_eq_false. rewrite H.
  by intros [? ?].
Qed.

Lemma makedirs_ok p w :
  fspath p = Ok () → (∀ d, above d p → files w !! d = None) →
  makedirs p w =
  Ok {| userhome := userhome w; clock := clock w; reads := reads w;
        dirs := {[p]} ∪ (list_to_set (ancestors (len p) p) ∪ dirs w);
        files := files w |}.
Proof.
  intros Hp Hfree. unfold makedirs. rewrite Hp. cbn [mbind result_bind].
  assert (E : existsb (λ d, isfile d w) (ancestors (len p) p) = false).
  { apply not_true_iff_false. intros H.
    apply existsb_exists in H as (d & Hd & H).
    rewrite isfile_false in H; [done|].
    apply Hfree. eapply ancestors_above. by apply list_elem_of_In. }
  rewrite E. rewrite isfile_false; [done|]. apply Hfree. by left.
Qed.

(** Writing where nothing is in the way: only the name and the content
    can be refused. *)
Lemma write_file_free p (content : file_content) w :
  files w !! dirname p = None → dirname p ∈ dirs w → p ∉ dirs w →
  write_file p content w =
  (_ ← fspath p;
   if encodable content
   then Ok {| userhome := userhome w; clock := clock w; reads := reads w;
              dirs := dirs w; files := <[p := content]> (files w) |}
   else Raise UnicodeEncodeError).
Proof.
  intros Hfile Hdir Hfree. unfold write_file.
  destruct (fspath p) as [[]|e]; [|done]. cbn [mbind result_bind].
  rewrite (isfile_false _ _ Hfile).
  unfold isdir. rewrite (bool_decide_eq_true_2 _ Hdir), orb_true_r.
  cbn [negb]. by rewrite (bool_decide_eq_false_2 _ Hfree).
Qed.

Lemma write_file_ok p (content : file_content) w :
  fspath p = Ok () → files w !! dirname p = None → dirname p ∈ dirs w →
  p ∉ dirs w → encodable content = true →
  write_file p content w =
  Ok {| userhome := userhome w; clock := clock w; reads := reads w;
        dirs := dirs w; files := <[p := content]> (files w) |}.
Proof.
  intros Hp Hfile Hdir Hfree Hc. unfold write_file. rewrite Hp.
  cbn [mbind result_bind]. rewrite (isfile_false _ _ Hfile).
  unfold isdir. rewrite (bool_decide_eq_true_2 _ Hdir), orb_true_r.
  cbn [negb]. rewrite (bool_decide_eq_false_2 _ Hfree). by rewrite Hc.
Qed.

(** The output directory ends in the letter [s]. *)
Lemma expanduser_output_dir_last home :
  expanduser_output_dir home =
  (rstrip_by (N.eqb slash) home ++ py "/Desktop/SEO Article") ++ [115%N].
Proof. unfold expanduser_output_dir. by rewrite <- app_assoc. Qed.

Lemma fspath_rstrip_by (f : char → bool) s :
  fspath s = Ok () → fspath (rstrip_by f s) = Ok ().
Proof.
  intros H. destruct (rstrip_by_split f s) as (r & E & _).
  rewrite E in H. by apply fspath_app in H as [? _].
Qed.

Lemma fspath_output_dir home :
  fspath home = Ok () → fspath (expanduser_output_dir home) = Ok ().
Proof.
  intros H. unfold expanduser_output_dir. apply fspath_app.
  split; [by apply fspath_rstrip_by|reflexivity].
Qed.

(** The directory of a file of the export is the output directory. *)
Lemma dirname_export home name :
  slash ∉ name →
  dirname (expanduser_output_dir home ++ [slash] ++ name)
  = expanduser_output_dir home.
Proof.
  intros H. rewrite expanduser_output_dir_last. by apply dirname_join.
Qed.


Lemma no_slash_file_name ctx t ext :
  slash ∉ ext → slash ∉ file_base ctx (strftime_stamp t) ++ ext.
Proof.
  intros Hext Hin. apply elem_of_app in Hin as [Hin|Hin]; [|done].
  by apply file_base_clean in Hin as [_ ?].
Qed.

Lemma no_slash_md : slash ∉ py ".md".
Proof.
  intros H. repeat (apply elem_of_cons in H as [H|H]; [discriminate H|]).
  by apply elem_of_nil in H.
Qed.

Lemma no_slash_json : slash ∉ py ".json".
Proof.
  intros H. repeat (apply elem_of_cons in H as [H|H]; [discriminate H|]).
  by apply elem_of_nil in H.
Qed.

(** The path of a file of the export is a name the system takes. *)
Lemma fspath_export home ctx t ext :
  fspath home = Ok () → utf8_encodable (safe_kw ctx) = true →
  0%N ∉ safe_kw ctx → fspath ext = Ok () →
  fspath (expanduser_output_dir home ++ [slash] ++
          file_base ctx (strftime_stamp t) ++ ext) = Ok ().
Proof.
  intros Hh Hc Hk He. unfold file_base.
  apply fspath_app. split; [by apply fspath_output_dir|].
  apply fspath_app. split; [reflexivity|].
  apply fspath_app. split; [|exact He].
  apply fspath_app. split.
  { apply fspath_Ok. split; [by apply utf8_fs_encodable|].
    by apply no_nul_existsb. }
  apply fspath_app. split; [reflexivity|].
  apply fspath_Ok. split; [apply utf8_fs_encodable, utf8_strftime_stamp|].
  apply no_nul_existsb, no_nul_strftime_stamp.
Qed.

(** A file of the export is neither the output directory nor above it. *)
Lemma export_not_above dir name d :
  above d dir → d ≠ dir ++ [slash] ++ name.
Proof.
  intros H ->. apply above_length in H. rewrite !length_app in H.
  simpl in H. lia.
Qed.

End Writer.

(** ** One run of the save *)

Section Run.

Implicit Types (ctx secs : gmap pystr pystr) (w : World) (s p d : pystr)
  (c : char).

Lemma build_sections_fields raw :
  ∃ secs tt md kw ac fq,
    build_sections raw = Ok secs ∧ dom secs = section_names ∧
    secs !! k_title_tag = Some tt ∧ secs !! k_meta_desc = Some md ∧
    secs !! k_keywords = Some kw ∧ secs !! k_article_copy = Some ac ∧
    secs !! k_faqs = Some fq.
Proof.
  destruct (build_sections_lookup raw) as (secs & E & Hdom & Hk).
  assert (Hget : ∀ k start end_, (k, (start, end_)) ∈ section_markers →
                                 ∃ v, secs !! k = Some v).
  { intros k start end_ Hin. destruct (Hk _ _ _ Hin) as (v & Hv & _). eauto. }
  destruct (Hget k_title_tag TITLETAG METADESC) as [tt Htt];
    [unfold section_markers; repeat (first [left | right])|].
  destruct (Hget k_meta_desc METADESC ARTICLETITLE) as [md Hmd];
    [unfold section_markers; repeat (first [left | right])|].
  destruct (Hget k_keywords KEYWORDS TITLETAG) as [kw Hkwd];
    [unfold section_markers; repeat (first [left | right])|].
  destruct (Hget k_article_copy ARTICLECOPY FAQS) as [ac Hac];
    [unfold section_markers; repeat (first [left | right])|].
  destruct (Hget k_faqs FAQS END_) as [fq Hfq];
    [unfold section_markers; repeat (first [left | right])|].
  by exists secs, tt, md, kw, ac, fq.
Qed.

Lemma fspath_app_ok_r (a ext : pystr) :
  fspath ext = Ok () → fspath (a ++ ext) = fspath a.
Proof.
  unfold fspath, pystr, char in *. rewrite fs_encodable_app, existsb_app.
  destruct (fs_encodable ext); simpl; [|intros H; discriminate H].
  destruct (existsb _ ext); simpl; [intros H; discriminate H|]. intros _.
  by rewrite andb_true_r, orb_false_r.
Qed.

(** The two paths of a save are taken or refused together. *)
Lemma fspath_export_ext home base :
  fspath (home ++ [slash] ++ base ++ py ".json")
  = fspath (home ++ [slash] ++ base ++ py ".md").
Proof.
  replace (home ++ [slash] ++ base ++ py ".json")
    with ((home ++ [slash] ++ base) ++ py ".json")
    by (by rewrite <- !app_assoc).
  replace (home ++ [slash] ++ base ++ py ".md")
    with ((home ++ [slash] ++ base) ++ py ".md")
    by (by rewrite <- !app_assoc).
  rewrite (fspath_app_ok_r _ (py ".json")) by reflexivity.
  by rewrite (fspath_app_ok_r _ (py ".md")) by reflexivity.
Qed.

(** One run of [save_article] where the file system has room: the name
    of the files and what is written can still be refused. *)
Lemma save_article_steps data w :
  hospitable data w →
  let raw := default [] (raw_article data) in
  let ctx := default ∅ (context data) in
  let dir := expanduser_output_dir (userhome w) in
  let t1 := clock w (reads w) in
  let t2 := clock w (S (reads w)) in
  let t3 := clock w (S (S (reads w))) in
  let base := file_base ctx (strftime_stamp t1) in
  let mdp := dir ++ [slash] ++ base ++ py ".md" in
  let jsp := dir ++ [slash] ++ base ++ py ".json" in
  ∃ secs tt md kw ac fq,
    build_sections raw = Ok secs ∧ dom secs = section_names ∧
    secs !! k_title_tag = Some tt ∧ secs !! k_meta_desc = Some md ∧
    secs !! k_keywords = Some kw ∧ secs !! k_article_copy = Some ac ∧
    secs !! k_faqs = Some fq ∧
    let text := md_template (dict_get ctx k_primary_keyword [])
                  (strftime_long t2) tt md kw ac fq
                  (dict_get ctx k_keywords_output (py "N/A")) in
    let record := json_data (isoformat t3) ctx secs in
    save_article data w =
    (_ ← fspath mdp;
     if utf8_encodable text then
       if bool_decide (utf8_map record) then
         Ok ({| success := true; md_path := mdp; json_path := jsp;
                sections := secs |},
             {| userhome := userhome w; clock := clock w;
                reads := S (S (S (reads w)));
                dirs := {[dir]} ∪ (list_to_set (ancestors (len dir) dir)
                                   ∪ dirs w);
                files := <[jsp := JsonFile record]>
                           (<[mdp := TextFile text]> (files w)) |})
       else Raise UnicodeEncodeError
     else Raise UnicodeEncodeError).
Proof.
  intros (Hhome & Hfree & Hmdp & Hjsp).
  intros raw ctx dir t1 t2 t3 base mdp jsp.
  unfold export_path, export_dir in Hmdp, Hjsp, Hfree.
  fold ctx dir t1 base in Hmdp, Hjsp. fold mdp in Hmdp. fold jsp in Hjsp.
  fold dir in Hfree.
  destruct (build_sections_fields raw)
    as (secs & tt & md & kw & ac & fq & E & Hdom & Htt & Hmd & Hkwd & Hac & Hfq).
  exists secs, tt, md, kw, ac, fq. repeat (split; [done|]).
  intros text record.
  (* the two names *)
  assert (Nmd : slash ∉ base ++ py ".md")
    by apply no_slash_file_name, no_slash_md.
  assert (Njs : slash ∉ base ++ py ".json")
    by apply no_slash_file_name, no_slash_json.
  assert (Dmd : dirname mdp = dir) by (by apply dirname_export).
  assert (Djs : dirname jsp = dir) by (by apply dirname_export).
  assert (Hdir : dir ∈ ({[dir]} ∪ (list_to_set (ancestors (len dir) dir)
                                    ∪ dirs w) : gset pystr)).
  { apply elem_of_union. left. by apply elem_of_singleton. }
  assert (Hnew : ∀ name, dir ++ [slash] ++ name ∉ dirs w →
            dir ++ [slash] ++ name
            ∉ ({[dir]} ∪ (list_to_set (ancestors (len dir) dir) ∪ dirs w)
               : gset pystr)).
  { intros name Hn Hin.
    apply elem_of_union in Hin as [Hin|Hin].
    - apply elem_of_singleton in Hin.
      by apply (export_not_above dir name dir); [left|].
    - apply elem_of_union in Hin as [Hin|Hin]; [|done].
      apply elem_of_list_to_set, ancestors_above in Hin.
      by apply (export_not_above dir name _ Hin). }
  (* the run *)
  unfold save_article. fold raw ctx. rewrite E. cbn [mbind result_bind].
  fold dir. rewrite (makedirs_ok dir w);
    [|by apply fspath_output_dir|exact Hfree].
  cbn [mbind result_bind now userhome clock reads dirs files].
  rewrite (render_md_run ctx secs _ tt md kw ac fq Htt Hmd Hkwd Hac Hfq).
  cbn [mbind result_bind now userhome clock reads dirs files snd].
  fold t1 t2 t3 base text record.
  rewrite !(path_join_output_dir (userhome w));
    [|by apply startswith_slash_false; intros c Hc ->
     |by apply startswith_slash_false; intros c Hc ->].
  fold dir mdp jsp.
  rewrite (write_file_free mdp); cbn [userhome clock reads dirs files];
    [|rewrite Dmd; apply Hfree; by left|by rewrite Dmd|by apply Hnew].
  destruct (fspath mdp) as [[]|e] eqn:Pmd; [|done].
  cbn [mbind result_bind encodable].
  destruct (utf8_encodable text); [|done].
  cbn [mbind result_bind now userhome clock reads dirs files].
  rewrite (write_file_free jsp); cbn [userhome clock reads dirs files];
    [| |by rewrite Djs|by apply Hnew].
  - unfold jsp, mdp in *. rewrite fspath_export_ext, Pmd.
    cbn [mbind result_bind encodable].
    by destruct (bool_decide _).
  - rewrite Djs, lookup_insert_ne; [apply Hfree; by left|].
    apply not_eq_sym, (export_not_above dir _ dir). by left.
Qed.

(** What one run of [save_article] returns and leaves behind, when
    nothing refuses the save. *)
Lemma save_article_run data w :
  savable data w →
  let raw := default [] (raw_article data) in
  let ctx := default ∅ (context data) in
  let dir := expanduser_output_dir (userhome w) in
  let t1 := clock w (reads w) in
  let t2 := clock w (S (reads w)) in
  let t3 := clock w (S (S (reads w))) in
  let base := file_base ctx (strftime_stamp t1) in
  let mdp := dir ++ [slash] ++ base ++ py ".md" in
  let jsp := dir ++ [slash] ++ base ++ py ".json" in
  ∃ secs tt md kw ac fq,
    build_sections raw = Ok secs ∧ dom secs = section_names ∧
    secs !! k_title_tag = Some tt ∧ secs !! k_meta_desc = Some md ∧
    secs !! k_keywords = Some kw ∧ secs !! k_article_copy = Some ac ∧
    secs !! k_faqs = Some fq ∧
    save_article data w =
    Ok ({| success := true; md_path := mdp; json_path := jsp;
           sections := secs |},
        {| userhome := userhome w; clock := clock w;
           reads := S (S (S (reads w)));
           dirs := {[dir]} ∪ (list_to_set (ancestors (len dir) dir) ∪ dirs w);
           files :=
             <[jsp := JsonFile (json_data (isoformat t3) ctx secs)]>
               (<[mdp := TextFile
                    (md_template (dict_get ctx k_primary_keyword [])
                       (strftime_long t2) tt md kw ac fq
                       (dict_get ctx k_keywords_output (py "N/A")))]>
                  (files w)) |}).
Proof.
  intros [Hroom (Hkw & Hsecs)].
  intros raw ctx dir t1 t2 t3 base mdp jsp.
  fold ctx in Hkw. fold raw ctx in Hsecs.
  destruct (save_article_steps data w Hroom)
    as (secs & tt & md & kw & ac & fq & E & Hdom & Htt & Hmd & Hkwd & Hac &
        Hfq & Hrun).
  fold raw ctx dir t1 t2 t3 base mdp jsp in E, Hrun. cbv zeta in Hrun.
  specialize (Hsecs secs E).
  exists secs, tt, md, kw, ac, fq. repeat (split; [done|]).
  assert (Hno : ∀ k, k ∉ section_names → secs !! k = None).
  { intros k Hnk. apply not_elem_of_dom. by rewrite Hdom. }
  assert (Usafe : utf8_encodable (safe_kw ctx) = true).
  { apply (utf8_safe_kw secs); [done|]. apply Hno. by vm_compute. }
  destruct Hroom as (Hhome & _).
  assert (Pmd : fspath mdp = Ok ()) by (by apply fspath_export).
  assert (Utext : utf8_encodable
            (md_template (dict_get ctx k_primary_keyword [])
               (strftime_long t2) tt md kw ac fq
               (dict_get ctx k_keywords_output (py "N/A"))) = true).
  { apply utf8_md_template;
      try (by eapply utf8_section);
      try apply utf8_strftime_long;
      (apply (utf8_context_field secs); [done| |done]);
      apply Hno; by vm_compute. }
  rewrite Hrun, Pmd, Utext. cbn [mbind result_bind].
  rewrite bool_decide_eq_true_2; [done|]. by apply utf8_json_data.
Qed.

(** The response of a run names the sections of the blob and the two
    paths. *)
Lemma save_article_response data w resp w' :
  save_article data w = Ok (resp, w') →
  build_sections (default [] (raw_article data)) = Ok (sections resp) ∧
  md_path resp = export_path data w (py ".md") ∧
  json_path resp = export_path data w (py ".json").
Proof.
  unfold save_article, export_path, export_dir.
  destruct (build_sections (default [] (raw_article data))) as [secs|e];
    [|done]. cbn [mbind result_bind].
  destruct (makedirs _ w) as [w1|e] eqn:E1; [|done]. cbn [mbind result_bind].
  destruct (now w1) as [t1 w2] eqn:En1.
  destruct (render_md _ secs w2) as [[md w3]|e] eqn:E2; [|done].
  cbn [mbind result_bind].
  destruct (write_file _ _ w3) as [w4|e] eqn:E3; [|done].
  cbn [mbind result_bind].
  destruct (now w4) as [t3 w5] eqn:En2.
  destruct (write_file _ _ w5) as [w6|e] eqn:E4; [|done].
  cbn [mbind result_bind]. intros [= <- _]. cbn [sections md_path json_path].
  assert (Ht : t1 = clock w (reads w)).
  { unfold now in En1. injection En1 as <- _. unfold makedirs in E1.
    destruct (fspath _); [|done]. cbn [mbind result_bind] in E1.
    destruct (existsb _ _); [done|]. destruct (isfile _ w); [done|].
    by injection E1 as <-. }
  rewrite Ht. split; [done|].
  rewrite !(path_join_output_dir (userhome w));
    [done| |]; apply file_name_no_slash; intros c Hc ->.
  - by apply no_slash_json.
  - by apply no_slash_md.
Qed.

Lemma sections_of_run data w resp w' secs :
  save_article data w = Ok (resp, w') →
  build_sections (default [] (raw_article data)) = Ok secs →
  sections resp = secs.
Proof.
  intros H E. destruct (save_article_response data w resp w' H) as (E' & _).
  rewrite E in E'. by injection E'.
Qed.

End Run.

(** ** Saves that are refused *)

Section Refusals.

Implicit Types (ctx secs : gmap pystr pystr) (w : World) (s p d : pystr)
  (c : char).

Lemma utf8_map_empty : utf8_map ∅.
Proof. apply map_Forall_empty. Qed.

Lemma utf8_map_insert (m : gmap pystr pystr) (k v : pystr) :
  utf8_encodable k = true → utf8_encodable v = true → utf8_map m →
  utf8_map (<[k := v]> m).
Proof. intros Hk Hv Hm. by apply map_Forall_insert_2. Qed.

Lemma utf8_map_singleton (k v : pystr) :
  utf8_encodable k = true → utf8_encodable v = true →
  utf8_map {[k := v]}.
Proof. intros Hk Hv. by apply map_Forall_singleton. Qed.

(** A request without a surrogate, and without a NUL in what becomes the
    file name, can be written. *)
Lemma writable_intro data :
  existsb (N.eqb 0) (safe_kw (default ∅ (context data))) = false →
  utf8_encodable (default [] (raw_article data)) = true →
  utf8_map (default ∅ (context data)) →
  writable data.
Proof.
  intros Hk Hraw Hctx. split; [by apply no_nul_existsb|].
  intros secs E. apply utf8_map_union; [|done].
  by apply (utf8_build_sections _ _ Hraw).
Qed.

(** A world without files and directories has room for every save. *)
Lemma hospitable_empty data w :
  fspath (userhome w) = Ok () → files w = ∅ → dirs w = ∅ →
  hospitable data w.
Proof.
  intros H Hf Hd. split; [done|]. split; [|split].
  - intros d _. by rewrite Hf.
  - rewrite Hd. apply not_elem_of_empty.
  - rewrite Hd. apply not_elem_of_empty.
Qed.

Lemma savable_example data :
  existsb (N.eqb 0) (safe_kw (default ∅ (context data))) = false →
  utf8_encodable (default [] (raw_article data)) = true →
  utf8_map (default ∅ (context data)) →
  savable data example_world.
Proof.
  intros Hk Hraw Hctx. split; [|by apply writable_intro].
  by apply hospitable_empty.
Qed.

Lemma fspath_not_encodable (a b : pystr) :
  fs_encodable a = false → fspath (a ++ b) = Raise UnicodeEncodeError.
Proof. intros H. unfold fspath. by rewrite fs_encodable_app, H. Qed.

Lemma fspath_not_encodable_r (a b : pystr) :
  fs_encodable b = false → fspath (a ++ b) = Raise UnicodeEncodeError.
Proof.
  intros H. unfold fspath. by rewrite fs_encodable_app, H, andb_false_r.
Qed.

Lemma fspath_nul s :
  fs_encodable s = true → 0%N ∈ s → fspath s = Raise ValueError.
Proof.
  intros H1 H2. unfold fspath. rewrite H1. cbn [negb].
  destruct (existsb (N.eqb 0) s) eqn:E; [done|].
  by apply no_nul_existsb in E.
Qed.

(** The path of the markdown file, by the part of the keyword in it. *)
Lemma fspath_md_path home ctx t :
  fspath home = Ok () →
  fspath (expanduser_output_dir home ++ [slash] ++
          file_base ctx (strftime_stamp t) ++ py ".md")
  = fspath (safe_kw ctx).
Proof.
  intros Hh.
  assert (Hd : fspath (expanduser_output_dir home ++ [slash]) = Ok ()).
  { apply fspath_app. split; [by apply fspath_output_dir|reflexivity]. }
  assert (Ht : fspath (py "_" ++ strftime_stamp t ++ py ".md") = Ok ()).
  { apply fspath_app. split; [reflexivity|]. apply fspath_app.
    split; [|reflexivity]. apply fspath_Ok.
    split; [apply utf8_fs_encodable, utf8_strftime_stamp|].
    apply no_nul_existsb, no_nul_strftime_stamp. }
  unfold file_base.
  replace (expanduser_output_dir home ++ [slash] ++
           (safe_kw ctx ++ py "_" ++ strftime_stamp t) ++ py ".md")
    with (((expanduser_output_dir home ++ [slash]) ++ safe_kw ctx) ++
          (py "_" ++ strftime_stamp t ++ py ".md"))
    by (by rewrite <- !app_assoc).
  rewrite (fspath_app_ok_r _ _ Ht).
  apply fspath_Ok in Hd as [Hd1 Hd2]. unfold fspath.
  unfold pystr, char in *.
  by rewrite fs_encodable_app, existsb_app, Hd1, Hd2.
Qed.


(** A NUL in the part of the keyword that goes into the file name:
    [open] refuses the name. *)
Lemma save_article_nul data w :
  hospitable data w →
  fs_encodable (safe_kw (default ∅ (context data))) = true →
  0%N ∈ safe_kw (default ∅ (context data)) →
  save_article data w = Raise ValueError.
Proof.
  intros Hroom Henc Hnul.
  destruct (save_article_steps data w Hroom)
    as (secs & tt & md & kw & ac & fq & E & Hdom & _ & _ & _ & _ & _ & Hrun).
  cbv zeta in Hrun. rewrite Hrun. destruct Hroom as (Hhome & _).
  by rewrite (fspath_md_path _ _ _ Hhome), (fspath_nul _ Henc Hnul).
Qed.

(** A surrogate in a string that is written: the name of the file or
    one of the two writes is refused. *)
Lemma save_article_surrogate data w secs :
  hospitable data w →
  0%N ∉ safe_kw (default ∅ (context data)) →
  build_sections (default [] (raw_article data)) = Ok secs →
  ¬ utf8_map (secs ∪ default ∅ (context data)) →
  save_article data w = Raise UnicodeEncodeError.
Proof.
  intros Hroom Hnul E Hbad.
  destruct (save_article_steps data w Hroom)
    as (secs' & tt & md & kw & ac & fq & E' & Hdom & _ & _ & _ & _ & _ & Hrun).
  cbv zeta in Hrun. rewrite Hrun. clear Hrun. destruct Hroom as (Hhome & _).
  rewrite E in E'. injection E' as <-.
  rewrite (fspath_md_path _ _ _ Hhome). unfold fspath.
  destruct (fs_encodable (safe_kw _)); [|done]. cbn [negb].
  rewrite (proj2 (no_nul_existsb _) Hnul). cbn [mbind result_bind].
  destruct (utf8_encodable _); [|done].
  rewrite bool_decide_eq_false_2; [done|].
  intros B. by apply utf8_json_data_inv in B.
Qed.

End Refusals.

(** ** The save stage *)

Section Save.

Implicit Types (ctx secs : gmap pystr pystr) (w : World) (s : pystr).

Lemma md_json_paths_differ (dir base : pystr) :
  dir ++ [slash] ++ base ++ py ".md" ≠ dir ++ [slash] ++ base ++ py ".json".
Proof.
  intros H. do 3 apply app_inv_head in H. discriminate H.
Qed.

Lemma context_keys_apart :
  context_keys ∩ (section_names ∪ {[k_generated_at]}) = ∅.
Proof. by vm_compute. Qed.

Lemma context_keys_not_sections k :
  k ∈ context_keys → (k ∉ section_names) ∧ (k ≠ k_generated_at).
Proof.
  intros H. pose proof context_keys_apart as Hd.
  split.
  - intros Hs. apply (not_elem_of_empty (C := gset pystr) k).
    rewrite <- Hd. apply elem_of_intersection. split; [done|].
    apply elem_of_union. by left.
  - intros ->. apply (not_elem_of_empty (C := gset pystr) k_generated_at).
    rewrite <- Hd. apply elem_of_intersection. split; [done|].
    apply elem_of_union. right. by apply elem_of_singleton.
Qed.

Lemma section_names_not_generated_at : k_generated_at ∉ section_names.
Proof. by vm_compute. Qed.

(** Neither the file system nor a codec raises [KeyError]. *)
Lemma makedirs_no_KeyError p w k : makedirs p w ≠ Raise (KeyError k).
Proof.
  unfold makedirs, fspath.
  repeat (case_match; cbn [mbind result_bind negb]; try done).
Qed.

Lemma write_file_no_KeyError p (content : file_content) w k :
  write_file p content w ≠ Raise (KeyError k).
Proof.
  unfold write_file, fspath.
  repeat (case_match; cbn [mbind result_bind negb]; try done).
Qed.

(** C5. Whatever string reaches the save stage, the sections hold all six
    keys, a failed extraction giving the empty string, so that rendering
    the markdown document raises no [KeyError]. No save fails for a
    missing key, and a save that neither the file system nor a codec
    refuses goes through and writes the document and the record with the
    six keys. For the empty string the six values are all empty. *)
Theorem C5_all_six_keys_present :
  (∀ raw, ∃ secs,
     build_sections raw = Ok secs ∧ dom secs = section_names ∧
     ∀ ctx w, ∃ md w', render_md ctx secs w = Ok (md, w')) ∧
  (∀ data w k, save_article data w ≠ Raise (KeyError k)) ∧
  (∀ data w, savable data w → ∃ resp w' md record,
     save_article data w = Ok (resp, w') ∧
     build_sections (default [] (raw_article data)) = Ok (sections resp) ∧
     dom (sections resp) = section_names ∧
     files w' !! md_path resp = Some (TextFile md) ∧
     files w' !! json_path resp = Some (JsonFile record) ∧
     section_names ⊆ dom record) ∧
  build_sections [] =
    Ok (<[k_faqs := []]> (<[k_article_copy := []]> (<[k_article_title := []]>
       (<[k_meta_desc := []]> (<[k_title_tag := []]>
       (<[k_keywords := []]> ∅)))))).
Proof.
  split; [|split; [|split; [|reflexivity]]].
  - intros raw.
    destruct (build_sections_fields raw)
      as (secs & tt & md & kw & ac & fq & E & Hdom & H1 & H2 & H3 & H4 & H5).
    exists secs. split; [exact E|]. split; [exact Hdom|].
    intros ctx w. eexists _, _.
    apply (render_md_run ctx secs w tt md kw ac fq H1 H2 H3 H4 H5).
  - intros data w k.
    destruct (build_sections_fields (default [] (raw_article data)))
      as (secs & tt & md & kw & ac & fq & E & Hdom & H1 & H2 & H3 & H4 & H5).
    unfold save_article. rewrite E. cbn [mbind result_bind].
    destruct (makedirs _ w) as [w1|e] eqn:E1; cbn [mbind result_bind];
      [|intros [= ->]; by eapply makedirs_no_KeyError].
    destruct (now w1) as [t1 w2].
    rewrite (render_md_run _ secs w2 tt md kw ac fq H1 H2 H3 H4 H5).
    cbn [mbind result_bind].
    destruct (write_file _ _ _) as [w3|e] eqn:E2; cbn [mbind result_bind];
      [|intros [= ->]; by eapply write_file_no_KeyError].
    destruct (now w3) as [t3 w4].
    destruct (write_file _ _ w4) as [w5|e] eqn:E3; cbn [mbind result_bind];
      [done|intros [= ->]; by eapply write_file_no_KeyError].
  - intros data w Hsav.
    destruct (save_article_run data w Hsav)
      as (secs & tt & md & kw & ac & fq & E & Hdom & H1 & H2 & H3 & H4 & H5 & Hrun).
    eexists _, _, _, _. split; [exact Hrun|]. cbn [sections md_path json_path files].
    split; [exact E|]. split; [exact Hdom|].
    split; [|split].
    + rewrite lookup_insert_ne by (apply not_eq_sym, md_json_paths_differ).
      apply lookup_insert_eq.
    + apply lookup_insert_eq.
    + unfold json_data. rewrite dom_union_L, Hdom. apply union_subseteq_l.
Qed.

Lemma C5_witness :
  let data := {| raw_article := Some (py "no markers at all");
                 context := None |} in
  savable data example_world ∧
  ∃ resp w' md record,
    save_article data example_world = Ok (resp, w') ∧
    dom (sections resp) = section_names ∧
    sections resp !! k_faqs = Some [] ∧
    files w' !! md_path resp = Some (TextFile md) ∧
    files w' !! json_path resp = Some (JsonFile record) ∧
    section_names ⊆ dom record.
Proof.
  intros data.
  assert (Hs : savable data example_world).
  { apply savable_example; [reflexivity|reflexivity|exact utf8_map_empty]. }
  split; [exact Hs|].
  destruct (proj1 (proj2 (proj2 C5_all_six_keys_present)) data example_world Hs)
    as (resp & w' & md & record & Hrun & Esec & Hdom & Hmd & Hjs & Hsub).
  exists resp, w', md, record. split; [exact Hrun|]. split; [exact Hdom|].
  split; [|auto].
  rewrite (sections_of_run data example_world resp w'
             (<[k_faqs := []]> (<[k_article_copy := []]>
                (<[k_article_title := []]> (<[k_meta_desc := []]>
                (<[k_title_tag := []]> (<[k_keywords := []]> ∅))))))
             Hrun eq_refl).
  reflexivity.
Defined.


Lemma file_base_of_keyword ctx (kw : pystr) t :
  dict_get ctx k_primary_keyword (py "article") = kw →
  file_base ctx (strftime_stamp t)
  = take 30 (map sanitize_char kw) ++ py "_" ++ strftime_stamp t.
Proof. intros <-. unfold file_base. by rewrite safe_kw_eq. Qed.

(** C6. The file name made from a primary keyword has neither a space nor
    a slash: every space of the keyword has become [_] and every slash
    [-], and at most the first 30 characters are kept in front of the
    [_] and the time stamp. A save that nothing refuses writes its two
    files under that name, and the keyword [best running shoes] gives the
    files [best_running_shoes_<timestamp>.md] and
    [best_running_shoes_<timestamp>.json]. *)
Theorem C6_file_name_sanitized :
  (∀ ctx (kw : pystr) t,
     ctx !! k_primary_keyword = Some kw →
     let stamp := strftime_stamp t in
     let safe := take 30 (map sanitize_char kw) in
     let base := safe ++ py "_" ++ stamp in
     file_base ctx stamp = base ∧
     length safe ≤ 30 ∧
     (∀ c, c ∈ base → c ≠ 32%N ∧ c ≠ 47%N)) ∧
  (∀ data w (kw : pystr),
     savable data w →
     default ∅ (context data) !! k_primary_keyword = Some kw →
     ∃ resp w',
       save_article data w = Ok (resp, w') ∧
       let stamp := strftime_stamp (clock w (reads w)) in
       let dir := expanduser_output_dir (userhome w) in
       let safe := take 30 (map sanitize_char kw) in
       let base := safe ++ py "_" ++ stamp in
       length safe ≤ 30 ∧
       (∀ c, c ∈ base → c ≠ 32%N ∧ c ≠ 47%N) ∧
       md_path resp = dir ++ [slash] ++ base ++ py ".md" ∧
       json_path resp = dir ++ [slash] ++ base ++ py ".json" ∧
       is_Some (files w' !! md_path resp) ∧
       is_Some (files w' !! json_path resp)) ∧
  (∀ data w,
     savable data w →
     default ∅ (context data) !! k_primary_keyword
       = Some (py "best running shoes") →
     ∃ resp w',
       save_article data w = Ok (resp, w') ∧
       let stamp := strftime_stamp (clock w (reads w)) in
       let dir := expanduser_output_dir (userhome w) in
       md_path resp =
         dir ++ [slash] ++ py "best_running_shoes_" ++ stamp ++ py ".md" ∧
       json_path resp =
         dir ++ [slash] ++ py "best_running_shoes_" ++ stamp ++ py ".json").
Proof.
  assert (F : ∀ ctx (kw : pystr) t,
     ctx !! k_primary_keyword = Some kw →
     let stamp := strftime_stamp t in
     let safe := take 30 (map sanitize_char kw) in
     let base := safe ++ py "_" ++ stamp in
     file_base ctx stamp = base ∧
     length safe ≤ 30 ∧
     (∀ c, c ∈ base → c ≠ 32%N ∧ c ≠ 47%N)).
  { intros ctx kw t Hkw. cbv zeta.
    assert (E : file_base ctx (strftime_stamp t)
                = take 30 (map sanitize_char kw) ++ py "_" ++ strftime_stamp t).
    { apply file_base_of_keyword. unfold dict_get. by rewrite Hkw. }
    split; [exact E|]. split; [rewrite length_take; lia|].
    intros c Hc. rewrite <- E in Hc. by apply (file_base_clean ctx t). }
  assert (G : ∀ data w (kw : pystr),
     savable data w →
     default ∅ (context data) !! k_primary_keyword = Some kw →
     ∃ resp w',
       save_article data w = Ok (resp, w') ∧
       let stamp := strftime_stamp (clock w (reads w)) in
       let dir := expanduser_output_dir (userhome w) in
       let safe := take 30 (map sanitize_char kw) in
       let base := safe ++ py "_" ++ stamp in
       length safe ≤ 30 ∧
       (∀ c, c ∈ base → c ≠ 32%N ∧ c ≠ 47%N) ∧
       md_path resp = dir ++ [slash] ++ base ++ py ".md" ∧
       json_path resp = dir ++ [slash] ++ base ++ py ".json" ∧
       is_Some (files w' !! md_path resp) ∧
       is_Some (files w' !! json_path resp)).
  { intros data w kw Hsav Hkw.
    destruct (save_article_run data w Hsav)
      as (secs & tt & md & kw' & ac & fq & _ & _ & _ & _ & _ & _ & _ & Hrun).
    eexists _, _. split; [exact Hrun|].
    cbn [md_path json_path files]. cbv zeta.
    destruct (F _ _ (clock w (reads w)) Hkw) as (E & Hlen & Hclean).
    cbv zeta in E, Hlen, Hclean.
    split; [exact Hlen|]. split; [exact Hclean|].
    rewrite E, <- !app_assoc.
    split; [done|]. split; [done|]. split.
    - rewrite lookup_insert_ne; [by rewrite lookup_insert_eq|].
      intros H. do 5 apply app_inv_head in H. discriminate H.
    - by rewrite lookup_insert_eq. }
  split; [exact F|]. split; [exact G|].
  intros data w Hsav Hkw. destruct (G data w _ Hsav Hkw) as (resp & w' & Hrun & H).
  exists resp, w'. split; [exact Hrun|]. cbv zeta in *.
  destruct H as (_ & _ & Hmd & Hjs & _). split; [exact Hmd|exact Hjs].
Qed.

Lemma C6_witness :
  let data := {| raw_article := Some scenario1;
                 context := Some {[k_primary_keyword := py "a b/c"]} |} in
  savable data example_world ∧
  default ∅ (context data) !! k_primary_keyword = Some (py "a b/c") ∧
  ∃ resp w',
    save_article data example_world = Ok (resp, w') ∧
    md_path resp =
      py "/home/seo/Desktop/SEO Articles/a_b-c_20261104_090500.md" ∧
    json_path resp =
      py "/home/seo/Desktop/SEO Articles/a_b-c_20261104_090500.json".
Proof.
  intros data.
  assert (Hs : savable data example_world).
  { apply savable_example; [reflexivity|reflexivity|].
    by apply utf8_map_singleton. }
  assert (Hkw : default ∅ (context data) !! k_primary_keyword
                = Some (py "a b/c")) by reflexivity.
  split; [exact Hs|]. split; [exact Hkw|].
  destruct (proj1 (proj2 C6_file_name_sanitized) data example_world _ Hs Hkw)
    as (resp & w' & Hrun & _ & _ & Hmd & Hjs & _).
  exists resp, w'. split; [exact Hrun|]. split; [exact Hmd|exact Hjs].
Defined.

(** C7 (as amended). The file name is made from the primary keyword, or
    from [article] when there is none, by turning each space into [_] and
    each slash into [-], keeping every other character as it is, cutting
    the result to 30 characters, and adding [_] and the time stamp
    [YYYYMMDD_HHMMSS] of the clock; a save that nothing refuses writes
    its two files under that name. *)
Theorem C7_file_name_derivation :
  (∀ ctx t,
     valid_datetime t →
     let kw := dict_get ctx k_primary_keyword (py "article") in
     let stamp := strftime_stamp t in
     let base := take 30 (map sanitize_char kw) ++ py "_" ++ stamp in
     file_base ctx stamp = base ∧
     stamp_shape stamp ∧ stamp_of t stamp ∧
     (∀ i (c : char), i < 30 → kw !! i = Some c → c ≠ 32%N → c ≠ 47%N →
                      base !! i = Some c)) ∧
  (∀ data w,
     savable data w →
     valid_datetime (clock w (reads w)) →
     ∃ resp w',
       save_article data w = Ok (resp, w') ∧
       let ctx := default ∅ (context data) in
       let kw := dict_get ctx k_primary_keyword (py "article") in
       let stamp := strftime_stamp (clock w (reads w)) in
       let dir := expanduser_output_dir (userhome w) in
       let base := take 30 (map sanitize_char kw) ++ py "_" ++ stamp in
       md_path resp = dir ++ [slash] ++ base ++ py ".md" ∧
       json_path resp = dir ++ [slash] ++ base ++ py ".json" ∧
       stamp_shape stamp ∧ stamp_of (clock w (reads w)) stamp ∧
       (∀ i (c : char), i < 30 → kw !! i = Some c → c ≠ 32%N → c ≠ 47%N →
                        base !! i = Some c)).
Proof.
  assert (F : ∀ ctx t,
     valid_datetime t →
     let kw := dict_get ctx k_primary_keyword (py "article") in
     let stamp := strftime_stamp t in
     let base := take 30 (map sanitize_char kw) ++ py "_" ++ stamp in
     file_base ctx stamp = base ∧
     stamp_shape stamp ∧ stamp_of t stamp ∧
     (∀ i (c : char), i < 30 → kw !! i = Some c → c ≠ 32%N → c ≠ 47%N →
                      base !! i = Some c)).
  { intros ctx t Hvalid. cbv zeta.
    split; [by apply file_base_of_keyword|].
    split; [by apply stamp_shape_strftime|].
    split; [by apply stamp_of_strftime|].
    intros i c Hi Hc Hsp Hsl.
    rewrite lookup_app_l.
    - rewrite lookup_take_lt by done. rewrite list_lookup_fmap.
      transitivity (sanitize_char <$> Some c); [exact (f_equal _ Hc)|].
      simpl. f_equal. unfold sanitize_char.
      destruct (N.eqb_spec c 32); [done|]. by destruct (N.eqb_spec c 47).
    - rewrite length_take, length_map. apply lookup_lt_Some in Hc. lia. }
  split; [exact F|].
  intros data w Hsav Hvalid.
  destruct (save_article_run data w Hsav)
    as (secs & tt & md & kw' & ac & fq & _ & _ & _ & _ & _ & _ & _ & Hrun).
  eexists _, _. split; [exact Hrun|].
  cbn [md_path json_path]. cbv zeta.
  destruct (F (default ∅ (context data)) _ Hvalid) as (E & Hshape & Hof & Hkeep).
  cbv zeta in E, Hshape, Hof, Hkeep.
  rewrite E, <- !app_assoc. auto.
Qed.

Lemma C7_witness :
  let data := {| raw_article := None;
                 context := Some {[k_primary_keyword := py "what?"]} |} in
  savable data example_world ∧
  valid_datetime (clock example_world (reads example_world)) ∧
  ∃ resp w',
    save_article data example_world = Ok (resp, w') ∧
    md_path resp =
      py "/home/seo/Desktop/SEO Articles/what?_20261104_090500.md".
Proof.
  intros data.
  assert (Hs : savable data example_world).
  { apply savable_example; [reflexivity|reflexivity|].
    by apply utf8_map_singleton. }
  assert (Hv : valid_datetime (clock example_world (reads example_world)))
    by (unfold valid_datetime; simpl; lia).
  split; [exact Hs|]. split; [exact Hv|].
  destruct (proj2 C7_file_name_derivation data example_world Hs Hv)
    as (resp & w' & Hrun & Hmd & _).
  exists resp, w'. split; [exact Hrun|exact Hmd].
Defined.

(** The question mark of the keyword [what?] is neither a letter nor a
    digit, neither a space nor a slash, and it is in the file name. *)
Lemma C7_counterexample :
  let ctx : gmap pystr pystr := {[k_primary_keyword := py "what?"]} in
  63%N ∈ py "what?" ∧ is_ascii_alnum 63%N = false ∧
  63%N ≠ 32%N ∧ 63%N ≠ 47%N ∧
  safe_kw ctx = py "what?" ∧
  file_base ctx (strftime_stamp example_time) = py "what?_20261104_090500" ∧
  63%N ∈ file_base ctx (strftime_stamp example_time).
Proof.
  intros ctx.
  assert (E : file_base ctx (strftime_stamp example_time)
              = py "what?_20261104_090500") by (by vm_compute).
  split; [by apply list_elem_of_In; vm_compute; tauto|].
  split; [done|]. split; [done|]. split; [done|].
  split; [by vm_compute|]. split; [exact E|].
  rewrite E. apply list_elem_of_In. vm_compute. tauto.
Qed.


(** C8. The record written to the [.json] file by a save that nothing
    refuses is one flat mapping: the union of the fields of the context,
    the six sections and the field [generated_at], whose value is the
    time of writing in ISO 8601 form, its digits being those of the
    clock. When the context uses only its documented keys, every field of
    the context and every section is in the record with its own value,
    and the record holds nothing else. *)
Theorem C8_export_record data w :
  let ctx := default ∅ (context data) in
  savable data w →
  dom ctx ⊆ context_keys →
  valid_datetime (clock w (S (S (reads w)))) →
  ∃ resp w' record stamp,
    save_article data w = Ok (resp, w') ∧
    files w' !! json_path resp = Some (JsonFile record) ∧
    stamp = isoformat (clock w (S (S (reads w)))) ∧
    iso8601_shape stamp ∧
    iso8601_of (clock w (S (S (reads w)))) stamp ∧
    record = sections resp ∪ (ctx ∪ {[k_generated_at := stamp]}) ∧
    dom record = section_names ∪ (dom ctx ∪ {[k_generated_at]}) ∧
    record !! k_generated_at = Some stamp ∧
    (∀ k (v : pystr), ctx !! k = Some v → record !! k = Some v) ∧
    (∀ k (v : pystr), sections resp !! k = Some v → record !! k = Some v) ∧
    (∀ k (v : pystr), record !! k = Some v →
       ctx !! k = Some v ∨ sections resp !! k = Some v ∨
       (k = k_generated_at ∧ v = stamp)).
Proof.
  intros ctx Hsav Hkeys Hvalid.
  destruct (save_article_run data w Hsav)
    as (secs & tt & md & kw & ac & fq & _ & Hdom & _ & _ & _ & _ & _ & Hrun).
  fold ctx in Hrun.
  eexists _, _, _, _. split; [exact Hrun|].
  cbn [json_path files sections].
  split; [apply lookup_insert_eq|]. split; [reflexivity|].
  split; [by apply iso8601_shape_isoformat|].
  split; [by apply iso8601_of_isoformat|].
  split; [reflexivity|].
  assert (Hsec : ∀ k, k ∈ context_keys → secs !! k = None).
  { intros k Hk. apply not_elem_of_dom. rewrite Hdom.
    by apply context_keys_not_sections. }
  assert (Hga1 : secs !! k_generated_at = None).
  { apply not_elem_of_dom. rewrite Hdom.
    apply section_names_not_generated_at. }
  assert (Hga2 : ctx !! k_generated_at = None).
  { apply not_elem_of_dom. intros Hin. apply Hkeys in Hin.
    by apply context_keys_not_sections in Hin as [_ ?]. }
  unfold json_data. split; [|split; [|split; [|split]]].
  - by rewrite !dom_union_L, dom_singleton_L, Hdom.
  - rewrite lookup_union_r by done. rewrite lookup_union_r by done.
    apply lookup_singleton_eq.
  - intros k v Hk. rewrite lookup_union_r.
    + by apply lookup_union_Some_l.
    + apply Hsec, Hkeys, elem_of_dom. by exists v.
  - intros k v Hk. by apply lookup_union_Some_l.
  - intros k v Hk. apply lookup_union_Some_raw in Hk as [Hk|[_ Hk]]; [auto|].
    apply lookup_union_Some_raw in Hk as [Hk|[_ Hk]]; [auto|].
    apply lookup_singleton_Some in Hk as [<- <-]. auto.
Qed.

Lemma C8_witness :
  let ctx : gmap pystr pystr :=
    <[k_primary_keyword := py "tea"]> {[k_tone := py "warm"]} in
  let data := {| raw_article := Some scenario1; context := Some ctx |} in
  savable data example_world ∧
  dom ctx ⊆ context_keys ∧
  valid_datetime (clock example_world (S (S (reads example_world)))) ∧
  ∃ resp w' record,
    save_article data example_world = Ok (resp, w') ∧
    files w' !! json_path resp = Some (JsonFile record) ∧
    record !! k_generated_at = Some (py "2026-11-04T09:05:00.000120") ∧
    record !! k_tone = Some (py "warm").
Proof.
  intros ctx data.
  assert (Hs : savable data example_world).
  { apply savable_example; [reflexivity|reflexivity|].
    apply utf8_map_insert; [done|done|]. by apply utf8_map_singleton. }
  assert (Hk : dom ctx ⊆ context_keys).
  { apply elem_of_subseteq. intros k Hk.
    apply elem_of_dom in Hk as [v Hv]. unfold ctx in Hv.
    apply lookup_insert_Some in Hv as [[<- _]|[_ Hv]]; [by vm_compute|].
    apply lookup_singleton_Some in Hv as [<- _]. by vm_compute. }
  assert (Hv : valid_datetime (clock example_world (S (S (reads example_world)))))
    by (unfold valid_datetime; simpl; lia).
  split; [exact Hs|]. split; [exact Hk|]. split; [exact Hv|].
  destruct (C8_export_record data example_world Hs Hk Hv)
    as (resp & w' & record & stamp & Hrun & Hfile & -> & _ & _ & _ & _ & Hga &
        Hctx & _).
  exists resp, w', record. split; [exact Hrun|]. split; [exact Hfile|].
  split; [exact Hga|]. apply Hctx. by vm_compute.
Defined.

(** C10. A save request whose context lacks [primary_keyword] goes
    through when nothing else refuses it: the files are named
    [article_<timestamp>], and the markdown document begins with its
    title, a line [**Primary Keyword:** ] with nothing after it, and the
    line of the time. A context that lacks [keywords_output] gives a
    document that ends with the heading [## KEYWORD RESEARCH NOTES], the
    text [N/A] and the closing lines. No other key of the context is
    needed. *)
Theorem C10_missing_context_keys data w :
  let ctx := default ∅ (context data) in
  let dir := expanduser_output_dir (userhome w) in
  let stamp := strftime_stamp (clock w (reads w)) in
  let generated := strftime_long (clock w (S (reads w))) in
  savable data w →
  ∃ resp w' md tt mdesc kw ac fq,
    save_article data w = Ok (resp, w') ∧
    files w' !! md_path resp = Some (TextFile md) ∧
    is_Some (files w' !! json_path resp) ∧
    sections resp !! k_title_tag = Some tt ∧
    sections resp !! k_meta_desc = Some mdesc ∧
    sections resp !! k_keywords = Some kw ∧
    sections resp !! k_article_copy = Some ac ∧
    sections resp !! k_faqs = Some fq ∧
    (ctx !! k_primary_keyword = None →
       md_path resp = dir ++ [slash] ++ py "article_" ++ stamp ++ py ".md" ∧
       json_path resp = dir ++ [slash] ++ py "article_" ++ stamp ++ py ".json" ∧
       md = md_template [] generated tt mdesc kw ac fq
              (dict_get ctx k_keywords_output (py "N/A")) ∧
       ∃ rest,
         md = py "# SEO ARTICLE OUTPUT" ++ nl ++ nl ++
              py "**Primary Keyword:** " ++ nl ++
              py "**Generated:** " ++ generated ++ nl ++ rest) ∧
    (ctx !! k_keywords_output = None →
       md = md_template (dict_get ctx k_primary_keyword []) generated
              tt mdesc kw ac fq (py "N/A") ∧
       ∃ front,
         md = front ++
              py "## KEYWORD RESEARCH NOTES" ++ nl ++ nl ++
              py "N/A" ++ nl ++ nl ++
              py "---" ++ nl ++
              py "*Generated by DIAL Agents SEO Article Tool*" ++ nl).
Proof.
  intros ctx dir stamp generated Hsav.
  destruct (save_article_run data w Hsav)
    as (secs & tt & md & kw & ac & fq & _ & _ & H1 & H2 & H3 & H4 & H5 & Hrun).
  fold ctx dir stamp generated in Hrun.
  eexists _, _, _, tt, md, kw, ac, fq. split; [exact Hrun|].
  cbn [md_path json_path files sections].
  split.
  { rewrite lookup_insert_ne by (apply not_eq_sym, md_json_paths_differ).
    apply lookup_insert_eq. }
  split; [by rewrite lookup_insert_eq|].
  do 5 (split; [done|]).
  split.
  - intros Hpk. unfold file_base, safe_kw, dict_get. rewrite Hpk.
    split; [done|]. split; [done|]. split; [done|].
    unfold md_template. eexists. reflexivity.
  - intros Hko.
    assert (Ena : dict_get ctx k_keywords_output (py "N/A") = py "N/A")
      by (unfold dict_get; by rewrite Hko).
    rewrite Ena. split; [done|].
    unfold md_template.
    exists (py "# SEO ARTICLE OUTPUT" ++ nl ++ nl ++
            py "**Primary Keyword:** " ++ dict_get ctx k_primary_keyword [] ++ nl ++
            py "**Generated:** " ++ generated ++ nl ++ nl ++
            py "---" ++ nl ++ nl ++
            py "## SEO META DATA" ++ nl ++ nl ++
            py "**Title Tag:** " ++ tt ++ nl ++ nl ++
            py "**Meta Description:** " ++ md ++ nl ++ nl ++
            py "**Keywords Used:** " ++ kw ++ nl ++ nl ++
            py "---" ++ nl ++ nl ++
            py "## ARTICLE" ++ nl ++ nl ++
            ac ++ nl ++ nl ++
            py "---" ++ nl ++ nl ++
            py "## FREQUENTLY ASKED QUESTIONS" ++ nl ++ nl ++
            fq ++ nl ++ nl ++
            py "---" ++ nl ++ nl).
    by rewrite <- !app_assoc.
Qed.

Lemma C10_witness :
  let data := {| raw_article := Some scenario1; context := Some ∅ |} in
  savable data example_world ∧
  default ∅ (context data) !! k_primary_keyword = None ∧
  default ∅ (context data) !! k_keywords_output = None ∧
  ∃ resp w' md,
    save_article data example_world = Ok (resp, w') ∧
    md_path resp =
      py "/home/seo/Desktop/SEO Articles/article_20261104_090500.md" ∧
    files w' !! md_path resp = Some (TextFile md) ∧
    md = py "# SEO ARTICLE OUTPUT" ++ nl ++ nl ++
         py "**Primary Keyword:** " ++ nl ++
         py "**Generated:** 04 November 2026, 09:05" ++ nl ++ nl ++
         py "---" ++ nl ++ nl ++
         py "## SEO META DATA" ++ nl ++ nl ++
         py "**Title Tag:** T" ++ nl ++ nl ++
         py "**Meta Description:** D" ++ nl ++ nl ++
         py "**Keywords Used:** foo, bar" ++ nl ++ nl ++
         py "---" ++ nl ++ nl ++
         py "## ARTICLE" ++ nl ++ nl ++
         py "Body" ++ nl ++ nl ++
         py "---" ++ nl ++ nl ++
         py "## FREQUENTLY ASKED QUESTIONS" ++ nl ++ nl ++
         py "Q/A" ++ nl ++ nl ++
         py "---" ++ nl ++ nl ++
         py "## KEYWORD RESEARCH NOTES" ++ nl ++ nl ++
         py "N/A" ++ nl ++ nl ++
         py "---" ++ nl ++
         py "*Generated by DIAL Agents SEO Article Tool*" ++ nl.
Proof.
  intros data.
  assert (Hs : savable data example_world).
  { apply savable_example; [reflexivity|reflexivity|exact utf8_map_empty]. }
  assert (Hpk : default ∅ (context data) !! k_primary_keyword = None)
    by reflexivity.
  assert (Hko : default ∅ (context data) !! k_keywords_output = None)
    by reflexivity.
  split; [exact Hs|]. split; [exact Hpk|]. split; [exact Hko|].
  destruct (C10_missing_context_keys data example_world Hs)
    as (resp & w' & md & tt & mdesc & kw & ac & fq & Hrun & Hfile & _ &
        H1 & H2 & H3 & H4 & H5 & Hno_pk & Hno_ko).
  exists resp, w', md. split; [exact Hrun|].
  destruct (Hno_pk Hpk) as (Hmd & _ & _).
  split; [exact Hmd|]. split; [exact Hfile|].
  rewrite (proj1 (Hno_ko Hko)).
  assert (Hsec : sections resp = scenario1_sections)
    by (by apply (sections_of_run data example_world resp w')).
  rewrite Hsec in H1, H2, H3, H4, H5.
  assert (Some tt = Some (py "T")) as [= ->]
    by (transitivity (scenario1_sections !! k_title_tag); [by symmetry|reflexivity]).
  assert (Some mdesc = Some (py "D")) as [= ->]
    by (transitivity (scenario1_sections !! k_meta_desc); [by symmetry|reflexivity]).
  assert (Some kw = Some (py "foo, bar")) as [= ->]
    by (transitivity (scenario1_sections !! k_keywords); [by symmetry|reflexivity]).
  assert (Some ac = Some (py "Body")) as [= ->]
    by (transitivity (scenario1_sections !! k_article_copy); [by symmetry|reflexivity]).
  assert (Some fq = Some (py "Q/A")) as [= ->]
    by (transitivity (scenario1_sections !! k_faqs); [by symmetry|reflexivity]).
  reflexivity.
Defined.

End Save.

(** ** JSON strings *)

Section Json.

Implicit Types (c d n u l : N) (t text : pystr).

Lemma hexval_hexdigit d : (d < 16)%N → hexval (hexdigit d) = Some d.
Proof.
  intros Hd. unfold hexval, hexdigit. destruct (N.ltb_spec d 10).
  - destruct (N.leb_spec 48 (48 + d)); [|lia].
    destruct (N.leb_spec (48 + d) 57); [|lia]. simpl. f_equal. lia.
  - destruct (N.leb_spec 48 (87 + d)); [|lia].
    destruct (N.leb_spec (87 + d) 57); [lia|].
    destruct (N.leb_spec 97 (87 + d)); [|lia].
    destruct (N.leb_spec (87 + d) 102); [|lia]. simpl. f_equal. lia.
Qed.

Lemma four_hex_digits n :
  (n < 65536)%N →
  (4096 * ((n / 4096) mod 16) + 256 * ((n / 256) mod 16)
   + 16 * ((n / 16) mod 16) + n mod 16)%N = n.
Proof.
  intros Hn.
  replace (n / 4096)%N with (n / 16 / 16 / 16)%N
    by (by rewrite !N.Div0.div_div).
  replace (n / 256)%N with (n / 16 / 16)%N by (by rewrite N.Div0.div_div).
  pose proof (N.Div0.div_mod n 16) as E0.
  pose proof (N.Div0.div_mod (n / 16) 16) as E1.
  pose proof (N.Div0.div_mod (n / 16 / 16) 16) as E2.
  assert (Hq : (n / 16 / 16 / 16 < 16)%N)
    by (do 3 (apply N.Div0.div_lt_upper_bound); lia).
  rewrite (N.mod_small _ _ Hq).
  set (q1 := (n / 16)%N) in *. set (r0 := (n mod 16)%N) in *.
  set (q2 := (q1 / 16)%N) in *. set (r1 := (q1 mod 16)%N) in *.
  set (q3 := (q2 / 16)%N) in *. set (r2 := (q2 mod 16)%N) in *.
  clearbody q1 r0 q2 r1 q3 r2. lia.
Qed.

Lemma json_unescape_u_step (h1 h2 h3 h4 : char) t :
  json_unescape (92 :: 117 :: h1 :: h2 :: h3 :: h4 :: t)%N =
  match hex4val h1 h2 h3 h4 with
  | None => None
  | Some u =>
      if is_high_surrogate u then
        match t with
        | b :: v :: g1 :: g2 :: g3 :: g4 :: r3 =>
            if ((b =? 92) && (v =? 117))%N then
              match hex4val g1 g2 g3 g4 with
              | None => None
              | Some l =>
                  if is_low_surrogate l then
                    cons (65536 + 1024 * (u - 55296) + (l - 56320))%N
                      <$> json_unescape r3
                  else cons u <$> json_unescape t
              end
            else cons u <$> json_unescape t
        | _ => cons u <$> json_unescape t
        end
      else cons u <$> json_unescape t
  end.
Proof. reflexivity. Qed.

Lemma hex4val_hex4 n :
  (n < 65536)%N →
  hex4val (hexdigit ((n / 4096) mod 16)) (hexdigit ((n / 256) mod 16))
    (hexdigit ((n / 16) mod 16)) (hexdigit (n mod 16)) = Some n.
Proof.
  intros Hn. unfold hex4val.
  rewrite !hexval_hexdigit by (by apply N.mod_lt).
  by rewrite (four_hex_digits n Hn).
Qed.

(** An escape [\uXXXX] that is no high surrogate is read back. *)
Lemma json_unescape_u n t :
  (n < 65536)%N → is_high_surrogate n = false →
  json_unescape ([92; 117]%N ++ hex4 n ++ t) = cons n <$> json_unescape t.
Proof.
  intros Hn Hhigh. unfold hex4. cbn [app].
  by rewrite json_unescape_u_step, (hex4val_hex4 n Hn), Hhigh.
Qed.

(** A pair of surrogate escapes is read back as one character. *)
Lemma json_unescape_pair u l t :
  is_high_surrogate u = true → is_low_surrogate l = true →
  json_unescape ([92; 117]%N ++ hex4 u ++ [92; 117]%N ++ hex4 l ++ t)
  = cons (65536 + 1024 * (u - 55296) + (l - 56320))%N <$> json_unescape t.
Proof.
  intros Hu Hl.
  assert (Hu' : (u < 65536)%N).
  { unfold is_high_surrogate in Hu. apply andb_true_iff in Hu as [_ Hu].
    apply N.leb_le in Hu. lia. }
  assert (Hl' : (l < 65536)%N).
  { unfold is_low_surrogate in Hl. apply andb_true_iff in Hl as [_ Hl].
    apply N.leb_le in Hl. lia. }
  unfold hex4. cbn [app].
  rewrite json_unescape_u_step, (hex4val_hex4 u Hu'), Hu.
  change ((92 =? 92) && (117 =? 117))%N with true. cbv iota.
  by rewrite (hex4val_hex4 l Hl'), Hl.
Qed.

Lemma lor_surrogate_base y :
  (y < 1024)%N →
  N.lor 55296 y = (55296 + y)%N ∧ N.lor 56320 y = (56320 + y)%N.
Proof.
  intros Hy.
  assert (Hall : forallb (λ k, let z := N.of_nat k in
                   (N.lor 55296 z =? 55296 + z)%N &&
                   (N.lor 56320 z =? 56320 + z)%N) (seq 0 1024) = true)
    by (vm_compute; reflexivity).
  rewrite forallb_forall in Hall.
  specialize (Hall (N.to_nat y)). rewrite N2Nat.id in Hall.
  assert (Hin : In (N.to_nat y) (seq 0 1024)) by (apply in_seq; lia).
  apply Hall, andb_true_iff in Hin as [H1 H2].
  by apply N.eqb_eq in H1, H2.
Qed.

(** The two surrogates [json.encoder] computes for a character above
    the basic plane. *)
Lemma surrogates_split c :
  (65536 <= c)%N → (c < 1114112)%N →
  let n := (c - 65536)%N in
  N.lor 55296 (N.land (N.shiftr n 10) 1023) = (55296 + n / 1024)%N ∧
  N.lor 56320 (N.land n 1023) = (56320 + n mod 1024)%N.
Proof.
  intros H1 H2 n.
  assert (Hn : (n < 1048576)%N) by (unfold n; lia).
  change 1023%N with (N.ones 10). rewrite !N.land_ones, N.shiftr_div_pow2.
  change (2 ^ 10)%N with 1024%N.
  assert (Hq : (n / 1024 < 1024)%N)
    by (apply N.Div0.div_lt_upper_bound; lia).
  rewrite (N.mod_small _ _ Hq).
  split; apply lor_surrogate_base; [done|]. by apply N.mod_lt.
Qed.

Lemma json_unescape_plain c t :
  c ≠ 92%N → c ≠ 34%N → (32 <= c)%N →
  json_unescape (c :: t) = cons c <$> json_unescape t.
Proof.
  intros H1 H2 H3. cbn [json_unescape].
  rewrite (proj2 (N.eqb_neq c 92) H1), (proj2 (N.eqb_neq c 34) H2).
  by rewrite (proj2 (N.ltb_ge c 32) H3).
Qed.

(** What [json.encoder] writes for a character is read back as that
    character. *)
Lemma json_unescape_escape_char c t :
  is_scalar c = true →
  json_unescape (escape_char c ++ t) = cons c <$> json_unescape t.
Proof.
  intros Hc. unfold escape_char.
  destruct (N.eqb_spec c 34) as [->|H34]; [done|].
  destruct (N.eqb_spec c 92) as [->|H92]; [done|].
  destruct (N.eqb_spec c 8) as [->|_]; [done|].
  destruct (N.eqb_spec c 12) as [->|_]; [done|].
  destruct (N.eqb_spec c 10) as [->|_]; [done|].
  destruct (N.eqb_spec c 13) as [->|_]; [done|].
  destruct (N.eqb_spec c 9) as [->|_]; [done|].
  destruct (N.leb_spec 32 c) as [H32|H32]; cbn [andb].
  - destruct (N.leb_spec c 126) as [_|H126].
    + by apply json_unescape_plain.
    + unfold is_scalar in Hc. destruct (N.ltb_spec c 65536) as [Hb|Hb].
      * rewrite <- app_assoc. apply json_unescape_u; [done|].
        unfold is_high_surrogate.
        destruct (N.ltb_spec c 55296); destruct (N.ltb_spec 57343 c);
          destruct (N.leb_spec 55296 c); destruct (N.leb_spec c 56319);
          try done; lia.
      * assert (Hlt : (c < 1114112)%N).
        { destruct (N.ltb_spec c 55296); [lia|].
          destruct (N.ltb_spec 57343 c); [|done].
          by destruct (N.ltb_spec c 1114112). }
        cbv zeta. destruct (surrogates_split c Hb Hlt) as [-> ->].
        cbv zeta.
        assert (Hq : ((c - 65536) / 1024 < 1024)%N)
          by (apply N.Div0.div_lt_upper_bound; lia).
        assert (Hr : ((c - 65536) mod 1024 < 1024)%N) by (by apply N.mod_lt).
        pose proof (N.Div0.div_mod (c - 65536) 1024) as Hdm.
        set (q := ((c - 65536) / 1024)%N) in *.
        set (r := ((c - 65536) mod 1024)%N) in *. clearbody q r.
        rewrite <- !app_assoc. rewrite json_unescape_pair.
        -- f_equal. f_equal. lia.
        -- unfold is_high_surrogate. apply andb_true_iff.
           split; apply N.leb_le; lia.
        -- unfold is_low_surrogate. apply andb_true_iff.
           split; apply N.leb_le; lia.
  - destruct (N.ltb_spec c 65536) as [_|Hb]; [|lia].
    rewrite <- app_assoc. apply json_unescape_u; [lia|].
    unfold is_high_surrogate. destruct (N.leb_spec 55296 c); [lia|done].
Qed.

(** The text between the quotes of an encoded string denotes the string
    that was encoded. *)
Lemma json_unescape_escape text :
  Forall (λ c, is_scalar c = true) text →
  json_unescape (concat (map escape_char text)) = Some text.
Proof.
  induction 1 as [|c text Hc _ IH]; [done|].
  cbn [map concat]. by rewrite (json_unescape_escape_char c _ Hc), IH.
Qed.

End Json.

(** ** The streaming relay *)

Section Relay.

Implicit Types (texts : list pystr) (text : pystr).

Lemma relay_loop_map texts : relay_loop texts = map sse_frame texts.
Proof. induction texts as [|t texts IH]; simpl; [done|]. by rewrite IH. Qed.

Lemma sse_frame_text text :
  sse_frame text = frame_text (concat (map escape_char text)).
Proof.
  unfold sse_frame, frame_text, json_dumps_text, encode_basestring_ascii.
  by rewrite <- !app_assoc.
Qed.

Lemma escape_char_plain c : json_plain c = true → escape_char c = [c].
Proof.
  unfold json_plain, escape_char. intros H.
  apply andb_true_iff in H as [H H4]. apply andb_true_iff in H as [H H3].
  apply andb_true_iff in H as [H1 H2].
  apply negb_true_iff in H3, H4. rewrite H3, H4.
  apply N.leb_le in H1, H2.
  destruct (N.eqb_spec c 8); [lia|]. destruct (N.eqb_spec c 12); [lia|].
  destruct (N.eqb_spec c 10); [lia|]. destruct (N.eqb_spec c 13); [lia|].
  destruct (N.eqb_spec c 9); [lia|].
  destruct (N.leb_spec 32 c); [|lia]. destruct (N.leb_spec c 126); [|lia].
  done.
Qed.

Lemma escape_plain text :
  Forall (λ c, json_plain c = true) text →
  concat (map escape_char text) = text.
Proof.
  induction 1 as [|c text Hc _ IH]; [done|].
  simpl. by rewrite (escape_char_plain c Hc), IH.
Qed.

(** No frame of a fragment is the closing sentinel. *)
Lemma sse_frame_not_done text : sse_frame text ≠ sse_done.
Proof. rewrite sse_frame_text. unfold frame_text, sse_done. discriminate. Qed.

(** A failed upstream call ends the stream without the sentinel. *)
Lemma generate_failed texts :
  generate {| fragments := texts; ending := Failed |}
  = (map sse_frame texts, Raise APIError).
Proof. unfold generate. simpl. by rewrite relay_loop_map. Qed.

(** C9. For [n] fragments from upstream the relay yields [n] frames, the
    frame of each fragment in the order of arrival, then the sentinel
    [data: [DONE]] and two newlines, once and last. A frame is
    [data: {"text": "<fragment>"}] and two newlines, the fragment being
    written as a JSON string: a JSON parser reads the fragment back from
    it, and a fragment of plain printable characters stands in it as it
    is. Three fragments give three frames and the sentinel. *)
Theorem C9_relay_frames_then_done :
  sse_done = py "data: [DONE]" ++ nl ++ nl ∧
  (∀ texts,
     let run := generate {| fragments := texts; ending := Closed |} in
     run = (map sse_frame texts ++ [py "data: [DONE]" ++ nl ++ nl], Ok ()) ∧
     run = (map sse_frame texts ++ [sse_done], Ok ()) ∧
     length run.1 = S (length texts) ∧
     (∀ i text, texts !! i = Some text → run.1 !! i = Some (sse_frame text)) ∧
     (∀ i, i < length texts → run.1 !! i ≠ Some sse_done) ∧
     run.1 !! length texts = Some sse_done ∧
     last run.1 = Some sse_done) ∧
  (∀ text, sse_frame text = frame_text (concat (map escape_char text))) ∧
  (∀ text, Forall (λ c, is_scalar c = true) text →
           json_unescape (concat (map escape_char text)) = Some text) ∧
  (∀ text, Forall (λ c, json_plain c = true) text →
           sse_frame text = frame_text text) ∧
  (∀ a b c,
     (generate {| fragments := [a; b; c]; ending := Closed |}).1
     = [sse_frame a; sse_frame b; sse_frame c;
        py "data: [DONE]" ++ nl ++ nl]).
Proof.
  split; [reflexivity|].
  split; [|split; [exact sse_frame_text|split; [exact json_unescape_escape|split]]].
  - intros texts run.
    assert (E : run = (map sse_frame texts ++ [sse_done], Ok ())).
    { unfold run, generate. simpl. by rewrite relay_loop_map. }
    rewrite E. cbn [fst]. split; [done|]. split; [done|].
    split; [rewrite length_app, length_map; simpl; lia|].
    split; [|split; [|split]].
    + intros i text Hi. rewrite lookup_app_l.
      * rewrite list_lookup_fmap.
        transitivity (sse_frame <$> Some text); [exact (f_equal _ Hi)|done].
      * rewrite length_map. by apply lookup_lt_Some in Hi.
    + intros i Hi. rewrite lookup_app_l by (by rewrite length_map).
      rewrite list_lookup_fmap.
      destruct (texts !! i) as [text|] eqn:Ei; [|done].
      intros H. apply (sse_frame_not_done text). by injection H.
    + rewrite lookup_app_r by (by rewrite length_map).
      by rewrite length_map, Nat.sub_diag.
    + apply last_snoc.
  - intros text H. by rewrite sse_frame_text, escape_plain.
  - intros a b c. reflexivity.
Qed.

Lemma C9_witness :
  let texts := [py "Hel"; py "lo, "; py "world"] in
  texts !! 1 = Some (py "lo, ") ∧
  Forall (λ c, json_plain c = true) (py "lo, ") ∧
  generate {| fragments := texts; ending := Closed |}
  = ([py "data: {" ++ dquote ++ py "text" ++ dquote ++ py ": " ++
        dquote ++ py "Hel" ++ dquote ++ py "}" ++ nl ++ nl;
      py "data: {" ++ dquote ++ py "text" ++ dquote ++ py ": " ++
        dquote ++ py "lo, " ++ dquote ++ py "}" ++ nl ++ nl;
      py "data: {" ++ dquote ++ py "text" ++ dquote ++ py ": " ++
        dquote ++ py "world" ++ dquote ++ py "}" ++ nl ++ nl;
      py "data: [DONE]" ++ nl ++ nl], Ok ()) ∧
  (generate {| fragments := texts; ending := Closed |}).1 !! 1
  = Some (sse_frame (py "lo, ")) ∧
  sse_frame (py "lo, ") = frame_text (py "lo, ") ∧
  Forall (λ c, is_scalar c = true) [233; 128512]%N ∧
  json_unescape (concat (map escape_char [233; 128512]%N))
  = Some [233; 128512]%N.
Proof.
  intros texts.
  assert (H1 : texts !! 1 = Some (py "lo, ")) by reflexivity.
  assert (H2 : Forall (λ c, json_plain c = true) (py "lo, "))
    by (repeat constructor).
  assert (H3 : Forall (λ c, is_scalar c = true) [233; 128512]%N)
    by (repeat constructor).
  destruct C9_relay_frames_then_done as (_ & T1 & _ & T2 & T3 & _).
  destruct (T1 texts) as (E & _ & _ & Hi & _).
  split; [exact H1|]. split; [exact H2|].
  split; [exact E|]. split; [exact (Hi 1 _ H1)|].
  split; [exact (T3 _ H2)|]. split; [exact H3|].
  exact (T2 _ H3).
Defined.

End Relay.

(** * Further properties of the section extractor *)

Section ExtractMore.

Implicit Types (raw start v tail sub s : pystr).

Lemma occurs_at_strip sub s q :
  occurs_at sub (strip s) q → ∃ q', occurs_at sub s q'.
Proof.
  destruct (strip_trimmed s) as (l & r & E & _).
  intros (a & b & Ev & Ha). exists (length (l ++ a)), (l ++ a), (b ++ r).
  split; [|done]. rewrite E at 1. rewrite Ev. by rewrite <- !app_assoc.
Qed.

Lemma slice_split s i j :
  i ≤ j → j ≤ length s → s = take i s ++ slice s i j ++ drop j s.
Proof.
  intros Hij Hj. unfold slice.
  rewrite <- (take_drop i s) at 1. f_equal.
  rewrite <- (take_drop (j - i) (drop i s)) at 1. f_equal.
  rewrite drop_drop. f_equal. lia.
Qed.

Lemma first_at_range sub s from p :
  first_at sub s from p → from ≤ p ∧ p + length sub ≤ length s.
Proof. intros (H1 & H2 & _). split; [done|]. by apply occurs_at_bound. Qed.

(** The text cut out in front of the end marker holds no end marker. *)
Lemma slice_without_end raw sub from p q :
  sub ≠ [] → first_at sub raw from p →
  ¬ occurs_at sub (slice raw from p) q.
Proof.
  intros Hne Hfirst (a & b & E & Ha).
  destruct (first_at_range _ _ _ _ Hfirst) as [Hle Hlen].
  destruct Hfirst as (_ & _ & Hmin).
  assert (Hsl : length (slice raw from p) = p - from).
  { unfold slice. rewrite length_take, length_drop. lia. }
  assert (Hq : q + length sub ≤ p - from).
  { rewrite <- Hsl, E, !length_app. lia. }
  assert (Hpos : 0 < length sub) by (destruct sub; [done|simpl; lia]).
  apply (Hmin (from + q)); [lia|lia|].
  exists (take from raw ++ a), (b ++ drop p raw). split.
  - rewrite (slice_split raw from p) at 1 by lia. rewrite E.
    by rewrite <- !app_assoc.
  - rewrite length_app, length_take. lia.
Qed.

(** Every section value is a piece of the blob, it has no white space at
    its ends, and it does not hold the end marker of its section. *)
Lemma extract_value raw start end_ v :
  extract raw start end_ = Ok v →
  (∃ a b, raw = a ++ v ++ b) ∧
  (∀ c, head v = Some c → isspace c = false) ∧
  (∀ c, last v = Some c → isspace c = false) ∧
  (end_ ≠ [] → ∀ q, ¬ occurs_at end_ v q).
Proof.
  intros E. apply extract_iff in E.
  assert (Hempty : v = [] →
    (∃ a b, raw = a ++ v ++ b) ∧
    (∀ c, head v = Some c → isspace c = false) ∧
    (∀ c, last v = Some c → isspace c = false) ∧
    (end_ ≠ [] → ∀ q, ¬ occurs_at end_ v q)).
  { intros ->. split; [by exists nil, raw|]. split; [done|]. split; [done|].
    intros Hne q Hocc. apply occurs_at_bound in Hocc.
    destruct end_; [done|]. simpl in Hocc. lia. }
  destruct E as [[_ ->]|[(ps & _ & _ & ->)|(ps & pe & H1 & H2 & ->)]];
    [by apply Hempty|by apply Hempty|].
  destruct (strip_trimmed (slice raw (ps + len start) pe))
    as (l & r & Es & _ & _ & Hh & Hl).
  destruct (first_at_range _ _ _ _ H2) as [Hle Hlen].
  split; [|split; [done|split; [done|]]].
  - exists (take (ps + len start) raw ++ l), (r ++ drop pe raw).
    rewrite (slice_split raw (ps + len start) pe) at 1 by lia.
    rewrite Es at 1. by rewrite <- !app_assoc.
  - intros Hne q Hocc. apply occurs_at_strip in Hocc as [q' Hocc].
    by apply (slice_without_end raw end_ (ps + len start) pe q' Hne H2).
Qed.

End ExtractMore.

Section SectionValues.

Implicit Types (raw start v tail sub s : pystr).

Lemma section_value_source raw secs k v :
  build_sections raw = Ok secs → secs !! k = Some v →
  ∃ start end_, (k, (start, end_)) ∈ section_markers ∧
                extract raw start end_ = Ok v.
Proof.
  intros E Hv. destruct (build_sections_lookup raw) as (secs' & E' & Hdom & Hk).
  rewrite E in E'. injection E' as <-.
  assert (Hin : k ∈ section_names).
  { rewrite <- Hdom. apply elem_of_dom. by exists v. }
  assert (Hpair : ∃ start end_, (k, (start, end_)) ∈ section_markers).
  { unfold section_names in Hin. rewrite !elem_of_union, !elem_of_singleton in Hin.
    unfold section_markers.
    destruct Hin as [[[[[->| ->]| ->]| ->]| ->]| ->];
      eexists _, _; repeat (first [left | right]). }
  destruct Hpair as (start & end_ & Hin').
  destruct (Hk _ _ _ Hin') as (v' & Hv' & Ev').
  exists start, end_. split; [done|].
  assert (Some v = Some v') as [= ->]; [|done].
  transitivity (secs !! k); [symmetry; exact Hv|exact Hv'].
Qed.

Lemma section_markers_nonempty k start end_ :
  (k, (start, end_)) ∈ section_markers → end_ ≠ [].
Proof.
  unfold section_markers. intros Hin.
  repeat (apply elem_of_cons in Hin as [[= -> -> ->]|Hin]; [done|]).
  by apply elem_of_nil in Hin.
Qed.

(** X1. Every value of the sections is a contiguous piece of the blob
    that was given, and it neither starts nor ends with white space. *)
Theorem X1_section_is_trimmed_piece_of_blob raw :
  ∃ secs, build_sections raw = Ok secs ∧
    ∀ k (v : pystr), secs !! k = Some v →
      (∃ a b, raw = a ++ v ++ b) ∧
      (∀ c, head v = Some c → isspace c = false) ∧
      (∀ c, last v = Some c → isspace c = false).
Proof.
  destruct (build_sections_lookup raw) as (secs & E & _).
  exists secs. split; [done|]. intros k v Hv.
  destruct (section_value_source raw secs k v E Hv) as (start & end_ & _ & Ev).
  destruct (extract_value raw start end_ v Ev) as (H1 & H2 & H3 & _).
  auto.
Qed.

Lemma X1_witness :
  ∃ secs, build_sections scenario1 = Ok secs ∧
    secs !! k_keywords = Some (py "foo, bar") ∧
    (∃ a b, scenario1 = a ++ py "foo, bar" ++ b) ∧
    (∀ c, head (py "foo, bar") = Some c → isspace c = false).
Proof.
  destruct (X1_section_is_trimmed_piece_of_blob scenario1) as (secs & E & H).
  exists secs. split; [exact E|].
  assert (Hv : secs !! k_keywords = Some (py "foo, bar")).
  { assert (E' : build_sections scenario1 = Ok scenario1_sections)
      by reflexivity.
    rewrite E in E'. injection E' as ->. reflexivity. }
  split; [exact Hv|].
  destruct (H k_keywords (py "foo, bar") Hv) as (H1 & H2 & _).
  split; [exact H1|exact H2].
Defined.

(** X2. No value of the sections holds the end marker of its section. *)
Theorem X2_section_holds_no_end_marker raw :
  ∃ secs, build_sections raw = Ok secs ∧
    ∀ k start end_ (v : pystr),
      (k, (start, end_)) ∈ section_markers → secs !! k = Some v →
      ∀ q, ¬ occurs_at end_ v q.
Proof.
  destruct (build_sections_lookup raw) as (secs & E & _ & Hk).
  exists secs. split; [done|]. intros k start end_ v Hin Hv.
  destruct (Hk _ _ _ Hin) as (v' & Hv' & Ev').
  assert (Some v = Some v') as [= ->]
    by (transitivity (secs !! k); [symmetry; exact Hv|exact Hv']).
  destruct (extract_value raw start end_ v' Ev') as (_ & _ & _ & H).
  apply H. by eapply section_markers_nonempty.
Qed.

Lemma X2_witness :
  let raw := py "---TITLETAG--- a ---TITLETAG--- b ---METADESC--- c ---METADESC---" in
  (k_title_tag, (TITLETAG, METADESC)) ∈ section_markers ∧
  ∃ secs, build_sections raw = Ok secs ∧
    secs !! k_title_tag = Some (py "a ---TITLETAG--- b") ∧
    ∀ q, ¬ occurs_at METADESC (py "a ---TITLETAG--- b") q.
Proof.
  intros raw.
  assert (Hin : (k_title_tag, (TITLETAG, METADESC)) ∈ section_markers)
    by (unfold section_markers; repeat (first [left | right])).
  split; [exact Hin|].
  destruct (X2_section_holds_no_end_marker raw) as (secs & E & H).
  exists secs. split; [exact E|].
  assert (Hv : secs !! k_title_tag = Some (py "a ---TITLETAG--- b")).
  { assert (E' : build_sections raw =
      Ok (<[k_faqs := []]> (<[k_article_copy := []]>
         (<[k_article_title := []]> (<[k_meta_desc := []]>
         (<[k_title_tag := py "a ---TITLETAG--- b"]>
         (<[k_keywords := []]> ∅))))))) by reflexivity.
    rewrite E in E'. injection E' as ->. reflexivity. }
  split; [exact Hv|]. exact (H _ _ _ _ Hin Hv).
Defined.

Lemma occurs_at_app_l sub s tail q :
  occurs_at sub s q → occurs_at sub (s ++ tail) q.
Proof.
  intros (a & b & -> & Ha). exists a, (b ++ tail).
  split; [by rewrite <- !app_assoc|done].
Qed.

Lemma occurs_at_app_inside sub s tail q :
  q + length sub ≤ length s → occurs_at sub (s ++ tail) q → occurs_at sub s q.
Proof.
  intros Hlen (a & b & E & Ha). exists a, (take (length s - (q + length sub)) b).
  split; [|done].
  assert (E' : take (length s) (s ++ tail) = s) by apply take_app_length.
  rewrite E in E'. rewrite <- E' at 1.
  rewrite app_assoc, take_app_ge by (rewrite length_app; lia).
  rewrite <- app_assoc. do 2 f_equal. f_equal. rewrite length_app. lia.
Qed.

Lemma first_at_app sub s tail from p :
  first_at sub s from p → first_at sub (s ++ tail) from p.
Proof.
  intros H. destruct (first_at_range _ _ _ _ H) as [_ Hlen].
  destruct H as (H1 & H2 & H3). split; [done|].
  split; [by apply occurs_at_app_l|].
  intros q Hq1 Hq2 Hocc. apply (H3 q Hq1 Hq2).
  apply (occurs_at_app_inside sub s tail q); [lia|done].
Qed.

Lemma slice_app s tail i j : j ≤ length s → slice (s ++ tail) i j = slice s i j.
Proof.
  intros Hj. unfold slice. destruct (Nat.le_gt_cases i (length s)) as [Hi|Hi].
  - rewrite drop_app_le by done. apply take_app_le. rewrite length_drop. lia.
  - by replace (j - i) with 0 by lia.
Qed.

(** X3. Text that follows a blob in which both markers of every section
    are found does not change any section. *)
Theorem X3_text_after_blob_changes_nothing raw tail :
  complete_blob raw → build_sections (raw ++ tail) = build_sections raw.
Proof.
  intros Hc.
  assert (Hsame : ∀ k start end_, (k, (start, end_)) ∈ section_markers →
            extract (raw ++ tail) start end_ = extract raw start end_).
  { intros k start end_ Hin. destruct (Hc _ _ _ Hin) as (ps & pe & H1 & H2).
    rewrite (extract_found _ _ _ _ _ H1 H2).
    rewrite (extract_found _ _ _ _ _ (first_at_app _ _ tail _ _ H1)
               (first_at_app _ _ tail _ _ H2)).
    destruct (first_at_range _ _ _ _ H2) as [_ Hlen].
    rewrite slice_app; [done|lia]. }
  unfold build_sections.
  rewrite (Hsame k_keywords KEYWORDS TITLETAG)
    by (unfold section_markers; repeat (first [left | right])).
  rewrite (Hsame k_title_tag TITLETAG METADESC)
    by (unfold section_markers; repeat (first [left | right])).
  rewrite (Hsame k_meta_desc METADESC ARTICLETITLE)
    by (unfold section_markers; repeat (first [left | right])).
  rewrite (Hsame k_article_title ARTICLETITLE ARTICLECOPY)
    by (unfold section_markers; repeat (first [left | right])).
  rewrite (Hsame k_article_copy ARTICLECOPY FAQS)
    by (unfold section_markers; repeat (first [left | right])).
  rewrite (Hsame k_faqs FAQS END_)
    by (unfold section_markers; repeat (first [left | right])).
  reflexivity.
Qed.

Lemma complete_scenario1 : complete_blob scenario1.
Proof.
  intros k start end_ Hin. unfold section_markers in Hin.
  repeat (apply elem_of_cons in Hin as [[= -> -> ->]|Hin];
          [eexists _, _; split; apply index_Ok_first; vm_compute; reflexivity|]).
  by apply elem_of_nil in Hin.
Qed.

Lemma X3_witness :
  complete_blob scenario1 ∧
  build_sections (scenario1 ++ nl ++ py "---KEYWORDS--- more ---TITLETAG---")
  = Ok scenario1_sections.
Proof.
  split; [exact complete_scenario1|].
  rewrite (X3_text_after_blob_changes_nothing scenario1 _ complete_scenario1).
  reflexivity.
Defined.

End SectionValues.

(** * Further properties of the export writer *)

Section SaveMore.

Implicit Types (ctx secs : gmap pystr pystr) (w : World) (s : pystr)
  (t : datetime).

Lemma strftime_stamp_length t :
  valid_datetime t → length (strftime_stamp t) = 15.
Proof.
  intros (Hy & Hm & Hd & Hh & Hmi & Hs & _). unfold strftime_stamp.
  rewrite !length_app, (fmt_d_length 4), !(fmt_d_length 2);
    simpl; lia.
Qed.

Lemma strftime_stamp_same_second t1 t2 :
  same_second t1 t2 → strftime_stamp t1 = strftime_stamp t2.
Proof.
  intros (Hy & Hm & Hd & Hh & Hmi & Hs). unfold strftime_stamp.
  by rewrite Hy, Hm, Hd, Hh, Hmi, Hs.
Qed.

(** Two valid times with the same stamp are in the same second. *)
Lemma strftime_stamp_inj t1 t2 :
  valid_datetime t1 → valid_datetime t2 →
  strftime_stamp t1 = strftime_stamp t2 → same_second t1 t2.
Proof.
  intros (Hy1 & Hm1 & Hd1 & Hh1 & Hmi1 & Hs1 & _)
         (Hy2 & Hm2 & Hd2 & Hh2 & Hmi2 & Hs2 & _) E.
  unfold strftime_stamp in E.
  apply app_inj_1 in E as [Ey E];
    [|rewrite !(fmt_d_length 4); simpl; lia].
  apply app_inj_1 in E as [Em E];
    [|rewrite !(fmt_d_length 2); simpl; lia].
  apply app_inj_1 in E as [Ed E];
    [|rewrite !(fmt_d_length 2); simpl; lia].
  apply app_inj_1 in E as [_ E]; [|done].
  apply app_inj_1 in E as [Eh E];
    [|rewrite !(fmt_d_length 2); simpl; lia].
  apply app_inj_1 in E as [Emi Es];
    [|rewrite !(fmt_d_length 2); simpl; lia].
  repeat split; by eapply fmt_d_inj.
Qed.

Lemma file_base_inj ctx1 ctx2 s1 s2 :
  length s1 = length s2 →
  file_base ctx1 s1 = file_base ctx2 s2 ↔ safe_kw ctx1 = safe_kw ctx2 ∧ s1 = s2.
Proof.
  intros Hlen. unfold file_base. split.
  - intros E. apply app_inj_2 in E as [E1 E2]; [|simpl; lia].
    split; [done|]. by apply app_inv_head in E2.
  - by intros [-> ->].
Qed.

Lemma dict_get_Some secs k (v x : pystr) :
  secs !! k = Some v → dict_get secs k x = v.
Proof. intros H. unfold dict_get. by rewrite H. Qed.

Lemma render_md_markdown_of ctx secs w tt md kw ac fq :
  secs !! k_title_tag = Some tt → secs !! k_meta_desc = Some md →
  secs !! k_keywords = Some kw → secs !! k_article_copy = Some ac →
  secs !! k_faqs = Some fq → ∀ t,
  md_template (dict_get ctx k_primary_keyword []) (strftime_long t)
    tt md kw ac fq (dict_get ctx k_keywords_output (py "N/A"))
  = markdown_of ctx secs t.
Proof.
  intros H1 H2 H3 H4 H5 t. unfold markdown_of.
  by rewrite (dict_get_Some secs _ _ _ H1), (dict_get_Some secs _ _ _ H2),
    (dict_get_Some secs _ _ _ H3), (dict_get_Some secs _ _ _ H4),
    (dict_get_Some secs _ _ _ H5).
Qed.

(** One run of [save_article], with the markdown as [markdown_of]. *)
Lemma save_article_files data w :
  savable data w →
  let raw := default [] (raw_article data) in
  let ctx := default ∅ (context data) in
  let dir := expanduser_output_dir (userhome w) in
  let base := file_base ctx (strftime_stamp (clock w (reads w))) in
  let mdp := dir ++ [slash] ++ base ++ py ".md" in
  let jsp := dir ++ [slash] ++ base ++ py ".json" in
  ∃ secs,
    build_sections raw = Ok secs ∧
    save_article data w =
    Ok ({| success := true; md_path := mdp; json_path := jsp;
           sections := secs |},
        {| userhome := userhome w; clock := clock w;
           reads := S (S (S (reads w)));
           dirs := {[dir]} ∪ (list_to_set (ancestors (len dir) dir) ∪ dirs w);
           files :=
             <[jsp := JsonFile (json_data
                         (isoformat (clock w (S (S (reads w))))) ctx secs)]>
               (<[mdp := TextFile
                    (markdown_of ctx secs (clock w (S (reads w))))]>
                  (files w)) |}).
Proof.
  intros Hsav raw ctx dir base mdp jsp.
  destruct (save_article_run data w Hsav)
    as (secs & tt & md & kw & ac & fq & E & _ & H1 & H2 & H3 & H4 & H5 & Hrun).
  exists secs. split; [exact E|]. rewrite Hrun.
  by rewrite (render_md_markdown_of _ secs w tt md kw ac fq H1 H2 H3 H4 H5).
Qed.



(** X5. Two saves that nothing refuses, under the same home directory,
    get the same file names exactly when their keywords agree after the
    replacement of spaces and slashes and the cut to 30 characters, and
    their clocks show the same second. *)
Theorem X5_same_file_names_iff data1 data2 w1 w2 :
  savable data1 w1 → savable data2 w2 →
  userhome w1 = userhome w2 →
  valid_datetime (clock w1 (reads w1)) →
  valid_datetime (clock w2 (reads w2)) →
  ∃ resp1 w1' resp2 w2',
    save_article data1 w1 = Ok (resp1, w1') ∧
    save_article data2 w2 = Ok (resp2, w2') ∧
    let same :=
      safe_kw (default ∅ (context data1)) = safe_kw (default ∅ (context data2)) ∧
      same_second (clock w1 (reads w1)) (clock w2 (reads w2)) in
    (md_path resp1 = md_path resp2 ↔ same) ∧
    (json_path resp1 = json_path resp2 ↔ same).
Proof.
  intros Hs1 Hs2 Hhome Hv1 Hv2.
  destruct (save_article_files data1 w1 Hs1) as (secs1 & _ & Hrun1).
  destruct (save_article_files data2 w2 Hs2) as (secs2 & _ & Hrun2).
  eexists _, _, _, _. split; [exact Hrun1|]. split; [exact Hrun2|].
  cbn [md_path json_path]. cbv zeta. rewrite Hhome.
  assert (Hlen : length (strftime_stamp (clock w1 (reads w1)))
                 = length (strftime_stamp (clock w2 (reads w2))))
    by (by rewrite !strftime_stamp_length).
  assert (Hbase :
    file_base (default ∅ (context data1)) (strftime_stamp (clock w1 (reads w1)))
    = file_base (default ∅ (context data2)) (strftime_stamp (clock w2 (reads w2)))
    ↔ safe_kw (default ∅ (context data1)) = safe_kw (default ∅ (context data2)) ∧
      same_second (clock w1 (reads w1)) (clock w2 (reads w2))).
  { rewrite (file_base_inj _ _ _ _ Hlen). split.
    - intros [E1 E2]. split; [done|]. by apply strftime_stamp_inj.
    - intros [E1 E2]. split; [done|]. by apply strftime_stamp_same_second. }
  split.
  - rewrite <- Hbase. split.
    + intros E. do 2 apply app_inv_head in E. by apply app_inv_tail in E.
    + by intros ->.
  - rewrite <- Hbase. split.
    + intros E. do 2 apply app_inv_head in E. by apply app_inv_tail in E.
    + by intros ->.
Qed.

Lemma X5_witness :
  let data1 := {| raw_article := None;
                  context := Some {[k_primary_keyword := py "tea time/now"]} |} in
  let data2 := {| raw_article := Some scenario1;
                  context := Some {[k_primary_keyword := py "tea_time-now"]} |} in
  savable data1 example_world ∧ savable data2 example_world ∧
  userhome example_world = userhome example_world ∧
  valid_datetime (clock example_world (reads example_world)) ∧
  ∃ resp1 w1' resp2 w2',
    save_article data1 example_world = Ok (resp1, w1') ∧
    save_article data2 example_world = Ok (resp2, w2') ∧
    md_path resp1 = md_path resp2.
Proof.
  intros data1 data2.
  assert (Hv : valid_datetime (clock example_world (reads example_world)))
    by (unfold valid_datetime; simpl; lia).
  assert (Hs1 : savable data1 example_world).
  { apply savable_example; [reflexivity|reflexivity|].
    by apply utf8_map_singleton. }
  assert (Hs2 : savable data2 example_world).
  { apply savable_example; [reflexivity|reflexivity|].
    by apply utf8_map_singleton. }
  split; [exact Hs1|]. split; [exact Hs2|].
  split; [reflexivity|]. split; [exact Hv|].
  destruct (X5_same_file_names_iff data1 data2 example_world example_world
              Hs1 Hs2 eq_refl Hv Hv)
    as (r1 & w1 & r2 & w2 & H1 & H2 & Hmd & _).
  exists r1, w1, r2, w2. split; [exact H1|]. split; [exact H2|].
  apply Hmd. split; [reflexivity|]. by repeat split.
Defined.

(** A file of the export is no directory after the output directory and
    those above it have been made, unless it was one before. *)
Lemma export_not_dir (dir name : pystr) (ds : gset pystr) :
  dir ++ [slash] ++ name ∉ ds →
  dir ++ [slash] ++ name
  ∉ ({[dir]} ∪ (list_to_set (ancestors (len dir) dir) ∪ ds) : gset pystr).
Proof.
  intros Hn Hin. apply elem_of_union in Hin as [Hin|Hin].
  - apply elem_of_singleton in Hin.
    by apply (export_not_above dir name dir); [left|].
  - apply elem_of_union in Hin as [Hin|Hin]; [|done].
    apply elem_of_list_to_set, ancestors_above in Hin.
    by apply (export_not_above dir name _ Hin).
Qed.

(** X6. When a second save follows a first within the same second and
    with a keyword that gives the same file name, and nothing refuses the
    first save nor the strings of the second, the second writes to the
    same two paths, and afterwards the files are as if the first save had
    not been made: the first export is replaced. *)
Theorem X6_second_save_replaces_first data1 data2 w :
  savable data1 w → writable data2 →
  safe_kw (default ∅ (context data1)) = safe_kw (default ∅ (context data2)) →
  same_second (clock w (reads w)) (clock w (3 + reads w)) →
  ∃ resp1 w1 resp2 w2,
    save_article data1 w = Ok (resp1, w1) ∧
    save_article data2 w1 = Ok (resp2, w2) ∧
    md_path resp2 = md_path resp1 ∧
    json_path resp2 = json_path resp1 ∧
    files w2 =
      <[json_path resp2 :=
          JsonFile (json_data (isoformat (clock w (5 + reads w)))
                      (default ∅ (context data2)) (sections resp2))]>
        (<[md_path resp2 :=
             TextFile (markdown_of (default ∅ (context data2))
                         (sections resp2) (clock w (4 + reads w)))]>
           (files w)).
Proof.
  intros Hs1 Hw2 Hkw Hsec.
  destruct (save_article_files data1 w Hs1) as (secs1 & _ & Hrun1).
  assert (Hbase :
    file_base (default ∅ (context data2))
      (strftime_stamp (clock w (S (S (S (reads w))))))
    = file_base (default ∅ (context data1))
        (strftime_stamp (clock w (reads w)))).
  { unfold file_base. rewrite Hkw.
    by rewrite (strftime_stamp_same_second _ _ Hsec). }
  set (m := expanduser_output_dir (userhome w) ++ [slash] ++
            file_base (default ∅ (context data1))
              (strftime_stamp (clock w (reads w))) ++ py ".md") in *.
  set (j := expanduser_output_dir (userhome w) ++ [slash] ++
            file_base (default ∅ (context data1))
              (strftime_stamp (clock w (reads w))) ++ py ".json") in *.
  eexists _, _.
  match type of Hrun1 with _ = Ok (_, ?w1) =>
    assert (Hs2 : savable data2 w1) end.
  { destruct Hs1 as [(Hhome & Hfree & Hm & Hj) _].
    unfold export_path, export_dir in Hfree, Hm, Hj. fold m in Hm. fold j in Hj.
    split; [|exact Hw2]. split; [exact Hhome|].
    unfold export_path, export_dir. cbn [userhome clock reads dirs files].
    rewrite Hbase. fold m j. split; [|split].
    - intros d Hd. rewrite !lookup_insert_ne; [by apply Hfree| |].
      + apply not_eq_sym. by apply export_not_above.
      + apply not_eq_sym. by apply export_not_above.
    - by apply export_not_dir.
    - by apply export_not_dir. }
  destruct (save_article_files data2 _ Hs2) as (secs2 & _ & Hrun2).
  cbn [userhome clock reads dirs files] in Hrun2.
  eexists _, _. split; [exact Hrun1|]. split; [exact Hrun2|].
  cbn [md_path json_path files sections].
  rewrite Hbase. fold m j. split; [done|]. split; [done|].
  assert (Hne : m ≠ j) by apply md_json_paths_differ.
  rewrite (insert_insert_ne _ m j) by done.
  rewrite insert_insert_eq. by rewrite insert_insert_eq.
Qed.

Lemma X6_witness :
  let data1 := {| raw_article := Some scenario1;
                  context := Some {[k_primary_keyword := py "tea time"]} |} in
  let data2 := {| raw_article := Some scenario2;
                  context := Some {[k_primary_keyword := py "tea_time"]} |} in
  savable data1 example_world ∧ writable data2 ∧
  safe_kw (default ∅ (context data1)) = safe_kw (default ∅ (context data2)) ∧
  same_second (clock example_world (reads example_world))
    (clock example_world (3 + reads example_world)) ∧
  ∃ resp1 w1 resp2 w2,
    save_article data1 example_world = Ok (resp1, w1) ∧
    save_article data2 w1 = Ok (resp2, w2) ∧
    md_path resp2 = md_path resp1 ∧
    size (files w2) = 2.
Proof.
  intros data1 data2.
  assert (H1 : safe_kw (default ∅ (context data1))
               = safe_kw (default ∅ (context data2))) by reflexivity.
  assert (H2 : same_second (clock example_world (reads example_world))
                 (clock example_world (3 + reads example_world)))
    by (by repeat split).
  assert (Hs1 : savable data1 example_world).
  { apply savable_example; [reflexivity|reflexivity|].
    by apply utf8_map_singleton. }
  assert (Hw2 : writable data2).
  { apply writable_intro; [reflexivity|reflexivity|].
    by apply utf8_map_singleton. }
  split; [exact Hs1|]. split; [exact Hw2|].
  split; [exact H1|]. split; [exact H2|].
  destruct (X6_second_save_replaces_first data1 data2 example_world
              Hs1 Hw2 H1 H2)
    as (r1 & w1 & r2 & w2 & E1 & E2 & Hmd & Hjs & Hfiles).
  exists r1, w1, r2, w2. split; [exact E1|]. split; [exact E2|].
  split; [exact Hmd|]. rewrite Hfiles.
  rewrite map_size_insert_None.
  - rewrite map_size_insert_None; [done|]. apply lookup_empty.
  - rewrite lookup_insert_ne; [apply lookup_empty|].
    rewrite Hmd, Hjs.
    destruct (save_article_response _ _ _ _ E1) as (_ & -> & ->).
    apply md_json_paths_differ.
Defined.

(** X7. The markdown document does not show the article title: two blobs
    whose sections differ in the article title only give the same
    document, when nothing refuses their saves. *)
Theorem X7_markdown_without_article_title raw1 raw2 ctx w secs1 secs2 :
  savable {| raw_article := Some raw1; context := Some ctx |} w →
  savable {| raw_article := Some raw2; context := Some ctx |} w →
  build_sections raw1 = Ok secs1 → build_sections raw2 = Ok secs2 →
  (∀ k, k ≠ k_article_title → secs1 !! k = secs2 !! k) →
  ∃ resp1 w1 resp2 w2 md,
    save_article {| raw_article := Some raw1; context := Some ctx |} w
      = Ok (resp1, w1) ∧
    save_article {| raw_article := Some raw2; context := Some ctx |} w
      = Ok (resp2, w2) ∧
    md_path resp1 = md_path resp2 ∧
    files w1 !! md_path resp1 = Some (TextFile md) ∧
    files w2 !! md_path resp2 = Some (TextFile md).
Proof.
  intros Hs1 Hs2 E1 E2 Hsame.
  destruct (save_article_files _ w Hs1) as (s1 & E1' & Hrun1).
  destruct (save_article_files _ w Hs2) as (s2 & E2' & Hrun2).
  assert (Ok secs1 = Ok s1) as [= <-]
    by (transitivity (build_sections raw1); [symmetry; exact E1|exact E1']).
  assert (Ok secs2 = Ok s2) as [= <-]
    by (transitivity (build_sections raw2); [symmetry; exact E2|exact E2']).
  cbn [raw_article context] in Hrun1, Hrun2.
  change (default ∅ (Some ctx)) with ctx in Hrun1, Hrun2.
  eexists _, _, _, _, _. split; [exact Hrun1|]. split; [exact Hrun2|].
  cbn [md_path files]. split; [done|]. split.
  - rewrite lookup_insert_ne by (apply not_eq_sym, md_json_paths_differ).
    by rewrite lookup_insert_eq.
  - rewrite lookup_insert_ne by (apply not_eq_sym, md_json_paths_differ).
    rewrite lookup_insert_eq. do 2 f_equal. unfold markdown_of, dict_get.
    rewrite <- (Hsame k_title_tag), <- (Hsame k_meta_desc),
      <- (Hsame k_keywords), <- (Hsame k_article_copy), <- (Hsame k_faqs);
      done.
Qed.

Lemma X7_witness :
  let raw1 := py "---ARTICLETITLE--- One ---ARTICLECOPY--- body ---FAQS---" in
  let raw2 := py "---ARTICLETITLE--- Two ---ARTICLECOPY--- body ---FAQS---" in
  savable {| raw_article := Some raw1; context := Some ∅ |} example_world ∧
  savable {| raw_article := Some raw2; context := Some ∅ |} example_world ∧
  ∃ secs1 secs2,
    build_sections raw1 = Ok secs1 ∧ build_sections raw2 = Ok secs2 ∧
    secs1 !! k_article_title = Some (py "One") ∧
    secs2 !! k_article_title = Some (py "Two") ∧
    (∀ k, k ≠ k_article_title → secs1 !! k = secs2 !! k) ∧
    ∃ resp1 w1 resp2 w2 md,
      save_article {| raw_article := Some raw1; context := Some ∅ |}
        example_world = Ok (resp1, w1) ∧
      save_article {| raw_article := Some raw2; context := Some ∅ |}
        example_world = Ok (resp2, w2) ∧
      files w1 !! md_path resp1 = Some (TextFile md) ∧
      files w2 !! md_path resp2 = Some (TextFile md).
Proof.
  intros raw1 raw2.
  set (rest := <[k_meta_desc := []]> (<[k_title_tag := []]>
                 (<[k_keywords := []]> (∅ : gmap pystr pystr)))).
  set (secs1 := <[k_faqs := []]> (<[k_article_copy := py "body"]>
                  (<[k_article_title := py "One"]> rest))).
  set (secs2 := <[k_faqs := []]> (<[k_article_copy := py "body"]>
                  (<[k_article_title := py "Two"]> rest))).
  assert (E1 : build_sections raw1 = Ok secs1) by reflexivity.
  assert (E2 : build_sections raw2 = Ok secs2) by reflexivity.
  assert (Hs1 : savable {| raw_article := Some raw1; context := Some ∅ |}
                  example_world).
  { apply savable_example; [reflexivity|reflexivity|exact utf8_map_empty]. }
  assert (Hs2 : savable {| raw_article := Some raw2; context := Some ∅ |}
                  example_world).
  { apply savable_example; [reflexivity|reflexivity|exact utf8_map_empty]. }
  split; [exact Hs1|]. split; [exact Hs2|].
  exists secs1, secs2.
  assert (Hsame : ∀ k : pystr, k ≠ k_article_title →
                                secs1 !! k = secs2 !! k).
  { intros k Hk. unfold secs1, secs2.
    rewrite !(lookup_insert _ k_faqs).
    destruct (decide (k_faqs = k)); [done|].
    rewrite !(lookup_insert _ k_article_copy).
    destruct (decide (k_article_copy = k)); [done|].
    by rewrite !(lookup_insert_ne _ k_article_title). }
  split; [exact E1|]. split; [exact E2|].
  split; [reflexivity|]. split; [reflexivity|].
  split; [exact Hsame|].
  destruct (X7_markdown_without_article_title raw1 raw2 ∅ example_world
              _ _ Hs1 Hs2 E1 E2 Hsame)
    as (r1 & w1 & r2 & w2 & md & H1 & H2 & _ & F1 & F2).
  exists r1, w1, r2, w2, md. auto.
Defined.

(** X8. In the record written to the [.json] file by a save that nothing
    refuses, a section replaces a field of the context with the same
    name, and a [generated_at] field of the context replaces the time of
    writing; every other field of the context is kept. *)
Theorem X8_record_precedence data w :
  let ctx := default ∅ (context data) in
  savable data w →
  ∃ resp w' record,
    save_article data w = Ok (resp, w') ∧
    files w' !! json_path resp = Some (JsonFile record) ∧
    (∀ k, k ∈ section_names → record !! k = sections resp !! k) ∧
    (∀ k (v : pystr), k ∉ section_names → ctx !! k = Some v →
       record !! k = Some v) ∧
    (ctx !! k_generated_at = None →
       record !! k_generated_at
       = Some (isoformat (clock w (2 + reads w)))) ∧
    dom record = section_names ∪ dom ctx ∪ {[k_generated_at]}.
Proof.
  intros ctx Hsav.
  destruct (save_article_run data w Hsav)
    as (secs & tt & md & kw & ac & fq & _ & Hdom & _ & _ & _ & _ & _ & Hrun).
  fold ctx in Hrun.
  eexists _, _, _. split; [exact Hrun|].
  cbn [json_path files sections].
  split; [apply lookup_insert_eq|]. unfold json_data.
  split; [|split; [|split]].
  - intros k Hk. rewrite <- Hdom in Hk. apply elem_of_dom in Hk as [v Hv].
    rewrite Hv. by apply lookup_union_Some_l.
  - intros k v Hk Hv. rewrite lookup_union_r.
    + by apply lookup_union_Some_l.
    + apply not_elem_of_dom. by rewrite Hdom.
  - intros Hga. rewrite lookup_union_r.
    + rewrite lookup_union_r by done. apply lookup_singleton_eq.
    + apply not_elem_of_dom. rewrite Hdom.
      apply section_names_not_generated_at.
  - rewrite !dom_union_L, dom_singleton_L, Hdom. by rewrite (assoc_L (∪)).
Qed.

Lemma X8_witness :
  let ctx : gmap pystr pystr :=
    <[k_keywords := py "mine"]> (<[k_generated_at := py "never"]>
      {[k_tone := py "warm"]}) in
  let data := {| raw_article := Some scenario1; context := Some ctx |} in
  savable data example_world ∧
  k_keywords ∈ section_names ∧ (k_generated_at ∉ section_names) ∧
  ctx !! k_generated_at = Some (py "never") ∧
  ∃ resp w' record,
    save_article data example_world = Ok (resp, w') ∧
    files w' !! json_path resp = Some (JsonFile record) ∧
    record !! k_keywords = Some (py "foo, bar") ∧
    record !! k_generated_at = Some (py "never").
Proof.
  intros ctx data.
  assert (H1 : k_keywords ∈ section_names) by (by vm_compute).
  assert (H2 : k_generated_at ∉ section_names) by (by vm_compute).
  assert (H3 : ctx !! k_generated_at = Some (py "never")) by reflexivity.
  assert (Hs : savable data example_world).
  { apply savable_example; [reflexivity|reflexivity|].
    do 2 (apply utf8_map_insert; [done|done|]).
    by apply utf8_map_singleton. }
  split; [exact Hs|].
  split; [exact H1|]. split; [exact H2|]. split; [exact H3|].
  destruct (X8_record_precedence data example_world Hs)
    as (resp & w' & record & Hrun & Hfile & Hsec & Hctx & _).
  exists resp, w', record. split; [exact Hrun|]. split; [exact Hfile|].
  split.
  - rewrite (Hsec _ H1).
    rewrite (sections_of_run data example_world resp w' scenario1_sections Hrun)
      by reflexivity.
    reflexivity.
  - exact (Hctx _ _ H2 H3).
Defined.




(** X16. Where the file system has room for the save: a NUL in the part
    of the primary keyword that goes into the file name, a part that the
    file-system encoding takes, makes the save raise [ValueError]; and
    with no NUL there, a surrogate in a section, or in a key or a value
    of the context that no section replaces, makes it raise
    [UnicodeEncodeError]. *)
Theorem X16_refused_saves data w :
  hospitable data w →
  let ctx := default ∅ (context data) in
  (fs_encodable (safe_kw ctx) = true → 0%N ∈ safe_kw ctx →
   save_article data w = Raise ValueError) ∧
  (0%N ∉ safe_kw ctx →
   (∃ secs, build_sections (default [] (raw_article data)) = Ok secs ∧
            ¬ utf8_map (secs ∪ ctx)) →
   save_article data w = Raise UnicodeEncodeError).
Proof.
  intros Hroom ctx. split.
  - intros H1 H2. by apply save_article_nul.
  - intros H1 (secs & E & H2). by apply (save_article_surrogate data w secs).
Qed.

Lemma X16_witness :
  let nul := {| raw_article := Some scenario1;
                context := Some {[k_primary_keyword := [97; 0; 98]%N]} |} in
  let lone := {| raw_article :=
                   Some (py "---ARTICLETITLE---" ++ [56832%N] ++
                         py "---ARTICLECOPY---");
                 context := None |} in
  hospitable nul example_world ∧ hospitable lone example_world ∧
  fs_encodable (safe_kw (default ∅ (context nul))) = true ∧
  0%N ∈ safe_kw (default ∅ (context nul)) ∧
  (0%N ∉ safe_kw (default ∅ (context lone))) ∧
  save_article nul example_world = Raise ValueError ∧
  save_article lone example_world = Raise UnicodeEncodeError.
Proof.
  intros nul lone.
  assert (Hn : hospitable nul example_world) by (by apply hospitable_empty).
  assert (Hl : hospitable lone example_world) by (by apply hospitable_empty).
  assert (H1 : fs_encodable (safe_kw (default ∅ (context nul))) = true)
    by reflexivity.
  assert (H2 : 0%N ∈ safe_kw (default ∅ (context nul))).
  { change (safe_kw (default ∅ (context nul))) with [97; 0; 98]%N.
    apply elem_of_cons. right. by left. }
  assert (H3 : 0%N ∉ safe_kw (default ∅ (context lone)))
    by (by apply no_nul_existsb).
  split; [exact Hn|]. split; [exact Hl|]. split; [exact H1|].
  split; [exact H2|]. split; [exact H3|].
  split.
  - exact (proj1 (X16_refused_saves nul example_world Hn) H1 H2).
  - apply (proj2 (X16_refused_saves lone example_world Hl) H3).
    eexists. split; [reflexivity|].
    intros H.
    assert (E : (<[k_faqs := []]> (<[k_article_copy := []]>
                   (<[k_article_title := [56832%N]]> (<[k_meta_desc := []]>
                   (<[k_title_tag := []]> (<[k_keywords := []]> ∅)))))
                 ∪ default ∅ (context lone)) !! k_article_title
                = Some [56832%N]) by reflexivity.
    destruct (H _ _ E) as [_ Hv]. discriminate Hv.
Defined.

End SaveMore.

(** * Further properties of the streaming relay *)

Section RelayMore.

Implicit Types (texts : list pystr) (text : pystr) (c d : N).

Lemma hexdigit_printable d : (d < 16)%N → printable (hexdigit d) = true.
Proof.
  intros Hd. unfold printable, hexdigit. destruct (N.ltb_spec d 10);
    apply andb_true_iff; split; apply N.leb_le; lia.
Qed.

Lemma hex4_printable n : Forall (λ c, printable c = true) (hex4 n).
Proof.
  unfold hex4. repeat constructor; by apply hexdigit_printable, N.mod_lt.
Qed.

Lemma escape_char_printable c :
  Forall (λ c, printable c = true) (escape_char c).
Proof.
  unfold escape_char.
  destruct (c =? 34)%N; [by repeat constructor|].
  destruct (c =? 92)%N; [by repeat constructor|].
  destruct (c =? 8)%N; [by repeat constructor|].
  destruct (c =? 12)%N; [by repeat constructor|].
  destruct (c =? 10)%N; [by repeat constructor|].
  destruct (c =? 13)%N; [by repeat constructor|].
  destruct (c =? 9)%N; [by repeat constructor|].
  destruct ((32 <=? c) && (c <=? 126))%N eqn:Hp; [by repeat constructor|].
  destruct (c <? 65536)%N.
  - apply Forall_app. split; [by repeat constructor|apply hex4_printable].
  - cbv zeta. repeat (apply Forall_app; split);
      first [apply hex4_printable | by repeat constructor].
Qed.

Lemma escape_printable text :
  Forall (λ c, printable c = true) (concat (map escape_char text)).
Proof.
  induction text as [|c text IH]; [constructor|].
  cbn [map concat]. apply Forall_app. split; [apply escape_char_printable|done].
Qed.

(** X9. A frame is one line: printable ASCII characters only, whatever
    the fragment holds, and then the two newlines that end it. *)
Theorem X9_frame_is_one_ascii_line text :
  ∃ line, sse_frame text = line ++ nl ++ nl ∧
          Forall (λ c, printable c = true) line.
Proof.
  exists (py "data: {" ++ dquote ++ py "text" ++ dquote ++ py ": " ++
          dquote ++ concat (map escape_char text) ++ dquote ++ py "}").
  split.
  - rewrite sse_frame_text. unfold frame_text. by rewrite <- !app_assoc.
  - repeat (apply Forall_app; split);
      first [apply escape_printable | by repeat constructor].
Qed.

Lemma sse_frame_inj a b :
  Forall (λ c, is_scalar c = true) a → Forall (λ c, is_scalar c = true) b →
  sse_frame a = sse_frame b → a = b.
Proof.
  intros Ha Hb E. rewrite !sse_frame_text in E. unfold frame_text in E.
  do 6 apply app_inv_head in E. apply app_inv_tail in E.
  apply (f_equal json_unescape) in E.
  rewrite !json_unescape_escape in E by done. by injection E.
Qed.

Lemma cons_eq_inv (x y : pystr) (l k : list pystr) :
  x :: l = y :: k → x = y ∧ l = k.
Proof. intros E. by injection E. Qed.

Lemma map_sse_frame_inj texts1 texts2 :
  Forall (Forall (λ c, is_scalar c = true)) texts1 →
  Forall (Forall (λ c, is_scalar c = true)) texts2 →
  map sse_frame texts1 = map sse_frame texts2 → texts1 = texts2.
Proof.
  intros H1. revert texts2. induction H1 as [|a l Ha _ IH]; intros texts2 H2 E.
  - by destruct texts2.
  - destruct H2 as [|b k Hb H2].
    + discriminate E.
    + apply cons_eq_inv in E as [E1 E2].
      f_equal; [by apply sse_frame_inj|by apply IH].
Qed.

(** X10. The sentinel is yielded exactly when the upstream stream closes:
    when the call fails, the frames of the fragments that arrived are
    yielded, then the error is raised and no sentinel is sent. *)
Theorem X10_sentinel_iff_stream_closed (up : upstream) :
  (sse_done ∈ (generate up).1 ↔ ending up = Closed) ∧
  ((generate up).2 = Ok () ↔ ending up = Closed) ∧
  (ending up = Failed →
     generate up = (map sse_frame (fragments up), Raise APIError)) ∧
  (generate up).1 `prefix_of`
    (generate {| fragments := fragments up; ending := Closed |}).1.
Proof.
  destruct up as [texts e]. unfold generate. cbn [fragments ending].
  rewrite relay_loop_map.
  assert (Hno : sse_done ∉ map sse_frame texts).
  { intros Hin. apply list_elem_of_In, in_map_iff in Hin as (t & Ht & _).
    by apply sse_frame_not_done in Ht. }
  destruct e; cbn [fst snd].
  - split; [split; [done|]; intros _; apply elem_of_app; right; left|].
    split; [done|]. split; [done|]. done.
  - split; [split; [by intros ?|done]|].
    split; [split; done|]. split; [done|].
    by apply prefix_app_r.
Qed.

Lemma X10_witness :
  let up := {| fragments := [py "Hel"; py "lo"]; ending := Failed |} in
  ending up = Failed ∧
  generate up = ([frame_text (py "Hel"); frame_text (py "lo")], Raise APIError) ∧
  (sse_done ∉ (generate up).1).
Proof.
  intros up. assert (H : ending up = Failed) by reflexivity.
  destruct (X10_sentinel_iff_stream_closed up) as (H1 & _ & H3 & _).
  split; [exact H|]. split; [exact (H3 H)|].
  intros Hin. apply H1 in Hin. discriminate Hin.
Defined.

(** X11. The frames tell the fragments apart: two upstream streams of
    fragments made of characters give the same frames only if they are
    the same fragments in the same order. *)
Theorem X11_frames_determine_fragments (up1 up2 : upstream) :
  Forall (Forall (λ c, is_scalar c = true)) (fragments up1) →
  Forall (Forall (λ c, is_scalar c = true)) (fragments up2) →
  (generate up1).1 = (generate up2).1 →
  fragments up1 = fragments up2 ∧ ending up1 = ending up2.
Proof.
  destruct up1 as [l1 e1], up2 as [l2 e2]. cbn [fragments ending].
  intros H1 H2. unfold generate. cbn [fragments ending].
  rewrite !relay_loop_map.
  assert (Hlast : ∀ l k, map sse_frame l ++ [sse_done] ≠ map sse_frame k).
  { intros l k E.
    assert (Hin : sse_done ∈ map sse_frame k)
      by (rewrite <- E; apply elem_of_app; right; left).
    apply list_elem_of_In, in_map_iff in Hin as (t & Ht & _).
    by apply sse_frame_not_done in Ht. }
  destruct e1, e2; cbn [fst]; intros E.
  - apply app_inj_2 in E as [E _]; [|done].
    split; [by apply map_sse_frame_inj|done].
  - by apply Hlast in E.
  - symmetry in E. by apply Hlast in E.
  - split; [by apply map_sse_frame_inj|done].
Qed.

Lemma X11_witness :
  let up1 := {| fragments := [py "ab"; py "c"]; ending := Closed |} in
  let up2 := {| fragments := [py "a"; py "bc"]; ending := Closed |} in
  Forall (Forall (λ c, is_scalar c = true)) (fragments up1) ∧
  Forall (Forall (λ c, is_scalar c = true)) (fragments up2) ∧
  (generate up1).1 ≠ (generate up2).1.
Proof.
  intros up1 up2.
  assert (H1 : Forall (Forall (λ c, is_scalar c = true)) (fragments up1))
    by (repeat constructor).
  assert (H2 : Forall (Forall (λ c, is_scalar c = true)) (fragments up2))
    by (repeat constructor).
  split; [exact H1|]. split; [exact H2|].
  intros E. destruct (X11_frames_determine_fragments up1 up2 H1 H2 E) as [D _].
  vm_compute in D. discriminate D.
Defined.

End RelayMore.

(** * The prompts and the routes that send them *)

Section Prompts.

Implicit Types (data : gmap pystr pystr) (raw start sub s a b : pystr).

Lemma occurs_at_in_middle sub s a b p :
  occurs_at sub s p → occurs_at sub (a ++ s ++ b) (length a + p).
Proof.
  intros (x & y & -> & <-). exists (a ++ x), (y ++ b).
  split; [by rewrite <- !app_assoc|by rewrite length_app].
Qed.

(** When the end marker occurs after an occurrence of the start marker,
    both searches of the extractor succeed. *)
Lemma found_after raw start end_ p0 pe0 :
  occurs_at start raw p0 → occurs_at end_ raw pe0 → p0 + len start ≤ pe0 →
  ∃ ps pe, first_at start raw 0 ps ∧ first_at end_ raw (ps + len start) pe.
Proof.
  intros H1 H2 Hle.
  destruct (index_cases raw start 0) as [[ps E]|E].
  - apply index_Ok_first in E. assert (Hps : ps ≤ p0).
    { destruct (Nat.le_gt_cases ps p0) as [|Hgt]; [done|].
      destruct E as (_ & _ & Hmin). destruct (Hmin p0); [lia|done|done]. }
    destruct (index_cases raw end_ (ps + len start)) as [[pe E']|E'].
    + apply index_Ok_first in E'. by exists ps, pe.
    + apply index_Raise_absent in E'. destruct (E' pe0); [lia|done].
  - apply index_Raise_absent in E. destruct (E p0); [lia|done].
Qed.

Lemma OUTPUT_FORMAT_markers :
  occurs_at KEYWORDS OUTPUT_FORMAT 54 ∧ occurs_at TITLETAG OUTPUT_FORMAT 114 ∧
  occurs_at METADESC OUTPUT_FORMAT 192 ∧
  occurs_at ARTICLETITLE OUTPUT_FORMAT 286 ∧
  occurs_at ARTICLECOPY OUTPUT_FORMAT 337 ∧ occurs_at FAQS OUTPUT_FORMAT 526 ∧
  occurs_at END_ OUTPUT_FORMAT 698.
Proof.
  assert (H : ∀ m p, index OUTPUT_FORMAT m 0 = Ok p → occurs_at m OUTPUT_FORMAT p).
  { intros m p E. by apply index_Ok_first in E as (_ & ? & _). }
  repeat split; apply H; vm_compute; reflexivity.
Qed.

(** Any text that holds [OUTPUT_FORMAT] has both markers of every
    section. *)
Lemma complete_around_OUTPUT_FORMAT a b : complete_blob (a ++ OUTPUT_FORMAT ++ b).
Proof.
  destruct OUTPUT_FORMAT_markers as (H1 & H2 & H3 & H4 & H5 & H6 & H7).
  intros k start end_ Hin. unfold section_markers in Hin.
  repeat (apply elem_of_cons in Hin as [[= -> -> ->]|Hin];
          [eapply found_after;
           [by apply occurs_at_in_middle|by apply occurs_at_in_middle|
            unfold len; simpl; lia]|]).
  by apply elem_of_nil in Hin.
Qed.

Lemma peel_head (h r t : pystr) :
  (∃ a, r = a ++ OUTPUT_FORMAT ++ t) → ∃ a, h ++ r = a ++ OUTPUT_FORMAT ++ t.
Proof. intros [a ->]. exists (h ++ a). by rewrite <- app_assoc. Qed.

Ltac split_at_format :=
  lazymatch goal with
  | |- ∃ a, ?h ++ ?r = a ++ OUTPUT_FORMAT ++ ?t =>
      first [ constr_eq h OUTPUT_FORMAT; exists nil; symmetry; apply app_nil_l
            | apply (peel_head h r t); split_at_format ]
  end.

Lemma article_prompt_ends_with_format pk ind ta tone brand ko bo notes :
  ∃ a, article_prompt pk ind ta tone brand ko bo notes
       = a ++ OUTPUT_FORMAT ++ text "
".
Proof. unfold article_prompt. split_at_format. Qed.

(** X12. A blob that starts with the prompt of [generate_article], as
    when the model repeats its instructions before the article, gives the
    sections of the prompt: nothing of what follows the prompt reaches
    the sections. *)
Theorem X12_echoed_article_prompt_hides_article data answer :
  build_sections (prompt (generate_article_request data) ++ answer)
  = build_sections (prompt (generate_article_request data)).
Proof.
  unfold generate_article_request. cbn [prompt].
  destruct (article_prompt_ends_with_format
              (dict_get data k_primary_keyword [])
              (dict_get data k_industry (py "General"))
              (dict_get data k_target_audience (py "General audience"))
              (dict_get data k_tone (py "expert, informative, conversational"))
              (dict_get data k_brand_name [])
              (dict_get data k_keywords_output [])
              (dict_get data k_brief_output [])
              (dict_get data k_user_notes [])) as [a ->].
  apply X3_text_after_blob_changes_nothing, complete_around_OUTPUT_FORMAT.
Qed.

Lemma dict_get_insert_eq data k (v x : pystr) :
  dict_get (<[k := v]> data) k x = v.
Proof. unfold dict_get. by rewrite lookup_insert_eq. Qed.

Lemma dict_get_insert_ne data k k' (v x : pystr) :
  k ≠ k' → dict_get (<[k := v]> data) k' x = dict_get data k' x.
Proof. intros H. unfold dict_get. by rewrite lookup_insert_ne. Qed.

Lemma dict_get_None data k (x : pystr) :
  data !! k = None → dict_get data k x = x.
Proof. intros H. unfold dict_get. by rewrite H. Qed.

Ltac strip_heads E :=
  repeat match type of E with
         | ?h ++ ?a = ?h ++ ?b => apply (app_inv_head h a b) in E
         end.

Ltac other_key := intros D; vm_compute in D; discriminate D.

Lemma keywords_prompt_industry pk ta :
  keywords_prompt pk [] ta ≠ keywords_prompt pk (py "General") ta.
Proof.
  unfold keywords_prompt. intros E. strip_heads E.
  apply app_inv_tail in E. vm_compute in E. discriminate E.
Qed.

Lemma brief_prompt_industry pk ta ko :
  brief_prompt pk [] ta ko ≠ brief_prompt pk (py "General") ta ko.
Proof.
  unfold brief_prompt. intros E. strip_heads E.
  apply app_inv_tail in E. vm_compute in E. discriminate E.
Qed.

Lemma article_prompt_industry pk ta tone brand ko bo notes :
  article_prompt pk [] ta tone brand ko bo notes
  ≠ article_prompt pk (py "General") ta tone brand ko bo notes.
Proof.
  unfold article_prompt. intros E. strip_heads E.
  apply app_inv_tail in E. vm_compute in E. discriminate E.
Qed.

(** X13. The industry is replaced by [General] only when its key is
    missing from the request: in the three generation routes a request
    without [industry] is the request with the industry [General], and a
    request with an empty industry is a different one, sent with the
    industry left blank. *)
Theorem X13_industry_default_only_when_missing data :
  (data !! k_industry = None →
     generate_keywords_request data
       = generate_keywords_request (<[k_industry := py "General"]> data) ∧
     generate_brief_request data
       = generate_brief_request (<[k_industry := py "General"]> data) ∧
     generate_article_request data
       = generate_article_request (<[k_industry := py "General"]> data)) ∧
  generate_keywords_request (<[k_industry := []]> data)
    ≠ generate_keywords_request (<[k_industry := py "General"]> data) ∧
  generate_brief_request (<[k_industry := []]> data)
    ≠ generate_brief_request (<[k_industry := py "General"]> data) ∧
  generate_article_request (<[k_industry := []]> data)
    ≠ generate_article_request (<[k_industry := py "General"]> data).
Proof.
  split; [|split; [|split]].
  - intros Hno.
    unfold generate_keywords_request, generate_brief_request,
      generate_article_request.
    rewrite !dict_get_insert_eq.
    rewrite !(dict_get_insert_ne _ k_industry) by other_key.
    by rewrite (dict_get_None data k_industry _ Hno).
  - unfold generate_keywords_request. rewrite !dict_get_insert_eq.
    rewrite !(dict_get_insert_ne _ k_industry) by other_key.
    intros E. apply (f_equal prompt) in E. cbn [prompt] in E.
    by apply keywords_prompt_industry in E.
  - unfold generate_brief_request. rewrite !dict_get_insert_eq.
    rewrite !(dict_get_insert_ne _ k_industry) by other_key.
    intros E. apply (f_equal prompt) in E. cbn [prompt] in E.
    by apply brief_prompt_industry in E.
  - unfold generate_article_request. rewrite !dict_get_insert_eq.
    rewrite !(dict_get_insert_ne _ k_industry) by other_key.
    intros E. apply (f_equal prompt) in E. cbn [prompt] in E.
    by apply article_prompt_industry in E.
Qed.

Lemma X13_witness :
  let data : gmap pystr pystr := {[k_primary_keyword := py "tea"]} in
  data !! k_industry = None ∧
  generate_keywords_request data
    = generate_keywords_request (<[k_industry := py "General"]> data) ∧
  prompt (generate_keywords_request data)
    = keywords_prompt (py "tea") (py "General") (py "General audience").
Proof.
  intros data. assert (H : data !! k_industry = None) by reflexivity.
  split; [exact H|].
  destruct (proj1 (X13_industry_default_only_when_missing data) H) as (E & _).
  split; [exact E|]. reflexivity.
Defined.

Lemma article_prompt_tone pk ind ta brand ko bo notes :
  article_prompt pk ind ta [] brand ko bo notes
  ≠ article_prompt pk ind ta (py "expert, informative, conversational")
      brand ko bo notes.
Proof.
  unfold article_prompt. intros E. strip_heads E.
  apply app_inv_tail in E. vm_compute in E. discriminate E.
Qed.

(** X14. The article route treats its optional fields in two ways. The
    brand name and the notes of the user are replaced also when they are
    empty: a request with an empty brand name, or with none, is the
    request with the brand name [Not specified], and one with empty
    notes, or none, is the request with the notes [None]. The tone is
    replaced only when its key is missing: a request with an empty tone
    differs from the request with the default tone. *)
Theorem X14_brand_and_notes_default_when_empty data :
  generate_article_request (<[k_tone := []]> data)
    ≠ generate_article_request
        (<[k_tone := py "expert, informative, conversational"]> data) ∧
  generate_article_request (<[k_brand_name := []]> data)
    = generate_article_request (<[k_brand_name := py "Not specified"]> data) ∧
  generate_article_request (<[k_user_notes := []]> data)
    = generate_article_request (<[k_user_notes := py "None"]> data) ∧
  (data !! k_brand_name = None →
     generate_article_request data
     = generate_article_request (<[k_brand_name := py "Not specified"]> data)) ∧
  (data !! k_user_notes = None →
     generate_article_request data
     = generate_article_request (<[k_user_notes := py "None"]> data)).
Proof.
  unfold generate_article_request. split; [|split; [|split; [|split]]].
  - rewrite !dict_get_insert_eq.
    rewrite !(dict_get_insert_ne _ k_tone) by other_key.
    intros E. apply (f_equal prompt) in E. cbn [prompt] in E.
    by apply article_prompt_tone in E.
  - rewrite !dict_get_insert_eq.
    by rewrite !(dict_get_insert_ne _ k_brand_name) by other_key.
  - rewrite !dict_get_insert_eq.
    by rewrite !(dict_get_insert_ne _ k_user_notes) by other_key.
  - intros Hno. rewrite !dict_get_insert_eq.
    rewrite !(dict_get_insert_ne _ k_brand_name) by other_key.
    by rewrite (dict_get_None data k_brand_name _ Hno).
  - intros Hno. rewrite !dict_get_insert_eq.
    rewrite !(dict_get_insert_ne _ k_user_notes) by other_key.
    by rewrite (dict_get_None data k_user_notes _ Hno).
Qed.

Lemma X14_witness :
  let data : gmap pystr pystr := {[k_primary_keyword := py "tea"]} in
  data !! k_brand_name = None ∧ data !! k_user_notes = None ∧
  generate_article_request data
    = generate_article_request (<[k_brand_name := py "Not specified"]> data) ∧
  generate_article_request data
    = generate_article_request (<[k_user_notes := py "None"]> data).
Proof.
  intros data.
  assert (H1 : data !! k_brand_name = None) by reflexivity.
  assert (H2 : data !! k_user_notes = None) by reflexivity.
  destruct (X14_brand_and_notes_default_when_empty data)
    as (_ & _ & _ & T1 & T2).
  split; [exact H1|]. split; [exact H2|].
  split; [exact (T1 H1)|exact (T2 H2)].
Defined.

End Prompts.
